(** * ERC-8004 subgraph: entity state machine, aggregation engine,
      off-chain wiring bridge and registration-file parser

    A shallow embedding of the mapping handlers of
    [src/identity-registry.ts] and [src/reputation-registry.ts], of the
    registration file data source handler [parseRegistrationFile] and of
    [src/utils/registration-parser.ts].

    The record store is a family of finite maps from entity ids to entity
    records; a handler is a function on the store, and [None] where the host
    would abort it.  Every [save()] and every [createWithContext] is also
    appended, in program order, to a trace, which is what the ordering
    statements are about.  Log calls are left out.

    [BigInt] is [Z]; [i32] array cells wrap at 32 bits; [BigDecimal] is
    taken as exact rational arithmetic, with division by zero an abort.
    Strings are sequences of one-byte characters. *)

From Stdlib Require Import ZArith QArith String Ascii List Lia.
From Stdlib Require Strings.Byte.
From stdpp Require Import base option list strings pretty gmap.

Local Open Scope Z_scope.

(* ===================================================================== *)
(** * Host values: bytes, integers, decimals, strings                     *)
(* ===================================================================== *)

(** [Bytes] and [Address] of graph-ts are byte arrays. *)
Abbreviation Bytes := (list Byte.byte).

#[global] Instance byte_eq_dec : EqDecision Byte.byte := Byte.byte_eq_dec.

Module Host.

(** [BigInt] is arbitrary precision: [Z].  [BigDecimal] is taken as exact
    rational arithmetic: [Q]. *)
Abbreviation BigInt := Z.
Abbreviation BigDecimal := Q.

(** AssemblyScript [i32]: two's complement, additions wrap. *)
Definition wrap32 (z : Z) : Z := (z + 2 ^ 31) mod 2 ^ 32 - 2 ^ 31.
Definition i32_add (a b : Z) : Z := wrap32 (a + b).

(** [x.toString()] on [i32] and [BigInt]: the decimal numeral. *)
Definition toString (z : Z) : string := pretty z.

Definition hexDigit (n : N) : ascii :=
  match n with
  | 0 => "0" | 1 => "1" | 2 => "2" | 3 => "3" | 4 => "4" | 5 => "5"
  | 6 => "6" | 7 => "7" | 8 => "8" | 9 => "9" | 10 => "a" | 11 => "b"
  | 12 => "c" | 13 => "d" | 14 => "e" | _ => "f"
  end%char%N.

Definition byteToHex (b : Byte.byte) : string :=
  let n := Byte.to_N b in
  String (hexDigit (n / 16)) (String (hexDigit (n mod 16)) EmptyString).

Fixpoint hexBody (b : Bytes) : string :=
  match b with
  | [] => EmptyString
  | x :: r => byteToHex x +:+ hexBody r
  end.

(** [bytes.toHexString()]: lower-case hex behind a [0x] prefix. *)
Definition toHexString (b : Bytes) : string := "0x" +:+ hexBody b.

(** [BigDecimal.fromString(n.toString())] for an integer [n]. *)
Definition BigDecimal_ofInt (n : Z) : BigDecimal := inject_Z n.

(** [a.div(b)]: the host aborts the handler on a zero divisor. *)
Definition BigDecimal_div (a b : BigDecimal) : option BigDecimal :=
  if Qeq_bool b 0 then None else Some (a / b)%Q.

(** [s.length > 0] on strings. *)
Definition nonEmpty (s : string) : bool := bool_decide (0 < String.length s)%nat.

(** [arr.includes(x)] on a string array. *)
Definition includes (arr : list string) (x : string) : bool :=
  bool_decide (x ∈ arr).

(** [s.startsWith(p)]. *)
Definition startsWith (s p : string) : bool := String.prefix p s.

(** [s.split(sep)] for a one-character separator: the pieces between
    consecutive separators, the empty ones included. *)
Fixpoint split_go (sep : ascii) (cur : string) (s : string) : list string :=
  match s with
  | EmptyString => [String.rev cur]
  | String c r =>
      if bool_decide (c = sep)
      then String.rev cur :: split_go sep EmptyString r
      else split_go sep (String c cur) r
  end.
Definition split (s : string) (sep : ascii) : list string :=
  split_go sep EmptyString s.

Definition ZERO_ADDRESS_HEX : string :=
  "0x0000000000000000000000000000000000000000".
Definition ZERO_BYTES32_HEX : string :=
  "0x0000000000000000000000000000000000000000000000000000000000000000".

Definition zeroAddress : Bytes := repeat Byte.x00 20.
Definition zeroBytes32 : Bytes := repeat Byte.x00 32.

End Host.
Import Host.

(* ===================================================================== *)
(** * Entities (generated/schema)                                         *)
(* ===================================================================== *)

Module Agent.
Record t := mk {
  id : string;
  chainId : BigInt;
  agentId : BigInt;
  createdAt : BigInt;
  operators : list Bytes;
  totalFeedback : BigInt;
  lastActivity : BigInt;
  registrationFile : option string;
  owner : Bytes;
  agentURI : string;
  agentURIType : string;
  updatedAt : BigInt
}.
Definition set_operators (v : list Bytes) (a : t) : t :=
  mk (id a) (chainId a) (agentId a) (createdAt a) v (totalFeedback a)
     (lastActivity a) (registrationFile a) (owner a) (agentURI a)
     (agentURIType a) (updatedAt a).
Definition set_totalFeedback (v : BigInt) (a : t) : t :=
  mk (id a) (chainId a) (agentId a) (createdAt a) (operators a) v
     (lastActivity a) (registrationFile a) (owner a) (agentURI a)
     (agentURIType a) (updatedAt a).
Definition set_lastActivity (v : BigInt) (a : t) : t :=
  mk (id a) (chainId a) (agentId a) (createdAt a) (operators a)
     (totalFeedback a) v (registrationFile a) (owner a) (agentURI a)
     (agentURIType a) (updatedAt a).
Definition set_registrationFile (v : option string) (a : t) : t :=
  mk (id a) (chainId a) (agentId a) (createdAt a) (operators a)
     (totalFeedback a) (lastActivity a) v (owner a) (agentURI a)
     (agentURIType a) (updatedAt a).
Definition set_owner (v : Bytes) (a : t) : t :=
  mk (id a) (chainId a) (agentId a) (createdAt a) (operators a)
     (totalFeedback a) (lastActivity a) (registrationFile a) v (agentURI a)
     (agentURIType a) (updatedAt a).
Definition set_agentURI (v : string) (a : t) : t :=
  mk (id a) (chainId a) (agentId a) (createdAt a) (operators a)
     (totalFeedback a) (lastActivity a) (registrationFile a) (owner a) v
     (agentURIType a) (updatedAt a).
Definition set_agentURIType (v : string) (a : t) : t :=
  mk (id a) (chainId a) (agentId a) (createdAt a) (operators a)
     (totalFeedback a) (lastActivity a) (registrationFile a) (owner a)
     (agentURI a) v (updatedAt a).
Definition set_updatedAt (v : BigInt) (a : t) : t :=
  mk (id a) (chainId a) (agentId a) (createdAt a) (operators a)
     (totalFeedback a) (lastActivity a) (registrationFile a) (owner a)
     (agentURI a) (agentURIType a) v.
End Agent.

Module AgentMetadata.
Record t := mk {
  id : string;
  agent : string;
  key : string;
  value : Bytes;
  updatedAt : BigInt
}.
End AgentMetadata.

Module Feedback.
Record t := mk {
  id : string;
  agent : string;
  clientAddress : Bytes;
  score : Z;
  tag1 : option string;
  tag2 : option string;
  feedbackUri : string;
  feedbackURIType : string;
  feedbackHash : Bytes;
  isRevoked : bool;
  createdAt : BigInt;
  revokedAt : option BigInt;
  feedbackFile : option string
}.
Definition set_feedbackURIType (v : string) (f : t) : t :=
  mk (id f) (agent f) (clientAddress f) (score f) (tag1 f) (tag2 f)
     (feedbackUri f) v (feedbackHash f) (isRevoked f) (createdAt f)
     (revokedAt f) (feedbackFile f).
Definition set_isRevoked (v : bool) (f : t) : t :=
  mk (id f) (agent f) (clientAddress f) (score f) (tag1 f) (tag2 f)
     (feedbackUri f) (feedbackURIType f) (feedbackHash f) v (createdAt f)
     (revokedAt f) (feedbackFile f).
Definition set_revokedAt (v : option BigInt) (f : t) : t :=
  mk (id f) (agent f) (clientAddress f) (score f) (tag1 f) (tag2 f)
     (feedbackUri f) (feedbackURIType f) (feedbackHash f) (isRevoked f)
     (createdAt f) v (feedbackFile f).
Definition set_feedbackFile (v : option string) (f : t) : t :=
  mk (id f) (agent f) (clientAddress f) (score f) (tag1 f) (tag2 f)
     (feedbackUri f) (feedbackURIType f) (feedbackHash f) (isRevoked f)
     (createdAt f) (revokedAt f) v.
End Feedback.

Module FeedbackResponse.
Record t := mk {
  id : string;
  feedback : string;
  responder : Bytes;
  responseUri : string;
  responseHash : Bytes;
  createdAt : BigInt
}.
End FeedbackResponse.

Module AgentStats.
Record t := mk {
  id : string;
  agent : string;
  totalFeedback : BigInt;
  averageScore : BigDecimal;
  scoreDistribution : list Z;      (* i32[] *)
  totalValidations : BigInt;
  completedValidations : BigInt;
  averageValidationScore : BigDecimal;
  lastActivity : BigInt;
  updatedAt : BigInt
}.
Definition set_totalFeedback (v : BigInt) (s : t) : t :=
  mk (id s) (agent s) v (averageScore s) (scoreDistribution s)
     (totalValidations s) (completedValidations s)
     (averageValidationScore s) (lastActivity s) (updatedAt s).
Definition set_averageScore (v : BigDecimal) (s : t) : t :=
  mk (id s) (agent s) (totalFeedback s) v (scoreDistribution s)
     (totalValidations s) (completedValidations s)
     (averageValidationScore s) (lastActivity s) (updatedAt s).
Definition set_scoreDistribution (v : list Z) (s : t) : t :=
  mk (id s) (agent s) (totalFeedback s) (averageScore s) v
     (totalValidations s) (completedValidations s)
     (averageValidationScore s) (lastActivity s) (updatedAt s).
Definition set_lastActivity (v : BigInt) (s : t) : t :=
  mk (id s) (agent s) (totalFeedback s) (averageScore s)
     (scoreDistribution s) (totalValidations s) (completedValidations s)
     (averageValidationScore s) v (updatedAt s).
Definition set_updatedAt (v : BigInt) (s : t) : t :=
  mk (id s) (agent s) (totalFeedback s) (averageScore s)
     (scoreDistribution s) (totalValidations s) (completedValidations s)
     (averageValidationScore s) (lastActivity s) v.
End AgentStats.

Module Protocol.
Record t := mk {
  id : string;
  chainId : BigInt;
  name : string;
  identityRegistry : Bytes;
  reputationRegistry : Bytes;
  validationRegistry : Bytes;
  totalAgents : BigInt;
  totalFeedback : BigInt;
  totalValidations : BigInt;
  agents : list string;
  tags : list string;
  updatedAt : BigInt
}.
Definition set_totalAgents (v : BigInt) (p : t) : t :=
  mk (id p) (chainId p) (name p) (identityRegistry p) (reputationRegistry p)
     (validationRegistry p) v (totalFeedback p) (totalValidations p)
     (agents p) (tags p) (updatedAt p).
Definition set_totalFeedback (v : BigInt) (p : t) : t :=
  mk (id p) (chainId p) (name p) (identityRegistry p) (reputationRegistry p)
     (validationRegistry p) (totalAgents p) v (totalValidations p)
     (agents p) (tags p) (updatedAt p).
Definition set_agents (v : list string) (p : t) : t :=
  mk (id p) (chainId p) (name p) (identityRegistry p) (reputationRegistry p)
     (validationRegistry p) (totalAgents p) (totalFeedback p)
     (totalValidations p) v (tags p) (updatedAt p).
Definition set_tags (v : list string) (p : t) : t :=
  mk (id p) (chainId p) (name p) (identityRegistry p) (reputationRegistry p)
     (validationRegistry p) (totalAgents p) (totalFeedback p)
     (totalValidations p) (agents p) v (updatedAt p).
Definition set_updatedAt (v : BigInt) (p : t) : t :=
  mk (id p) (chainId p) (name p) (identityRegistry p) (reputationRegistry p)
     (validationRegistry p) (totalAgents p) (totalFeedback p)
     (totalValidations p) (agents p) (tags p) v.
End Protocol.

Module GlobalStats.
Record t := mk {
  id : string;
  totalAgents : BigInt;
  totalFeedback : BigInt;
  totalValidations : BigInt;
  totalProtocols : BigInt;
  agents : list string;
  tags : list string;
  updatedAt : BigInt
}.
Definition set_totalAgents (v : BigInt) (g : t) : t :=
  mk (id g) v (totalFeedback g) (totalValidations g) (totalProtocols g)
     (agents g) (tags g) (updatedAt g).
Definition set_totalFeedback (v : BigInt) (g : t) : t :=
  mk (id g) (totalAgents g) v (totalValidations g) (totalProtocols g)
     (agents g) (tags g) (updatedAt g).
Definition set_totalProtocols (v : BigInt) (g : t) : t :=
  mk (id g) (totalAgents g) (totalFeedback g) (totalValidations g) v
     (agents g) (tags g) (updatedAt g).
Definition set_agents (v : list string) (g : t) : t :=
  mk (id g) (totalAgents g) (totalFeedback g) (totalValidations g)
     (totalProtocols g) v (tags g) (updatedAt g).
Definition set_tags (v : list string) (g : t) : t :=
  mk (id g) (totalAgents g) (totalFeedback g) (totalValidations g)
     (totalProtocols g) (agents g) v (updatedAt g).
Definition set_updatedAt (v : BigInt) (g : t) : t :=
  mk (id g) (totalAgents g) (totalFeedback g) (totalValidations g)
     (totalProtocols g) (agents g) (tags g) v.
End GlobalStats.

(** The parsed registration file, the record the file data source stores. *)
Module AgentRegistrationFile.
Record t := mk {
  id : string;
  cid : string;
  agentId : string;
  createdAt : BigInt;
  supportedTrusts : list string;
  mcpTools : list string;
  mcpPrompts : list string;
  mcpResources : list string;
  a2aSkills : list string;
  name : option string;
  description : option string;
  image : option string;
  active : option bool;
  x402support : option bool;
  mcpEndpoint : option string;
  mcpVersion : option string;
  a2aEndpoint : option string;
  a2aVersion : option string;
  agentWallet : option Bytes;
  agentWalletChainId : option BigInt;
  ens : option string;
  did : option string
}.
Definition set_supportedTrusts (v : list string) (m : t) : t :=
  mk (id m) (cid m) (agentId m) (createdAt m) v (mcpTools m) (mcpPrompts m)
     (mcpResources m) (a2aSkills m) (name m) (description m) (image m)
     (active m) (x402support m) (mcpEndpoint m) (mcpVersion m)
     (a2aEndpoint m) (a2aVersion m) (agentWallet m) (agentWalletChainId m)
     (ens m) (did m).
Definition set_mcpTools (v : list string) (m : t) : t :=
  mk (id m) (cid m) (agentId m) (createdAt m) (supportedTrusts m) v
     (mcpPrompts m) (mcpResources m) (a2aSkills m) (name m) (description m)
     (image m) (active m) (x402support m) (mcpEndpoint m) (mcpVersion m)
     (a2aEndpoint m) (a2aVersion m) (agentWallet m) (agentWalletChainId m)
     (ens m) (did m).
Definition set_mcpPrompts (v : list string) (m : t) : t :=
  mk (id m) (cid m) (agentId m) (createdAt m) (supportedTrusts m)
     (mcpTools m) v (mcpResources m) (a2aSkills m) (name m) (description m)
     (image m) (active m) (x402support m) (mcpEndpoint m) (mcpVersion m)
     (a2aEndpoint m) (a2aVersion m) (agentWallet m) (agentWalletChainId m)
     (ens m) (did m).
Definition set_mcpResources (v : list string) (m : t) : t :=
  mk (id m) (cid m) (agentId m) (createdAt m) (supportedTrusts m)
     (mcpTools m) (mcpPrompts m) v (a2aSkills m) (name m) (description m)
     (image m) (active m) (x402support m) (mcpEndpoint m) (mcpVersion m)
     (a2aEndpoint m) (a2aVersion m) (agentWallet m) (agentWalletChainId m)
     (ens m) (did m).
Definition set_a2aSkills (v : list string) (m : t) : t :=
  mk (id m) (cid m) (agentId m) (createdAt m) (supportedTrusts m)
     (mcpTools m) (mcpPrompts m) (mcpResources m) v (name m) (description m)
     (image m) (active m) (x402support m) (mcpEndpoint m) (mcpVersion m)
     (a2aEndpoint m) (a2aVersion m) (agentWallet m) (agentWalletChainId m)
     (ens m) (did m).
Definition set_name (v : option string) (m : t) : t :=
  mk (id m) (cid m) (agentId m) (createdAt m) (supportedTrusts m)
     (mcpTools m) (mcpPrompts m) (mcpResources m) (a2aSkills m) v
     (description m) (image m) (active m) (x402support m) (mcpEndpoint m)
     (mcpVersion m) (a2aEndpoint m) (a2aVersion m) (agentWallet m)
     (agentWalletChainId m) (ens m) (did m).
Definition set_description (v : option string) (m : t) : t :=
  mk (id m) (cid m) (agentId m) (createdAt m) (supportedTrusts m)
     (mcpTools m) (mcpPrompts m) (mcpResources m) (a2aSkills m) (name m) v
     (image m) (active m) (x402support m) (mcpEndpoint m) (mcpVersion m)
     (a2aEndpoint m) (a2aVersion m) (agentWallet m) (agentWalletChainId m)
     (ens m) (did m).
Definition set_image (v : option string) (m : t) : t :=
  mk (id m) (cid m) (agentId m) (createdAt m) (supportedTrusts m)
     (mcpTools m) (mcpPrompts m) (mcpResources m) (a2aSkills m) (name m)
     (description m) v (active m) (x402support m) (mcpEndpoint m)
     (mcpVersion m) (a2aEndpoint m) (a2aVersion m) (agentWallet m)
     (agentWalletChainId m) (ens m) (did m).
Definition set_active (v : option bool) (m : t) : t :=
  mk (id m) (cid m) (agentId m) (createdAt m) (supportedTrusts m)
     (mcpTools m) (mcpPrompts m) (mcpResources m) (a2aSkills m) (name m)
     (description m) (image m) v (x402support m) (mcpEndpoint m)
     (mcpVersion m) (a2aEndpoint m) (a2aVersion m) (agentWallet m)
     (agentWalletChainId m) (ens m) (did m).
Definition set_x402support (v : option bool) (m : t) : t :=
  mk (id m) (cid m) (agentId m) (createdAt m) (supportedTrusts m)
     (mcpTools m) (mcpPrompts m) (mcpResources m) (a2aSkills m) (name m)
     (description m) (image m) (active m) v (mcpEndpoint m) (mcpVersion m)
     (a2aEndpoint m) (a2aVersion m) (agentWallet m) (agentWalletChainId m)
     (ens m) (did m).
Definition set_mcpEndpoint (v : option string) (m : t) : t :=
  mk (id m) (cid m) (agentId m) (createdAt m) (supportedTrusts m)
     (mcpTools m) (mcpPrompts m) (mcpResources m) (a2aSkills m) (name m)
     (description m) (image m) (active m) (x402support m) v (mcpVersion m)
     (a2aEndpoint m) (a2aVersion m) (agentWallet m) (agentWalletChainId m)
     (ens m) (did m).
Definition set_mcpVersion (v : option string) (m : t) : t :=
  mk (id m) (cid m) (agentId m) (createdAt m) (supportedTrusts m)
     (mcpTools m) (mcpPrompts m) (mcpResources m) (a2aSkills m) (name m)
     (description m) (image m) (active m) (x402support m) (mcpEndpoint m) v
     (a2aEndpoint m) (a2aVersion m) (agentWallet m) (agentWalletChainId m)
     (ens m) (did m).
Definition set_a2aEndpoint (v : option string) (m : t) : t :=
  mk (id m) (cid m) (agentId m) (createdAt m) (supportedTrusts m)
     (mcpTools m) (mcpPrompts m) (mcpResources m) (a2aSkills m) (name m)
     (description m) (image m) (active m) (x402support m) (mcpEndpoint m)
     (mcpVersion m) v (a2aVersion m) (agentWallet m) (agentWalletChainId m)
     (ens m) (did m).
Definition set_a2aVersion (v : option string) (m : t) : t :=
  mk (id m) (cid m) (agentId m) (createdAt m) (supportedTrusts m)
     (mcpTools m) (mcpPrompts m) (mcpResources m) (a2aSkills m) (name m)
     (description m) (image m) (active m) (x402support m) (mcpEndpoint m)
     (mcpVersion m) (a2aEndpoint m) v (agentWallet m) (agentWalletChainId m)
     (ens m) (did m).
Definition set_agentWallet (v : option Bytes) (m : t) : t :=
  mk (id m) (cid m) (agentId m) (createdAt m) (supportedTrusts m)
     (mcpTools m) (mcpPrompts m) (mcpResources m) (a2aSkills m) (name m)
     (description m) (image m) (active m) (x402support m) (mcpEndpoint m)
     (mcpVersion m) (a2aEndpoint m) (a2aVersion m) v (agentWalletChainId m)
     (ens m) (did m).
Definition set_agentWalletChainId (v : option BigInt) (m : t) : t :=
  mk (id m) (cid m) (agentId m) (createdAt m) (supportedTrusts m)
     (mcpTools m) (mcpPrompts m) (mcpResources m) (a2aSkills m) (name m)
     (description m) (image m) (active m) (x402support m) (mcpEndpoint m)
     (mcpVersion m) (a2aEndpoint m) (a2aVersion m) (agentWallet m) v (ens m)
     (did m).
Definition set_ens (v : option string) (m : t) : t :=
  mk (id m) (cid m) (agentId m) (createdAt m) (supportedTrusts m)
     (mcpTools m) (mcpPrompts m) (mcpResources m) (a2aSkills m) (name m)
     (description m) (image m) (active m) (x402support m) (mcpEndpoint m)
     (mcpVersion m) (a2aEndpoint m) (a2aVersion m) (agentWallet m)
     (agentWalletChainId m) v (did m).
Definition set_did (v : option string) (m : t) : t :=
  mk (id m) (cid m) (agentId m) (createdAt m) (supportedTrusts m)
     (mcpTools m) (mcpPrompts m) (mcpResources m) (a2aSkills m) (name m)
     (description m) (image m) (active m) (x402support m) (mcpEndpoint m)
     (mcpVersion m) (a2aEndpoint m) (a2aVersion m) (agentWallet m)
     (agentWalletChainId m) (ens m) v.
End AgentRegistrationFile.

(* ===================================================================== *)
(** * Record store, file data sources and the effect trace                *)
(* ===================================================================== *)

(** The four file data source templates of [generated/templates]. *)
Inductive Template :=
| RegistrationFileTemplate
| ArweaveRegistrationFileTemplate
| FeedbackFileTemplate
| ArweaveFeedbackFileTemplate.

(** [DataSourceContext]: a map from names to strings or big integers. *)
Inductive CtxValue :=
| CtxString (s : string)
| CtxBigInt (n : BigInt).

Abbreviation DataSourceContext := (gmap string CtxValue).

Definition setString (k v : string) (c : DataSourceContext) : DataSourceContext :=
  <[k := CtxString v]> c.
Definition setBigInt (k : string) (v : BigInt) (c : DataSourceContext)
  : DataSourceContext :=
  <[k := CtxBigInt v]> c.
(** [context.getString(k)] aborts when [k] is unset or not a string. *)
Definition getString (k : string) (c : DataSourceContext) : option string :=
  match c !! k with Some (CtxString s) => Some s | _ => None end.
Definition getBigInt (k : string) (c : DataSourceContext) : option BigInt :=
  match c !! k with Some (CtxBigInt n) => Some n | _ => None end.

(** What [Template.createWithContext(param, context)] hands to the host's
    fetch subsystem, and what the file handler later reads back through
    [dataSource.stringParam()] and [dataSource.context()]. *)
Record DataSource := mkDataSource {
  ds_template : Template;
  ds_param : string;
  ds_context : DataSourceContext
}.

Inductive Effect :=
| SaveAgent (a : Agent.t)
| SaveAgentMetadata (m : AgentMetadata.t)
| SaveFeedback (f : Feedback.t)
| SaveFeedbackResponse (r : FeedbackResponse.t)
| SaveAgentStats (s : AgentStats.t)
| SaveProtocol (p : Protocol.t)
| SaveGlobalStats (g : GlobalStats.t)
| CreateDataSource (d : DataSource).

Record World := mkWorld {
  agents : gmap string Agent.t;
  agentMetadata : gmap string AgentMetadata.t;
  feedbacks : gmap string Feedback.t;
  responses : gmap string FeedbackResponse.t;
  agentStats : gmap string AgentStats.t;
  protocols : gmap string Protocol.t;
  globalStats : gmap string GlobalStats.t;
  trace : list Effect
}.

Definition emptyWorld : World := mkWorld ∅ ∅ ∅ ∅ ∅ ∅ ∅ [].

(** [entity.save()]: upsert under the entity's own id. *)
Definition Agent_save (a : Agent.t) (w : World) : World :=
  mkWorld (<[Agent.id a := a]> (agents w)) (agentMetadata w) (feedbacks w)
    (responses w) (agentStats w) (protocols w) (globalStats w)
    (trace w ++ [SaveAgent a]).
Definition AgentMetadata_save (m : AgentMetadata.t) (w : World) : World :=
  mkWorld (agents w) (<[AgentMetadata.id m := m]> (agentMetadata w))
    (feedbacks w) (responses w) (agentStats w) (protocols w) (globalStats w)
    (trace w ++ [SaveAgentMetadata m]).
Definition Feedback_save (f : Feedback.t) (w : World) : World :=
  mkWorld (agents w) (agentMetadata w) (<[Feedback.id f := f]> (feedbacks w))
    (responses w) (agentStats w) (protocols w) (globalStats w)
    (trace w ++ [SaveFeedback f]).
Definition FeedbackResponse_save (r : FeedbackResponse.t) (w : World) : World :=
  mkWorld (agents w) (agentMetadata w) (feedbacks w)
    (<[FeedbackResponse.id r := r]> (responses w)) (agentStats w)
    (protocols w) (globalStats w) (trace w ++ [SaveFeedbackResponse r]).
Definition AgentStats_save (s : AgentStats.t) (w : World) : World :=
  mkWorld (agents w) (agentMetadata w) (feedbacks w) (responses w)
    (<[AgentStats.id s := s]> (agentStats w)) (protocols w) (globalStats w)
    (trace w ++ [SaveAgentStats s]).
Definition Protocol_save (p : Protocol.t) (w : World) : World :=
  mkWorld (agents w) (agentMetadata w) (feedbacks w) (responses w)
    (agentStats w) (<[Protocol.id p := p]> (protocols w)) (globalStats w)
    (trace w ++ [SaveProtocol p]).
Definition GlobalStats_save (g : GlobalStats.t) (w : World) : World :=
  mkWorld (agents w) (agentMetadata w) (feedbacks w) (responses w)
    (agentStats w) (protocols w) (<[GlobalStats.id g := g]> (globalStats w))
    (trace w ++ [SaveGlobalStats g]).

(** [Template.createWithContext(param, context)]. *)
Definition createWithContext (tpl : Template) (param : string)
    (ctx : DataSourceContext) (w : World) : World :=
  mkWorld (agents w) (agentMetadata w) (feedbacks w) (responses w)
    (agentStats w) (protocols w) (globalStats w)
    (trace w ++ [CreateDataSource (mkDataSource tpl param ctx)]).

(* ===================================================================== *)
(** * External collaborators                                              *)
(* ===================================================================== *)

Record ContractAddresses := mkContractAddresses {
  addr_identityRegistry : Bytes;
  addr_reputationRegistry : Bytes;
  addr_validationRegistry : Bytes
}.

(** The chain configuration ([contract-addresses]) and the URI classifiers
    ([utils/ipfs], [utils/arweave]) are imported by the handlers; they are
    parameters of the development. *)
Class HostEnv := {
  isSupportedChain : BigInt → bool;
  getChainName : BigInt → string;
  getContractAddresses : BigInt → ContractAddresses;
  determineUriType : string → string;
  isIpfsUri : string → bool;
  extractIpfsHash : string → string;
  isArweaveUri : string → bool;
  extractArweaveTxId : string → string;
  bytes32ToString : Bytes → option string
}.

(** What every event carries: the block timestamp, the transaction hash,
    and the value [getChainId()] ([utils/chain]) returns while the event is
    handled. *)
Record EventMeta := mkEventMeta {
  ev_chainId : Z;
  ev_timestamp : BigInt;
  ev_txHash : Bytes
}.

(** The composite keys, as the template strings of the handlers build them. *)
Definition agentEntityIdOf (chainId agentId : Z) : string :=
  toString chainId +:+ ":" +:+ toString agentId.
Definition feedbackIdOf (agentEntityId : string) (clientAddress : Bytes)
    (index : BigInt) : string :=
  agentEntityId +:+ ":" +:+ toHexString clientAddress +:+ ":" +:+ toString index.

(* ===================================================================== *)
(** * identity-registry.ts                                                *)
(* ===================================================================== *)

Module Identity.
Section Handlers.
Context `{HostEnv}.

Definition newGlobalStats : GlobalStats.t :=
  GlobalStats.mk "global" 0 0 0 0 [] [] 0.

Definition updateProtocolStats (chainId : BigInt) (agent : Agent.t)
    (timestamp : BigInt) (w : World) : World :=
  if negb (isSupportedChain chainId) then w
  else
    let protocolId := toString chainId in
    let loaded := protocols w !! protocolId in
    let isNewProtocol := match loaded with None => true | Some _ => false end in
    let protocol :=
      match loaded with
      | Some p => p
      | None =>
          let addresses := getContractAddresses chainId in
          Protocol.mk protocolId chainId (getChainName chainId)
            (addr_identityRegistry addresses)
            (addr_reputationRegistry addresses)
            (addr_validationRegistry addresses)
            0 0 0 [] [] 0
      end in
    let protocol :=
      Protocol.set_totalAgents (Protocol.totalAgents protocol + 1) protocol in
    let currentAgents := Protocol.agents protocol ++ [Agent.id agent] in
    let protocol := Protocol.set_agents currentAgents protocol in
    let protocol := Protocol.set_updatedAt timestamp protocol in
    let w := Protocol_save protocol w in
    if isNewProtocol then
      let globalStats :=
        match globalStats w !! "global" with
        | Some g => g
        | None => newGlobalStats
        end in
      let globalStats :=
        GlobalStats.set_totalProtocols
          (GlobalStats.totalProtocols globalStats + 1) globalStats in
      let globalStats := GlobalStats.set_updatedAt timestamp globalStats in
      GlobalStats_save globalStats w
    else w.

(** The body shared by the four [if (id.length > 0) { ... }] blocks of
    [handleAgentRegistered] and [handleUriUpdated]: build the context,
    create the file data source, then set and save the link. *)
Definition scheduleRegistrationFile (tpl : Template) (m : EventMeta)
    (agentEntityId cid : string) (agent : Agent.t) (w : World)
  : Agent.t * World :=
  let txHash := toHexString (ev_txHash m) in
  let fileId := txHash +:+ ":" +:+ cid in
  let context :=
    setBigInt "timestamp" (ev_timestamp m)
      (setString "txHash" txHash
        (setString "cid" cid
          (setString "agentId" agentEntityId ∅))) in
  let w := createWithContext tpl cid context w in
  let agent := Agent.set_registrationFile (Some fileId) agent in
  (agent, Agent_save agent w).

Definition handleAgentRegistered (m : EventMeta) (agentId : BigInt)
    (tokenURI : string) (owner : Bytes) (w : World) : World :=
  let chainId := ev_chainId m in
  let agentEntityId := agentEntityIdOf chainId agentId in
  let agent :=
    match agents w !! agentEntityId with
    | Some a => a
    | None =>
        Agent.mk agentEntityId chainId agentId (ev_timestamp m) [] 0
          (ev_timestamp m) None [] EmptyString EmptyString 0
    end in
  let agent := Agent.set_owner owner agent in
  let agent := Agent.set_agentURI tokenURI agent in
  let agent := Agent.set_agentURIType (determineUriType tokenURI) agent in
  let agent := Agent.set_updatedAt (ev_timestamp m) agent in
  let w := Agent_save agent w in
  let w := updateProtocolStats chainId agent (ev_timestamp m) w in
  let w := updateProtocolStats chainId agent (ev_timestamp m) w in
  let globalStats :=
    match globalStats w !! "global" with
    | Some g => g
    | None => newGlobalStats
    end in
  let globalStats :=
    GlobalStats.set_totalAgents (GlobalStats.totalAgents globalStats + 1)
      globalStats in
  let currentGlobalAgents := GlobalStats.agents globalStats ++ [Agent.id agent] in
  let globalStats := GlobalStats.set_agents currentGlobalAgents globalStats in
  let globalStats := GlobalStats.set_updatedAt (ev_timestamp m) globalStats in
  let w := GlobalStats_save globalStats w in
  let '(agent, w) :=
    if nonEmpty tokenURI && isIpfsUri tokenURI then
      let ipfsHash := extractIpfsHash tokenURI in
      if nonEmpty ipfsHash
      then scheduleRegistrationFile RegistrationFileTemplate m agentEntityId
             ipfsHash agent w
      else (agent, w)
    else (agent, w) in
  let '(agent, w) :=
    if nonEmpty tokenURI && isArweaveUri tokenURI then
      let arweaveTxId := extractArweaveTxId tokenURI in
      if nonEmpty arweaveTxId
      then scheduleRegistrationFile ArweaveRegistrationFileTemplate m
             agentEntityId arweaveTxId agent w
      else (agent, w)
    else (agent, w) in
  w.

Definition handleMetadataSet (m : EventMeta) (agentId : BigInt) (key : string)
    (value : Bytes) (w : World) : World :=
  let agentEntityId := agentEntityIdOf (ev_chainId m) agentId in
  match agents w !! agentEntityId with
  | None => w
  | Some agent =>
      let metadataId := toString agentId +:+ ":" +:+ key in
      let metadata :=
        AgentMetadata.mk metadataId agentEntityId key value (ev_timestamp m) in
      let w := AgentMetadata_save metadata w in
      let agent := Agent.set_updatedAt (ev_timestamp m) agent in
      Agent_save agent w
  end.

Definition handleUriUpdated (m : EventMeta) (agentId : BigInt)
    (newUri : string) (w : World) : World :=
  let agentEntityId := agentEntityIdOf (ev_chainId m) agentId in
  match agents w !! agentEntityId with
  | None => w
  | Some agent =>
      let agent := Agent.set_agentURI newUri agent in
      let agent := Agent.set_updatedAt (ev_timestamp m) agent in
      let w := Agent_save agent w in
      let '(agent, w) :=
        if isIpfsUri newUri then
          let agent := Agent.set_agentURIType "ipfs" agent in
          let w := Agent_save agent w in
          let ipfsHash := extractIpfsHash newUri in
          if nonEmpty ipfsHash
          then scheduleRegistrationFile RegistrationFileTemplate m
                 agentEntityId ipfsHash agent w
          else (agent, w)
        else (agent, w) in
      let '(agent, w) :=
        if isArweaveUri newUri then
          let agent := Agent.set_agentURIType "arweave" agent in
          let w := Agent_save agent w in
          let arweaveTxId := extractArweaveTxId newUri in
          if nonEmpty arweaveTxId
          then scheduleRegistrationFile ArweaveRegistrationFileTemplate m
                 agentEntityId arweaveTxId agent w
          else (agent, w)
        else (agent, w) in
      w
  end.

Definition handleTransfer (m : EventMeta) (from to : Bytes) (tokenId : BigInt)
    (w : World) : World :=
  if bool_decide (from = zeroAddress) then w
  else
    let agentEntityId := agentEntityIdOf (ev_chainId m) tokenId in
    match agents w !! agentEntityId with
    | None => w
    | Some agent =>
        let agent := Agent.set_owner to agent in
        let agent := Agent.set_updatedAt (ev_timestamp m) agent in
        Agent_save agent w
    end.

(** The search loop of [handleApproval]: is some operator's hex string the
    hex string of [approved]? *)
Fixpoint operatorFound (operators : list Bytes) (approved : Bytes) : bool :=
  match operators with
  | [] => false
  | o :: rest =>
      if bool_decide (toHexString o = toHexString approved) then true
      else operatorFound rest approved
  end.

(** The filter loop of [handleApproval]. *)
Fixpoint operatorsWithout (operators : list Bytes) (approved : Bytes)
  : list Bytes :=
  match operators with
  | [] => []
  | o :: rest =>
      if bool_decide (toHexString o ≠ toHexString approved)
      then o :: operatorsWithout rest approved
      else operatorsWithout rest approved
  end.

Definition handleApproval (m : EventMeta) (tokenId : BigInt) (approved : Bytes)
    (w : World) : World :=
  let agentEntityId := agentEntityIdOf (ev_chainId m) tokenId in
  match agents w !! agentEntityId with
  | None => w
  | Some agent =>
      let operators := Agent.operators agent in
      let operators :=
        if bool_decide (toHexString approved ≠ ZERO_ADDRESS_HEX) then
          if negb (operatorFound operators approved)
          then operators ++ [approved]
          else operators
        else operatorsWithout operators approved in
      let agent := Agent.set_operators operators agent in
      let agent := Agent.set_updatedAt (ev_timestamp m) agent in
      Agent_save agent w
  end.

(** [handleApprovalForAll] only logs. *)
Definition handleApprovalForAll (m : EventMeta) (owner operator : Bytes)
    (approved : bool) (w : World) : World := w.

End Handlers.
End Identity.

(* ===================================================================== *)
(** * reputation-registry.ts                                              *)
(* ===================================================================== *)

Module Reputation.
Section Handlers.
Context `{HostEnv}.

Definition newGlobalStats : GlobalStats.t :=
  GlobalStats.mk "global" 0 0 0 0 [] [] 0.

(** [distribution[i] = distribution[i] + 1] on an [i32] array; reading past
    the end aborts. *)
Definition bumpBucket (i : nat) (distribution : list Z) : option (list Z) :=
  match distribution !! i with
  | Some x => Some (<[i := i32_add x 1]> distribution)
  | None => None
  end.

(** The [if / else if] cascade of [updateAgentStats]. *)
Definition bucketIndex (score : Z) : nat :=
  if score <=? 20 then 0%nat
  else if score <=? 40 then 1%nat
  else if score <=? 60 then 2%nat
  else if score <=? 80 then 3%nat
  else 4%nat.

Definition updateAgentStats (agent : Agent.t) (score : Z) (timestamp : BigInt)
    (w : World) : option World :=
  let agent := Agent.set_totalFeedback (Agent.totalFeedback agent + 1) agent in
  let agent := Agent.set_lastActivity timestamp agent in
  let agent := Agent.set_updatedAt timestamp agent in
  let w := Agent_save agent w in
  let statsId := Agent.id agent in
  let stats :=
    match agentStats w !! statsId with
    | Some s => s
    | None =>
        AgentStats.mk statsId (Agent.id agent) 0 (BigDecimal_ofInt 0)
          [0; 0; 0; 0; 0] 0 0 (BigDecimal_ofInt 0) timestamp 0
    end in
  let stats :=
    AgentStats.set_totalFeedback (AgentStats.totalFeedback stats + 1) stats in
  distribution ← bumpBucket (bucketIndex score) (AgentStats.scoreDistribution stats);
  let stats := AgentStats.set_scoreDistribution distribution stats in
  let totalScore :=
    (AgentStats.averageScore stats
     * BigDecimal_ofInt (AgentStats.totalFeedback stats - 1))%Q in
  let newTotalScore := (totalScore + BigDecimal_ofInt score)%Q in
  averageScore ←
    BigDecimal_div newTotalScore (BigDecimal_ofInt (AgentStats.totalFeedback stats));
  let stats := AgentStats.set_averageScore averageScore stats in
  let stats := AgentStats.set_lastActivity timestamp stats in
  let stats := AgentStats.set_updatedAt timestamp stats in
  Some (AgentStats_save stats w).

Definition updateAgentStatsAfterRevocation (agent : Agent.t) (score : Z)
    (timestamp : BigInt) (w : World) : World :=
  let agent := Agent.set_totalFeedback (Agent.totalFeedback agent - 1) agent in
  let agent := Agent.set_updatedAt timestamp agent in
  let w := Agent_save agent w in
  match agentStats w !! Agent.id agent with
  | Some stats =>
      let stats :=
        AgentStats.set_totalFeedback (AgentStats.totalFeedback stats - 1) stats in
      let stats := AgentStats.set_updatedAt timestamp stats in
      AgentStats_save stats w
  | None => w
  end.

(** The "process tag" block that occurs four times in the file: skip the
    all-zero tag, push the hex string unless the array includes it. *)
Definition processTag (tag : Bytes) (currentTags : list string) : list string :=
  if bool_decide (toHexString tag ≠ ZERO_BYTES32_HEX) then
    let tagString := toHexString tag in
    if negb (includes currentTags tagString)
    then currentTags ++ [tagString]
    else currentTags
  else currentTags.

Definition updateProtocolStats (chainId : BigInt) (agent : Agent.t)
    (timestamp : BigInt) (tag1 tag2 : Bytes) (w : World) : World :=
  if negb (isSupportedChain chainId) then w
  else
    let protocolId := toString chainId in
    let protocol :=
      match protocols w !! protocolId with
      | Some p => p
      | None =>
          let addresses := getContractAddresses chainId in
          Protocol.mk protocolId chainId (getChainName chainId)
            (addr_identityRegistry addresses)
            (addr_reputationRegistry addresses)
            (addr_validationRegistry addresses)
            0 0 0 [] [] 0
      end in
    let protocol :=
      Protocol.set_totalFeedback (Protocol.totalFeedback protocol + 1) protocol in
    let currentTags := Protocol.tags protocol in
    let currentTags := processTag tag1 currentTags in
    let currentTags := processTag tag2 currentTags in
    let protocol := Protocol.set_tags currentTags protocol in
    let protocol := Protocol.set_updatedAt timestamp protocol in
    Protocol_save protocol w.

(** The body shared by the two [if (id.length > 0) { ... }] blocks of
    [handleNewFeedback]. *)
Definition scheduleFeedbackFile (tpl : Template) (m : EventMeta)
    (feedbackId cid : string) (feedback : Feedback.t) (w : World)
  : Feedback.t * World :=
  let txHash := toHexString (ev_txHash m) in
  let fileId := txHash +:+ ":" +:+ cid in
  let context :=
    setString "tag2OnChain" (default EmptyString (Feedback.tag2 feedback))
      (setString "tag1OnChain" (default EmptyString (Feedback.tag1 feedback))
        (setBigInt "timestamp" (ev_timestamp m)
          (setString "txHash" txHash
            (setString "cid" cid
              (setString "feedbackId" feedbackId ∅))))) in
  let w := createWithContext tpl cid context w in
  let feedback := Feedback.set_feedbackFile (Some fileId) feedback in
  (feedback, Feedback_save feedback w).

Definition handleNewFeedback (m : EventMeta) (agentId : BigInt)
    (clientAddress : Bytes) (score : Z) (tag1 tag2 : Bytes)
    (feedbackUri : string) (feedbackHash : Bytes) (w : World) : option World :=
  let chainId := ev_chainId m in
  let agentEntityId := agentEntityIdOf chainId agentId in
  match agents w !! agentEntityId with
  | None => Some w
  | Some agent =>
      let feedbackId :=
        feedbackIdOf agentEntityId clientAddress (Agent.totalFeedback agent + 1) in
      let feedback :=
        Feedback.mk feedbackId agentEntityId clientAddress score
          (bytes32ToString tag1) (bytes32ToString tag2) feedbackUri "unknown"
          feedbackHash false (ev_timestamp m) None None in
      let feedback :=
        if nonEmpty feedbackUri
        then Feedback.set_feedbackURIType (determineUriType feedbackUri) feedback
        else feedback in
      let w := Feedback_save feedback w in
      let '(feedback, w) :=
        if nonEmpty feedbackUri && isIpfsUri feedbackUri then
          let ipfsHash := extractIpfsHash feedbackUri in
          if nonEmpty ipfsHash
          then scheduleFeedbackFile FeedbackFileTemplate m feedbackId ipfsHash
                 feedback w
          else (feedback, w)
        else if nonEmpty feedbackUri && isArweaveUri feedbackUri then
          let arweaveTxId := extractArweaveTxId feedbackUri in
          if nonEmpty arweaveTxId
          then scheduleFeedbackFile ArweaveFeedbackFileTemplate m feedbackId
                 arweaveTxId feedback w
          else (feedback, w)
        else (feedback, w) in
      w ← updateAgentStats agent score (ev_timestamp m) w;
      let w := updateProtocolStats chainId agent (ev_timestamp m) tag1 tag2 w in
      let globalStats :=
        match globalStats w !! "global" with
        | Some g => g
        | None => newGlobalStats
        end in
      let globalStats :=
        GlobalStats.set_totalFeedback
          (GlobalStats.totalFeedback globalStats + 1) globalStats in
      let currentGlobalTags := GlobalStats.tags globalStats in
      let currentGlobalTags := processTag tag1 currentGlobalTags in
      let currentGlobalTags := processTag tag2 currentGlobalTags in
      let globalStats := GlobalStats.set_tags currentGlobalTags globalStats in
      let globalStats := GlobalStats.set_updatedAt (ev_timestamp m) globalStats in
      Some (GlobalStats_save globalStats w)
  end.

Definition handleFeedbackRevoked (m : EventMeta) (agentId : BigInt)
    (clientAddress : Bytes) (feedbackIndex : BigInt) (w : World) : World :=
  let agentEntityId := agentEntityIdOf (ev_chainId m) agentId in
  let feedbackId := feedbackIdOf agentEntityId clientAddress feedbackIndex in
  match feedbacks w !! feedbackId with
  | Some feedback =>
      let feedback := Feedback.set_isRevoked true feedback in
      let feedback := Feedback.set_revokedAt (Some (ev_timestamp m)) feedback in
      let w := Feedback_save feedback w in
      match agents w !! agentEntityId with
      | Some agent =>
          updateAgentStatsAfterRevocation agent (Feedback.score feedback)
            (ev_timestamp m) w
      | None => w
      end
  | None => w
  end.

Definition handleResponseAppended (m : EventMeta) (agentId : BigInt)
    (clientAddress : Bytes) (feedbackIndex : BigInt) (responder : Bytes)
    (responseUri : string) (responseHash : Bytes) (w : World) : World :=
  let agentEntityId := agentEntityIdOf (ev_chainId m) agentId in
  let feedbackId := feedbackIdOf agentEntityId clientAddress feedbackIndex in
  match feedbacks w !! feedbackId with
  | None => w
  | Some _ =>
      let responseId := feedbackId +:+ ":" +:+ toString (ev_timestamp m) in
      let response :=
        FeedbackResponse.mk responseId feedbackId responder responseUri
          responseHash (ev_timestamp m) in
      FeedbackResponse_save response w
  end.

End Handlers.
End Reputation.

(* ===================================================================== *)
(** * The event stream                                                    *)
(* ===================================================================== *)

Inductive Event :=
| Registered (m : EventMeta) (agentId : BigInt) (tokenURI : string) (owner : Bytes)
| MetadataSet (m : EventMeta) (agentId : BigInt) (key : string) (value : Bytes)
| UriUpdated (m : EventMeta) (agentId : BigInt) (newUri : string)
| Transfer (m : EventMeta) (from to : Bytes) (tokenId : BigInt)
| Approval (m : EventMeta) (tokenId : BigInt) (approved : Bytes)
| ApprovalForAll (m : EventMeta) (owner operator : Bytes) (approved : bool)
| NewFeedback (m : EventMeta) (agentId : BigInt) (clientAddress : Bytes)
    (score : Z) (tag1 tag2 : Bytes) (feedbackUri : string) (feedbackHash : Bytes)
| FeedbackRevoked (m : EventMeta) (agentId : BigInt) (clientAddress : Bytes)
    (feedbackIndex : BigInt)
| ResponseAppended (m : EventMeta) (agentId : BigInt) (clientAddress : Bytes)
    (feedbackIndex : BigInt) (responder : Bytes) (responseUri : string)
    (responseHash : Bytes).

Section Stream.
Context `{HostEnv}.

(** Dispatch of one event to its handler; [None] is a handler the host
    aborted. *)
Definition handle (e : Event) (w : World) : option World :=
  match e with
  | Registered m agentId tokenURI owner =>
      Some (Identity.handleAgentRegistered m agentId tokenURI owner w)
  | MetadataSet m agentId key value =>
      Some (Identity.handleMetadataSet m agentId key value w)
  | UriUpdated m agentId newUri =>
      Some (Identity.handleUriUpdated m agentId newUri w)
  | Transfer m from to tokenId =>
      Some (Identity.handleTransfer m from to tokenId w)
  | Approval m tokenId approved =>
      Some (Identity.handleApproval m tokenId approved w)
  | ApprovalForAll m owner operator approved =>
      Some (Identity.handleApprovalForAll m owner operator approved w)
  | NewFeedback m agentId clientAddress score tag1 tag2 feedbackUri feedbackHash =>
      Reputation.handleNewFeedback m agentId clientAddress score tag1 tag2
        feedbackUri feedbackHash w
  | FeedbackRevoked m agentId clientAddress feedbackIndex =>
      Some (Reputation.handleFeedbackRevoked m agentId clientAddress
              feedbackIndex w)
  | ResponseAppended m agentId clientAddress feedbackIndex responder
      responseUri responseHash =>
      Some (Reputation.handleResponseAppended m agentId clientAddress
              feedbackIndex responder responseUri responseHash w)
  end.

(** Events are handled one at a time, in order. *)
Fixpoint run (es : list Event) (w : World) : option World :=
  match es with
  | [] => Some w
  | e :: rest => w' ← handle e w; run rest w'
  end.

(** The stores an event stream can produce from the empty store. *)
Definition reachable (w : World) : Prop :=
  ∃ es, run es emptyWorld = Some w.

End Stream.

(* ===================================================================== *)
(** * utils/registration-parser.ts and the registration file handler     *)
(* ===================================================================== *)

(** A decoded JSON document ([JSONValue] of graph-ts, with its six kinds). *)
#[local] Set Warnings "-register-all".
Inductive JSONValue :=
| JNull
| JBool (b : bool)
| JNumber (n : string)
| JString (s : string)
| JArray (items : list JSONValue)
| JObject (entries : list (string * JSONValue)).

(** The host functions the parser calls.  [json.try_fromBytes] fails with
    [None]; [BigInt.fromString] aborts the handler with [None]. *)
Class JsonHost := {
  json_try_fromBytes : Bytes → option JSONValue;
  Bytes_fromHexString : string → Bytes;
  BigInt_fromString : string → option BigInt
}.

Module Parser.

(** [obj.get(key)] on a [TypedMap]: the first entry under [key], or null. *)
Fixpoint get (entries : list (string * JSONValue)) (key : string)
  : option JSONValue :=
  match entries with
  | [] => None
  | (k, v) :: rest => if bool_decide (k = key) then Some v else get rest key
  end.

(** [v && !v.isNull() && v.kind == JSONValueKind.STRING], then
    [v.toString()]. *)
Definition stringField (v : option JSONValue) : option string :=
  match v with
  | Some (JString s) => Some s
  | _ => None
  end.

(** [v && !v.isNull() && v.kind == JSONValueKind.ARRAY], then [v.toArray()]. *)
Definition arrayField (v : option JSONValue) : option (list JSONValue) :=
  match v with
  | Some (JArray items) => Some items
  | _ => None
  end.

(** [v && !v.isNull()]. *)
Definition present (v : option JSONValue) : bool :=
  match v with
  | None | Some JNull => false
  | Some _ => true
  end.

(** [v.toBool()], which aborts on a value that is not a boolean. *)
Definition toBool (v : JSONValue) : option bool :=
  match v with
  | JBool b => Some b
  | _ => None
  end.

(** The loops that keep the string elements of an array. *)
Fixpoint stringElements (items : list JSONValue) : list string :=
  match items with
  | [] => []
  | JString s :: rest => s :: stringElements rest
  | _ :: rest => stringElements rest
  end.

Section WithHost.
Context `{JsonHost}.

#[local] Abbreviation Meta := AgentRegistrationFile.t.

(** The [nameStr == 'agentWallet'] branch, for the endpoint string
    [walletStr]. *)
Definition parseAgentWallet (walletStr : string) (metadata : Meta)
  : option Meta :=
  if startsWith walletStr "eip155:" then
    let parts := split walletStr ":" in
    let hasAddress := bool_decide (2 < length parts)%nat in
    if hasAddress then
      addressPart ← parts !! 2%nat;
      if startsWith addressPart "0x"
         && bool_decide (String.length addressPart = 42%nat)
      then
        let metadata :=
          AgentRegistrationFile.set_agentWallet
            (Some (Bytes_fromHexString addressPart)) metadata in
        chainIdPart ← parts !! 1%nat;
        if nonEmpty chainIdPart then
          chainId ← BigInt_fromString chainIdPart;
          Some (AgentRegistrationFile.set_agentWalletChainId (Some chainId)
                  metadata)
        else Some metadata
      else Some metadata
    else Some metadata
  else if startsWith walletStr "0x"
          && bool_decide (String.length walletStr = 42%nat)
  then
    Some (AgentRegistrationFile.set_agentWallet
            (Some (Bytes_fromHexString walletStr)) metadata)
  else Some metadata.

Definition setIfString (v : option JSONValue)
    (set : option string → Meta → Meta) (metadata : Meta) : Meta :=
  match stringField v with
  | Some s => set (Some s) metadata
  | None => metadata
  end.

Definition setIfArray (v : option JSONValue)
    (set : list string → Meta → Meta) (metadata : Meta) : Meta :=
  match arrayField v with
  | Some items => set (stringElements items) metadata
  | None => metadata
  end.

(** The body of the loop over [endpointsArray]. *)
Definition parseEndpoint (endpointValue : JSONValue) (metadata : Meta)
  : option Meta :=
  match endpointValue with
  | JObject endpoint =>
      match stringField (get endpoint "name") with
      | Some nameStr =>
          if bool_decide (nameStr = "MCP") then
            let metadata :=
              setIfString (get endpoint "endpoint")
                AgentRegistrationFile.set_mcpEndpoint metadata in
            let metadata :=
              setIfString (get endpoint "version")
                AgentRegistrationFile.set_mcpVersion metadata in
            let metadata :=
              setIfArray (get endpoint "mcpTools")
                AgentRegistrationFile.set_mcpTools metadata in
            let metadata :=
              setIfArray (get endpoint "mcpPrompts")
                AgentRegistrationFile.set_mcpPrompts metadata in
            let metadata :=
              setIfArray (get endpoint "mcpResources")
                AgentRegistrationFile.set_mcpResources metadata in
            Some metadata
          else if bool_decide (nameStr = "A2A") then
            let metadata :=
              setIfString (get endpoint "endpoint")
                AgentRegistrationFile.set_a2aEndpoint metadata in
            let metadata :=
              setIfString (get endpoint "version")
                AgentRegistrationFile.set_a2aVersion metadata in
            let metadata :=
              setIfArray (get endpoint "a2aSkills")
                AgentRegistrationFile.set_a2aSkills metadata in
            Some metadata
          else if bool_decide (nameStr = "agentWallet") then
            match stringField (get endpoint "endpoint") with
            | Some walletStr => parseAgentWallet walletStr metadata
            | None => Some metadata
            end
          else if bool_decide (nameStr = "ENS") then
            Some (setIfString (get endpoint "endpoint")
                    AgentRegistrationFile.set_ens metadata)
          else if bool_decide (nameStr = "DID") then
            Some (setIfString (get endpoint "endpoint")
                    AgentRegistrationFile.set_did metadata)
          else Some metadata
      | None => Some metadata
      end
  | _ => Some metadata
  end.

Fixpoint parseEndpoints (endpointsArray : list JSONValue) (metadata : Meta)
  : option Meta :=
  match endpointsArray with
  | [] => Some metadata
  | endpointValue :: rest =>
      metadata ← parseEndpoint endpointValue metadata;
      parseEndpoints rest metadata
  end.

(** [parseRegistrationJSON]: the outer [None] is an aborted handler, the
    inner one the [null] the function returns. *)
Definition parseRegistrationJSON (content : Bytes) (fileId agentId cid : string)
    (timestamp : BigInt) : option (option Meta) :=
  let metadata :=
    AgentRegistrationFile.mk fileId cid agentId timestamp [] [] [] [] []
      None None None None None None None None None None None None None in
  match json_try_fromBytes content with
  | None => Some None
  | Some (JObject obj) =>
      let metadata :=
        setIfString (get obj "name") AgentRegistrationFile.set_name metadata in
      let metadata :=
        setIfString (get obj "description")
          AgentRegistrationFile.set_description metadata in
      let metadata :=
        setIfString (get obj "image") AgentRegistrationFile.set_image metadata in
      metadata ←
        (if present (get obj "active") then
           b ← get obj "active" ≫= toBool;
           Some (AgentRegistrationFile.set_active (Some b) metadata)
         else Some metadata);
      metadata ←
        (if present (get obj "x402support") then
           b ← get obj "x402support" ≫= toBool;
           Some (AgentRegistrationFile.set_x402support (Some b) metadata)
         else Some metadata);
      let supportedTrusts :=
        if present (get obj "supportedTrusts")
        then get obj "supportedTrusts"
        else get obj "supportedTrust" in
      let metadata :=
        setIfArray supportedTrusts AgentRegistrationFile.set_supportedTrusts
          metadata in
      metadata ←
        match arrayField (get obj "endpoints") with
        | Some endpointsArray => parseEndpoints endpointsArray metadata
        | None => Some metadata
        end;
      Some (Some metadata)
  | Some _ => Some None
  end.

(** [parseRegistrationFile], the handler of the registration file data
    sources.  It owns a store of its own: chain entities are out of its
    reach. *)
Definition parseRegistrationFile (content : Bytes) (dataSource : DataSource)
    (files : gmap string AgentRegistrationFile.t)
  : option (gmap string AgentRegistrationFile.t) :=
  let context := ds_context dataSource in
  let cid := ds_param dataSource in
  txHash ← getString "txHash" context;
  agentId ← getString "agentId" context;
  timestamp ← getBigInt "timestamp" context;
  let fileId := txHash +:+ ":" +:+ cid in
  metadata ← parseRegistrationJSON content fileId agentId cid timestamp;
  match metadata with
  | Some metadata => Some (<[AgentRegistrationFile.id metadata := metadata]> files)
  | None => Some files
  end.

(** The key [parseRegistrationFile] derives from its data source. *)
Definition recordKey (dataSource : DataSource) : option string :=
  txHash ← getString "txHash" (ds_context dataSource);
  Some (txHash +:+ ":" +:+ ds_param dataSource).

End WithHost.
End Parser.


(* ===================================================================== *)
(** * Specification vocabulary                                            *)
(* ===================================================================== *)

(** Does the string contain the key separator? *)
Fixpoint hasColon (s : string) : bool :=
  match s with
  | EmptyString => false
  | String c r => bool_decide (c = ":"%char) || hasColon r
  end.

(** A tag set as the claim wants it: no entry twice, and never the hex
    string of the all-zero 32-byte value. *)
Definition goodTags (tags : list string) : Prop :=
  NoDup tags ∧ ZERO_BYTES32_HEX ∉ tags.

(** The set discipline of the store: every stored Protocol and GlobalStats
    has a good tag set, every stored Agent an operator array without two
    entries of the same address. *)
Definition setsInv (w : World) : Prop :=
  (∀ k p, protocols w !! k = Some p → goodTags (Protocol.tags p)) ∧
  (∀ k g, globalStats w !! k = Some g → goodTags (GlobalStats.tags g)) ∧
  (∀ k a, agents w !! k = Some a → NoDup (toHexString <$> Agent.operators a)).

(** Every entity sits under its own id. *)
Definition wellKeyed (w : World) : Prop :=
  (∀ k a, agents w !! k = Some a → Agent.id a = k) ∧
  (∀ k f, feedbacks w !! k = Some f → Feedback.id f = k) ∧
  (∀ k s, agentStats w !! k = Some s → AgentStats.id s = k) ∧
  (∀ k p, protocols w !! k = Some p → Protocol.id p = k) ∧
  (∀ k g, globalStats w !! k = Some g → GlobalStats.id g = k).

Section Views.
Context `{HostEnv}.

(** The Protocol record a handler works on for chain [c]: the stored one,
    or the freshly initialised one when none is stored. *)
Definition newProtocol (c : BigInt) : Protocol.t :=
  Protocol.mk (toString c) c (getChainName c)
    (addr_identityRegistry (getContractAddresses c))
    (addr_reputationRegistry (getContractAddresses c))
    (addr_validationRegistry (getContractAddresses c))
    0 0 0 [] [] 0.
Definition protocolView (w : World) (c : BigInt) : Protocol.t :=
  default (newProtocol c) (protocols w !! toString c).

(** The GlobalStats singleton, or its initial value when it is not stored. *)
Definition globalView (w : World) : GlobalStats.t :=
  default Identity.newGlobalStats (globalStats w !! "global").

(** The Agent record [handleAgentRegistered] saves first. *)
Definition registeredAgent (m : EventMeta) (agentId : BigInt)
    (tokenURI : string) (owner : Bytes) (w : World) : Agent.t :=
  let agentEntityId := agentEntityIdOf (ev_chainId m) agentId in
  let agent :=
    match agents w !! agentEntityId with
    | Some a => a
    | None =>
        Agent.mk agentEntityId (ev_chainId m) agentId (ev_timestamp m) [] 0
          (ev_timestamp m) None [] EmptyString EmptyString 0
    end in
  Agent.set_updatedAt (ev_timestamp m)
    (Agent.set_agentURIType (determineUriType tokenURI)
      (Agent.set_agentURI tokenURI (Agent.set_owner owner agent))).

End Views.

(** Is the Protocol record of chain [c] about to be created by an
    [updateProtocolStats] call: a supported chain with no record yet. *)
Definition createsProtocol `{HostEnv} (w : World) (c : BigInt) : bool :=
  isSupportedChain c && bool_decide (protocols w !! toString c = None).

Section StreamVocabulary.
Context `{HostEnv}.

Definition eventMeta (e : Event) : EventMeta :=
  match e with
  | Registered m _ _ _ | MetadataSet m _ _ _ | UriUpdated m _ _
  | Transfer m _ _ _ | Approval m _ _ | ApprovalForAll m _ _ _
  | NewFeedback m _ _ _ _ _ _ _ | FeedbackRevoked m _ _ _
  | ResponseAppended m _ _ _ _ _ _ => m
  end.

(** The value of [getChainId()] while [e] is handled. *)
Definition eventChain (e : Event) : Z :=
  match e with
  | Registered m _ _ _ | MetadataSet m _ _ _ | UriUpdated m _ _
  | Transfer m _ _ _ | Approval m _ _ | ApprovalForAll m _ _ _
  | NewFeedback m _ _ _ _ _ _ _ | FeedbackRevoked m _ _ _
  | ResponseAppended m _ _ _ _ _ _ => ev_chainId m
  end.

(** The events whose handler reaches [updateProtocolStats]: every Register
    event, and a NewFeedback event whose Agent is stored. *)
Definition qualifying (e : Event) (w : World) : bool :=
  match e with
  | Registered _ _ _ _ => true
  | NewFeedback m agentId _ _ _ _ _ _ =>
      bool_decide (is_Some (agents w !! agentEntityIdOf (ev_chainId m) agentId))
  | _ => false
  end.

(** A stored Agent of a supported chain has that chain's Protocol stored. *)
Definition agentProtocolInv (w : World) : Prop :=
  ∀ c a, is_Some (agents w !! agentEntityIdOf c a) →
         isSupportedChain c = true →
         is_Some (protocols w !! toString c).

(** The AgentStats record [updateAgentStats] works on. *)
Definition newAgentStats (id : string) (timestamp : BigInt) : AgentStats.t :=
  AgentStats.mk id id 0 (BigDecimal_ofInt 0) [0; 0; 0; 0; 0] 0 0
    (BigDecimal_ofInt 0) timestamp 0.
Definition statsView (w : World) (id : string) (timestamp : BigInt)
  : AgentStats.t :=
  default (newAgentStats id timestamp) (agentStats w !! id).

(** The store right before [handleNewFeedback] calls [updateAgentStats]:
    the Feedback is saved and, when the URI names an off-chain file, the
    file data source is created and the link saved. *)
Definition feedbackStored (m : EventMeta) (agentId : BigInt)
    (clientAddress : Bytes) (score : Z) (tag1 tag2 : Bytes)
    (feedbackUri : string) (feedbackHash : Bytes) (agent : Agent.t)
    (w : World) : World :=
  let agentEntityId := agentEntityIdOf (ev_chainId m) agentId in
  let feedbackId :=
    feedbackIdOf agentEntityId clientAddress (Agent.totalFeedback agent + 1) in
  let feedback :=
    Feedback.mk feedbackId agentEntityId clientAddress score
      (bytes32ToString tag1) (bytes32ToString tag2) feedbackUri "unknown"
      feedbackHash false (ev_timestamp m) None None in
  let feedback :=
    if nonEmpty feedbackUri
    then Feedback.set_feedbackURIType (determineUriType feedbackUri) feedback
    else feedback in
  let w := Feedback_save feedback w in
  if nonEmpty feedbackUri && isIpfsUri feedbackUri then
    if nonEmpty (extractIpfsHash feedbackUri)
    then (Reputation.scheduleFeedbackFile FeedbackFileTemplate m feedbackId
            (extractIpfsHash feedbackUri) feedback w).2
    else w
  else if nonEmpty feedbackUri && isArweaveUri feedbackUri then
    if nonEmpty (extractArweaveTxId feedbackUri)
    then (Reputation.scheduleFeedbackFile ArweaveFeedbackFileTemplate m
            feedbackId (extractArweaveTxId feedbackUri) feedback w).2
    else w
  else w.

End StreamVocabulary.

(** ** Feedback statistics *)

Definition sumZ (l : list Z) : Z := foldr Z.add 0 l.

(** The arithmetic mean of a list of scores, as an exact rational. *)
Definition mean (scores : list Z) : Q :=
  (inject_Z (sumZ scores) / inject_Z (Z.of_nat (length scores)))%Q.

(** How many of the scores fall into histogram range [k]. *)
Definition bucketCount (k : nat) (scores : list Z) : Z :=
  Z.of_nat (length (filter (λ s, Reputation.bucketIndex s = k) scores)).

(** The score of a NewFeedback event of chain [c] for agent [agentId]. *)
Definition feedbackScoreFor (c agentId : Z) (e : Event) : option Z :=
  match e with
  | NewFeedback m agentId' _ score _ _ _ _ =>
      if bool_decide (ev_chainId m = c ∧ agentId' = agentId)
      then Some score else None
  | _ => None
  end.

(** An AgentStats record that reflects exactly the scores [prev]: the
    count, the running mean (stated without division) and the five [i32]
    bucket counters. *)
Definition tracks (st : AgentStats.t) (prev : list Z) : Prop :=
  AgentStats.totalFeedback st = Z.of_nat (length prev) ∧
  (AgentStats.averageScore st * inject_Z (Z.of_nat (length prev))
   == inject_Z (sumZ prev))%Q ∧
  AgentStats.scoreDistribution st
  = (λ k, wrap32 (bucketCount k prev)) <$> [0; 1; 2; 3; 4]%nat.

(** Every stored Feedback sits under the composite key of its own agent,
    client and some index, and its agent has an AgentStats record. *)
Definition feedbackInv (w : World) : Prop :=
  ∀ k f, feedbacks w !! k = Some f →
    (∃ c agentId n,
       Feedback.agent f = agentEntityIdOf c agentId ∧
       k = feedbackIdOf (Feedback.agent f) (Feedback.clientAddress f) n) ∧
    is_Some (agentStats w !! Feedback.agent f).

(** ** The order of saves and fetch requests *)

(** Does the effect save a primary entity (Agent, Feedback) whose link field
    is the key [k]? *)
Definition savesLink (k : string) (e : Effect) : bool :=
  match e with
  | SaveAgent a => bool_decide (Agent.registrationFile a = Some k)
  | SaveFeedback f => bool_decide (Feedback.feedbackFile f = Some k)
  | _ => false
  end.

(** Does the effect save a primary entity linked to the record the file
    handler will store for data source [d]? *)
Definition savesLinkTo (d : DataSource) (e : Effect) : bool :=
  match Parser.recordKey d with
  | Some k => savesLink k e
  | None => false
  end.

Definition isFetch (e : Effect) : bool :=
  match e with CreateDataSource _ => true | _ => false end.

(** Every fetch request in the list is immediately followed by the save of
    the primary entity that links to its record. *)
Fixpoint fetchThenLink (l : list Effect) : bool :=
  match l with
  | [] => true
  | CreateDataSource d :: rest =>
      match rest with
      | e :: _ => savesLinkTo d e
      | [] => false
      end && fetchThenLink rest
  | _ :: rest => fetchThenLink rest
  end.

(** The same, with the link key spelled out as the template string
    [`${txHash}:${cid}`] over the hex string [tx] of the transaction hash and
    the content id the data source was created with. *)
Definition savesLinkTx (tx : string) (d : DataSource) (e : Effect) : bool :=
  bool_decide (Parser.recordKey d = Some (tx +:+ ":" +:+ ds_param d))
  && savesLink (tx +:+ ":" +:+ ds_param d) e.

Fixpoint fetchThenLinkTx (tx : string) (l : list Effect) : bool :=
  match l with
  | [] => true
  | CreateDataSource d :: rest =>
      match rest with
      | e :: _ => savesLinkTx tx d e
      | [] => false
      end && fetchThenLinkTx tx rest
  | _ :: rest => fetchThenLinkTx tx rest
  end.

(** Every fetch request in the list comes after a save (among [seen] or
    earlier in the list) of the primary entity that links to its record. *)
Fixpoint linkThenFetch (seen l : list Effect) : bool :=
  match l with
  | [] => true
  | CreateDataSource d :: rest =>
      existsb (savesLinkTo d) seen
      && linkThenFetch (CreateDataSource d :: seen) rest
  | e :: rest => linkThenFetch (e :: seen) rest
  end.

Section Classification.
Context `{HostEnv}.

(** The URI names an IPFS (Arweave) file with a non-empty content id. *)
Definition ipfsFile (uri : string) : bool :=
  isIpfsUri uri && nonEmpty (extractIpfsHash uri).
Definition arweaveFile (uri : string) : bool :=
  isArweaveUri uri && nonEmpty (extractArweaveTxId uri).

(** The events that request an off-chain fetch: a Register event, a
    UriUpdated event for a stored Agent, a NewFeedback event for a stored
    Agent, with a URI that names a file.  The Register and NewFeedback
    handlers also want the URI non-empty, and the NewFeedback handler looks
    at Arweave only when the URI is not an IPFS one. *)
Definition requestsFile (e : Event) (w : World) : bool :=
  match e with
  | Registered _ _ tokenURI _ =>
      nonEmpty tokenURI && (ipfsFile tokenURI || arweaveFile tokenURI)
  | UriUpdated m agentId newUri =>
      bool_decide (is_Some (agents w !! agentEntityIdOf (ev_chainId m) agentId))
      && (ipfsFile newUri || arweaveFile newUri)
  | NewFeedback m agentId _ _ _ _ feedbackUri _ =>
      bool_decide (is_Some (agents w !! agentEntityIdOf (ev_chainId m) agentId))
      && nonEmpty feedbackUri
      && (ipfsFile feedbackUri
          || negb (isIpfsUri feedbackUri) && arweaveFile feedbackUri)
  | _ => false
  end.

End Classification.

Abbreviation noFetch l := (forallb (λ e, negb (isFetch e)) l = true).

(** The effects between two stores of one run. *)
Definition effectsSince (w w' : World) : list Effect :=
  drop (length (trace w)) (trace w').

(* ===================================================================== *)
(** * Vocabulary for the handlers beyond the aggregation engine           *)
(* ===================================================================== *)

(** The Agent key an event addresses, as its handler builds it. *)
Definition agentKeyOf (e : Event) : option string :=
  match e with
  | Registered m agentId _ _ | MetadataSet m agentId _ _
  | UriUpdated m agentId _ | Approval m agentId _
  | NewFeedback m agentId _ _ _ _ _ _ | FeedbackRevoked m agentId _ _
  | ResponseAppended m agentId _ _ _ _ _ =>
      Some (agentEntityIdOf (ev_chainId m) agentId)
  | Transfer m _ _ tokenId => Some (agentEntityIdOf (ev_chainId m) tokenId)
  | ApprovalForAll _ _ _ _ => None
  end.

(** The Feedback key a FeedbackRevoked or ResponseAppended event addresses. *)
Definition feedbackKeyOf (e : Event) : option string :=
  match e with
  | FeedbackRevoked m agentId clientAddress feedbackIndex
  | ResponseAppended m agentId clientAddress feedbackIndex _ _ _ =>
      Some (feedbackIdOf (agentEntityIdOf (ev_chainId m) agentId)
              clientAddress feedbackIndex)
  | _ => None
  end.

(** The event refers to a parent entity that is not stored: the Agent of a
    MetadataSet, UriUpdated, Approval, NewFeedback or (non-mint) Transfer
    event, the Feedback of a FeedbackRevoked or ResponseAppended event. *)
Definition parentMissing (e : Event) (w : World) : bool :=
  match e with
  | MetadataSet _ _ _ _ | UriUpdated _ _ _ | Approval _ _ _
  | NewFeedback _ _ _ _ _ _ _ _ | Transfer _ _ _ _ =>
      bool_decide (agentKeyOf e ≫= (agents w !!.) = None)
  | FeedbackRevoked _ _ _ _ | ResponseAppended _ _ _ _ _ _ _ =>
      bool_decide (feedbackKeyOf e ≫= (feedbacks w !!.) = None)
  | Registered _ _ _ _ | ApprovalForAll _ _ _ _ => false
  end.

(** The feedback counter of the Agent (AgentStats) stored under [k]; 0 when
    none is stored, the value a fresh record starts with. *)
Definition agentTotalOf (w : World) (k : string) : Z :=
  default 0 (Agent.totalFeedback <$> agents w !! k).
Definition statsTotalOf (w : World) (k : string) : Z :=
  default 0 (AgentStats.totalFeedback <$> agentStats w !! k).

(** By how much an event moves the feedback counter of the Agent it
    addresses: +1 for a NewFeedback event whose Agent is stored, -1 for a
    FeedbackRevoked event whose Feedback and Agent are stored. *)
Definition feedbackDelta (e : Event) (w : World) : Z :=
  match e with
  | NewFeedback _ _ _ _ _ _ _ _ =>
      if bool_decide (is_Some (agentKeyOf e ≫= (agents w !!.))) then 1 else 0
  | FeedbackRevoked _ _ _ _ =>
      if bool_decide (is_Some (feedbackKeyOf e ≫= (feedbacks w !!.)))
         && bool_decide (is_Some (agentKeyOf e ≫= (agents w !!.)))
      then -1 else 0
  | _ => 0
  end.

(** The operator array an event leaves behind, from the one it finds: only
    an Approval event changes it, the way [handleApproval] does. *)
Definition operatorsAfter (e : Event) (operators : list Bytes) : list Bytes :=
  match e with
  | Approval _ _ approved =>
      if bool_decide (toHexString approved ≠ ZERO_ADDRESS_HEX) then
        if negb (Identity.operatorFound operators approved)
        then operators ++ [approved]
        else operators
      else Identity.operatorsWithout operators approved
  | _ => operators
  end.

(** The owner an event leaves behind: Register and Transfer set it. *)
Definition ownerAfter (e : Event) (owner : Bytes) : Bytes :=
  match e with
  | Registered _ _ _ owner' => owner'
  | Transfer _ _ to _ => to
  | _ => owner
  end.

(** ** Invariants of the per-agent statistics *)

(** The Agent's own feedback counter and the counter of its AgentStats
    record agree (0 on either side when the record is missing). *)
Definition countersInv (w : World) : Prop :=
  ∀ k, agentTotalOf w k = statsTotalOf w k.

(** Every stored histogram has the five cells it was created with. *)
Definition histogramInv (w : World) : Prop :=
  ∀ k st, agentStats w !! k = Some st →
    length (AgentStats.scoreDistribution st) = 5%nat.

(** No stored operator is the zero address. *)
Definition operatorsInv (w : World) : Prop :=
  ∀ k a o, agents w !! k = Some a → o ∈ Agent.operators a →
    toHexString o ≠ ZERO_ADDRESS_HEX.

(** ** Invariant of the membership arrays *)

(** The agent counter of every Protocol and of GlobalStats is the length
    of the membership array beside it. *)
Definition membershipInv (w : World) : Prop :=
  (∀ k p, protocols w !! k = Some p →
     Protocol.totalAgents p = Z.of_nat (length (Protocol.agents p))) ∧
  GlobalStats.totalAgents (globalView w)
  = Z.of_nat (length (GlobalStats.agents (globalView w))).

(** ** What a file data source carries *)

Section Requests.
Context `{HostEnv}.

(** The data source [d] is one the handler of [e] creates on store [w]: its
    parameter is the non-empty content id extracted from the event's URI,
    its template the one of the URI's scheme, and its context names the
    content id, the transaction, the block time and the entity (Agent or
    Feedback) the file belongs to. *)
Definition requestedBy (e : Event) (w : World) (d : DataSource) : Prop :=
  let m := eventMeta e in
  nonEmpty (ds_param d) = true ∧
  getString "cid" (ds_context d) = Some (ds_param d) ∧
  getString "txHash" (ds_context d) = Some (toHexString (ev_txHash m)) ∧
  getBigInt "timestamp" (ds_context d) = Some (ev_timestamp m) ∧
  match e with
  | Registered _ _ uri _ | UriUpdated _ _ uri =>
      getString "agentId" (ds_context d) = agentKeyOf e ∧
      ((ds_template d = RegistrationFileTemplate ∧ isIpfsUri uri = true ∧
        ds_param d = extractIpfsHash uri) ∨
       (ds_template d = ArweaveRegistrationFileTemplate ∧
        isArweaveUri uri = true ∧ ds_param d = extractArweaveTxId uri))
  | NewFeedback m agentId client _ _ _ uri _ =>
      getString "feedbackId" (ds_context d)
      = Some (feedbackIdOf (agentEntityIdOf (ev_chainId m) agentId) client
                (agentTotalOf w (agentEntityIdOf (ev_chainId m) agentId) + 1)) ∧
      ((ds_template d = FeedbackFileTemplate ∧ isIpfsUri uri = true ∧
        ds_param d = extractIpfsHash uri) ∨
       (ds_template d = ArweaveFeedbackFileTemplate ∧ isIpfsUri uri = false ∧
        isArweaveUri uri = true ∧ ds_param d = extractArweaveTxId uri))
  | _ => False
  end.

End Requests.

(** ** The registration file parser *)

(** The fields of a registration record that are read from the top level
    of the document or handed in by the caller. *)
Definition topLevel (m : AgentRegistrationFile.t) :=
  (AgentRegistrationFile.id m, AgentRegistrationFile.cid m,
   AgentRegistrationFile.agentId m, AgentRegistrationFile.createdAt m,
   AgentRegistrationFile.supportedTrusts m, AgentRegistrationFile.name m,
   AgentRegistrationFile.description m, AgentRegistrationFile.image m,
   AgentRegistrationFile.active m, AgentRegistrationFile.x402support m).

(** A flag the parser hands to [toBool] although it is no boolean. *)
Definition badFlag (v : option JSONValue) : Prop :=
  Parser.present v = true ∧ v ≫= Parser.toBool = None.

Section ParserVocabulary.
Context `{JsonHost}.

(** An [agentWallet] endpoint in the [eip155] form whose third part is a
    well-formed address and whose second part is non-empty but not a
    number for [BigInt.fromString]. *)
Definition badWalletChain (v : JSONValue) : Prop :=
  ∃ endpoint walletStr addressPart chainIdPart,
    v = JObject endpoint ∧
    Parser.get endpoint "name" = Some (JString "agentWallet") ∧
    Parser.get endpoint "endpoint" = Some (JString walletStr) ∧
    startsWith walletStr "eip155:" = true ∧
    split walletStr ":" !! 2%nat = Some addressPart ∧
    startsWith addressPart "0x" = true ∧
    String.length addressPart = 42%nat ∧
    split walletStr ":" !! 1%nat = Some chainIdPart ∧
    nonEmpty chainIdPart = true ∧
    BigInt_fromString chainIdPart = None.

End ParserVocabulary.

(** ** References between records *)

(** No record points at a record that is not stored: a Feedback and an
    AgentMetadata at their Agent, an AgentStats at the Agent of its key, a
    FeedbackResponse at its Feedback. *)
Definition referencesInv (w : World) : Prop :=
  (∀ k f, feedbacks w !! k = Some f →
     is_Some (agents w !! Feedback.agent f)) ∧
  (∀ k st, agentStats w !! k = Some st →
     AgentStats.agent st = k ∧ is_Some (agents w !! k)) ∧
  (∀ k md, agentMetadata w !! k = Some md →
     is_Some (agents w !! AgentMetadata.agent md)) ∧
  (∀ k r, responses w !! k = Some r →
     is_Some (feedbacks w !! FeedbackResponse.feedback r)).

(* ===================================================================== *)
(** * A concrete configuration, for evaluating the handlers               *)
(* ===================================================================== *)

(** Chain 1 is the supported chain; [ipfs://<cid>] and [ar://<txid>] are the
    two off-chain schemes. *)
Definition demoHost : HostEnv := {|
  isSupportedChain c := bool_decide (c = 1);
  getChainName c := "mainnet";
  getContractAddresses c := mkContractAddresses [] [] [];
  determineUriType u :=
    if String.prefix "ipfs://" u then "ipfs"
    else if String.prefix "ar://" u then "arweave" else "unknown";
  isIpfsUri u := String.prefix "ipfs://" u;
  extractIpfsHash u := String.substring 7 (String.length u - 7) u;
  isArweaveUri u := String.prefix "ar://" u;
  extractArweaveTxId u := String.substring 5 (String.length u - 5) u;
  bytes32ToString b := None
|}.

(** Events of chain 1 at time 1000 in transaction [0xabcd]. *)
Definition demoMeta : EventMeta := mkEventMeta 1 1000 [Byte.xab; Byte.xcd].
Definition demoOwner : Bytes := [Byte.x01].
Definition demoClient : Bytes := [Byte.x02].

Definition demoRegister : Event := Registered demoMeta 7 "ipfs://Qm" demoOwner.
Definition demoRegisterPlain : Event := Registered demoMeta 7 "" demoOwner.
Definition demoFeedback (score : Z) : Event :=
  NewFeedback demoMeta 7 demoClient score zeroBytes32 zeroBytes32 "" [].
Definition demoRevoke : Event := FeedbackRevoked demoMeta 7 demoClient 1.

(** Hex decoding and decimal parsing of the demo JSON host. *)
Definition hexValue (c : ascii) : N :=
  let n := N_of_ascii c in
  if (48 <=? n)%N && (n <=? 57)%N then (n - 48)%N
  else if (97 <=? n)%N && (n <=? 102)%N then (n - 87)%N
  else if (65 <=? n)%N && (n <=? 70)%N then (n - 55)%N
  else 0%N.

Fixpoint hexDecode (s : string) : Bytes :=
  match s with
  | String a (String b r) =>
      default Byte.x00 (Byte.of_N (16 * hexValue a + hexValue b)) :: hexDecode r
  | _ => []
  end.

Fixpoint parseDecimal (acc : Z) (s : string) : option Z :=
  match s with
  | EmptyString => Some acc
  | String c r =>
      let n := N_of_ascii c in
      if (48 <=? n)%N && (n <=? 57)%N
      then parseDecimal (10 * acc + Z.of_N (n - 48)) r
      else None
  end.

(** A JSON host that decodes every non-empty payload to one fixed
    document, decodes hex strings and parses unsigned decimal numerals. *)
Definition demoJsonHost : JsonHost := {|
  json_try_fromBytes b :=
    match b with
    | [] => None
    | _ => Some (JObject [("name", JString "agent")])
    end;
  Bytes_fromHexString s :=
    if String.prefix "0x" s
    then hexDecode (String.substring 2 (String.length s - 2) s)
    else hexDecode s;
  BigInt_fromString s :=
    match s with
    | EmptyString => None
    | _ => parseDecimal 0 s
    end
|}.

Definition demoAddressHex : string :=
  "0xabcdefabcdefabcdefabcdefabcdefabcdefabcd".
Definition demoWalletEndpoint (walletStr : string) : JSONValue :=
  JObject [("name", JString "agentWallet"); ("endpoint", JString walletStr)].
Definition demoEmptyFile : AgentRegistrationFile.t :=
  AgentRegistrationFile.mk "0xabcd:Qm" "Qm" "1:7" 1000 [] [] [] [] []
    None None None None None None None None None None None None None.

Definition demoTagA : Bytes := repeat Byte.x00 31 ++ [Byte.x07].
Definition demoOperator : Bytes := repeat Byte.x00 19 ++ [Byte.x09].

(** A stream that submits the same tag, the all-zero tag and the same
    operator more than once. *)
Definition demoSetEvents : list Event :=
  [ demoRegisterPlain;
    Approval demoMeta 7 demoOperator;
    Approval demoMeta 7 demoOperator;
    NewFeedback demoMeta 7 demoClient 50 demoTagA demoTagA "" [];
    NewFeedback demoMeta 7 demoClient 70 zeroBytes32 demoTagA "" [] ].

Definition demoSetWorld : World :=
  default emptyWorld (@run demoHost demoSetEvents emptyWorld).

(** The store after agent 7 is registered, and the registration of a
    second agent on the same chain. *)
Definition demoRegisterOther : Event := Registered demoMeta 8 "" demoOwner.
Definition demoRegisteredWorld : World :=
  default emptyWorld (@run demoHost [demoRegisterPlain] emptyWorld).

Definition demoScores : list Z := [80; 21; 20].
Definition demoFeedbackRun : list Event := demoFeedback <$> demoScores.

(** One feedback for agent 7, already revoked once. *)
Definition demoFeedbackWorld : World :=
  default emptyWorld (@run demoHost [demoRegisterPlain; demoFeedback 80] emptyWorld).
Definition demoRevokedWorld : World :=
  default emptyWorld
    (@run demoHost [demoRegisterPlain; demoFeedback 80; demoRevoke] emptyWorld).

(** The store after agent 7 is registered with an IPFS URI. *)
Definition demoRegisterFileWorld : World :=
  @Identity.handleAgentRegistered demoHost demoMeta 7 "ipfs://Qm" demoOwner
    emptyWorld.

(** The file data source [demoRegister] creates. *)
Definition demoDataSource : DataSource :=
  mkDataSource RegistrationFileTemplate "Qm"
    (setBigInt "timestamp" 1000
       (setString "txHash" "0xabcd"
          (setString "cid" "Qm" (setString "agentId" "1:7" ∅)))).

(** ** More of the concrete configuration *)

(** A later block of chain 1, and a block of chain 5, which [demoHost] does
    not support. *)
Definition demoMetaLater : EventMeta := mkEventMeta 1 2000 [Byte.xef].
Definition demoMetaOther : EventMeta := mkEventMeta 5 1000 [Byte.xab; Byte.xcd].

(** The feedback of agent 7 revoked twice. *)
Definition demoTwiceRevokedWorld : World :=
  default emptyWorld
    (@run demoHost [demoRegisterPlain; demoFeedback 80; demoRevoke; demoRevoke]
       emptyWorld).

(** Agent 7 registered on chain 1 and on chain 5. *)
Definition demoTwoChainWorld : World :=
  default emptyWorld
    (@run demoHost [demoRegisterPlain; Registered demoMetaOther 7 "" demoOwner]
       emptyWorld).

(** A JSON host that decodes every payload to the given document. *)
Definition demoDocHost (doc : option JSONValue) : JsonHost := {|
  json_try_fromBytes b := doc;
  Bytes_fromHexString := @Bytes_fromHexString demoJsonHost;
  BigInt_fromString := @BigInt_fromString demoJsonHost
|}.


Definition demoBadFlagDocument : JSONValue :=
  JObject [("name", JString "agent"); ("active", JString "yes")].

(* ===================================================================== *)
(** * Composite keys are injective                                        *)
(* ===================================================================== *)

Section Keys.

Lemma hasColon_app s1 s2 : hasColon (s1 +:+ s2) = hasColon s1 || hasColon s2.
Proof.
  induction s1 as [|c r IH]; simpl; [done|].
  rewrite IH. by rewrite orb_assoc.
Qed.

Lemma pretty_N_char_not_colon x : pretty_N_char x ≠ ":"%char.
Proof. unfold pretty_N_char. by repeat case_match. Qed.

Lemma hasColon_pretty_N_go x s :
  hasColon s = false → hasColon (pretty_N_go x s) = false.
Proof.
  revert s. induction (N.lt_wf_0 x) as [x _ IH]; intros s Hs.
  destruct (decide (x = 0)%N) as [->|Hx].
  - by rewrite pretty_N_go_0.
  - rewrite pretty_N_go_step by lia.
    apply IH; [apply N.div_lt; lia|].
    simpl. rewrite Hs, orb_false_r.
    apply bool_decide_eq_false, pretty_N_char_not_colon.
Qed.

Lemma hasColon_pretty_N (x : N) : hasColon (pretty x) = false.
Proof.
  unfold pretty, pretty_N. case_decide; [done|].
  by apply hasColon_pretty_N_go.
Qed.

Lemma hasColon_toString z : hasColon (toString z) = false.
Proof.
  unfold toString, pretty, pretty_Z. destruct z as [|p|p]; [done| |].
  - apply hasColon_pretty_N.
  - rewrite hasColon_app. simpl. apply hasColon_pretty_N.
Qed.

Lemma hexDigit_not_colon n : hexDigit n ≠ ":"%char.
Proof. unfold hexDigit. by repeat case_match. Qed.

Lemma hasColon_hexBody b : hasColon (hexBody b) = false.
Proof.
  induction b as [|x r IH]; simpl; [done|].
  rewrite !bool_decide_eq_false_2 by apply hexDigit_not_colon. done.
Qed.

Lemma hasColon_toHexString b : hasColon (toHexString b) = false.
Proof. unfold toHexString. rewrite hasColon_app. simpl. apply hasColon_hexBody. Qed.

(** Two colon-joined strings with colon-free heads agree only when heads
    and tails agree. *)
Lemma colon_join_inj a a' r r' :
  hasColon a = false → hasColon a' = false →
  a +:+ ":" +:+ r = a' +:+ ":" +:+ r' → a = a' ∧ r = r'.
Proof.
  revert a'. induction a as [|c s IH]; intros [|c' s']; cbn.
  - intros _ _ Heq. by simplify_eq.
  - intros _ Hc Heq. injection Heq as <- _.
    by rewrite bool_decide_eq_true_2 in Hc.
  - intros Hc _ Heq. injection Heq as -> _.
    by rewrite bool_decide_eq_true_2 in Hc.
  - intros [_ Hs]%orb_false_elim [_ Hs']%orb_false_elim Heq.
    injection Heq as -> Heq.
    destruct (IH s' Hs Hs' Heq) as [-> ->]. done.
Qed.

Lemma string_app_assoc (a b c : string) : (a +:+ b) +:+ c = a +:+ (b +:+ c).
Proof.
  induction a as [|x a IH]; [done|].
  change (String x ((a +:+ b) +:+ c) = String x (a +:+ b +:+ c)).
  by rewrite IH.
Qed.

Lemma agentEntityIdOf_inj c a c' a' :
  agentEntityIdOf c a = agentEntityIdOf c' a' → c = c' ∧ a = a'.
Proof.
  unfold agentEntityIdOf. intros Heq.
  apply colon_join_inj in Heq as [Hc Ha]; [|apply hasColon_toString..].
  split; by apply (inj pretty).
Qed.

Lemma feedbackIdOf_inj c a cl n c' a' cl' n' :
  feedbackIdOf (agentEntityIdOf c a) cl n
  = feedbackIdOf (agentEntityIdOf c' a') cl' n' →
  c = c' ∧ a = a' ∧ toHexString cl = toHexString cl' ∧ n = n'.
Proof.
  unfold feedbackIdOf, agentEntityIdOf. rewrite !string_app_assoc. intros Heq.
  apply colon_join_inj in Heq as [Hc Heq]; [|apply hasColon_toString..].
  apply colon_join_inj in Heq as [Ha Heq]; [|apply hasColon_toString..].
  apply colon_join_inj in Heq as [Hcl Hn]; [|apply hasColon_toHexString..].
  repeat split; try done; by apply (inj pretty).
Qed.

End Keys.

(* ===================================================================== *)
(** * Invariants of the event stream                                      *)
(* ===================================================================== *)

Section RunInvariant.
Context `{HostEnv}.

(** A property every handler preserves holds along every run. *)
Lemma run_preserves (I : World → Prop) :
  (∀ e w w', I w → handle e w = Some w' → I w') →
  ∀ es w w', I w → run es w = Some w' → I w'.
Proof.
  intros Hstep es. induction es as [|e es IH]; intros w w' Hw Hrun; simpl in Hrun.
  - by simplify_eq.
  - destruct (handle e w) as [w1|] eqn:He; simpl in Hrun; [|done].
    eapply IH; [|exact Hrun]. eapply Hstep; eauto.
Qed.

Lemma reachable_preserves (I : World → Prop) :
  I emptyWorld →
  (∀ e w w', I w → handle e w = Some w' → I w') →
  ∀ w, reachable w → I w.
Proof. intros H0 Hstep w [es Hes]. eapply run_preserves; eauto. Qed.

Lemma run_app es1 es2 w :
  run (es1 ++ es2) w = run es1 w ≫= run es2.
Proof.
  revert w. induction es1 as [|e es1 IH]; intros w; simpl; [done|].
  destruct (handle e w); simpl; [apply IH|done].
Qed.

Lemma reachable_step e w w' :
  reachable w → handle e w = Some w' → reachable w'.
Proof.
  intros [es Hes] He. exists (es ++ [e]).
  rewrite run_app, Hes. simpl. by rewrite He.
Qed.

End RunInvariant.

(* --------------------------------------------------------------------- *)
(** ** Tag sets and operator sets                                         *)
(* --------------------------------------------------------------------- *)

Section Sets.
Context `{HostEnv}.

Lemma processTag_good tag tags :
  goodTags tags → goodTags (Reputation.processTag tag tags).
Proof.
  intros [Hnd Hz]. unfold Reputation.processTag, includes.
  case_bool_decide as Hne; [|done].
  case_bool_decide as Hin; simpl; [done|].
  split.
  - apply NoDup_app. split_and!; [done| |apply NoDup_singleton].
    intros x Hx ->%list_elem_of_singleton. done.
  - rewrite elem_of_app, list_elem_of_singleton. intros [?|?]; [done|].
    by apply Hne.
Qed.

Lemma operatorFound_false ops approved :
  Identity.operatorFound ops approved = false →
  toHexString approved ∉ toHexString <$> ops.
Proof.
  induction ops as [|o ops IH]; simpl.
  - intros _. apply not_elem_of_nil.
  - case_bool_decide as Ho; [done|]. intros Hf.
    rewrite elem_of_cons. intros [Heq|Hin]; [by apply Ho|by apply IH].
Qed.

Lemma operatorsWithout_sublist ops approved :
  sublist (Identity.operatorsWithout ops approved) ops.
Proof.
  induction ops as [|o ops IH]; simpl; [done|].
  case_bool_decide; [by apply sublist_skip|by apply sublist_cons].
Qed.

Lemma approval_operators_NoDup ops approved :
  NoDup (toHexString <$> ops) →
  NoDup (toHexString <$>
    (if bool_decide (toHexString approved ≠ ZERO_ADDRESS_HEX) then
       if negb (Identity.operatorFound ops approved)
       then ops ++ [approved] else ops
     else Identity.operatorsWithout ops approved)).
Proof.
  intros Hnd. case_bool_decide.
  - destruct (Identity.operatorFound ops approved) eqn:Hf; simpl; [done|].
    rewrite fmap_app. apply NoDup_app. split_and!; [done| |apply NoDup_singleton].
    intros x Hx ->%list_elem_of_singleton.
    by apply (operatorFound_false ops approved).
  - eapply sublist_NoDup; [exact Hnd|].
    apply fmap_sublist, operatorsWithout_sublist.
Qed.

Lemma setsInv_Agent_save a w :
  NoDup (toHexString <$> Agent.operators a) → setsInv w → setsInv (Agent_save a w).
Proof.
  intros Ha (HP & HG & HA). split_and!; [done|done|]. simpl.
  intros k a' [[<- <-]|[_ Hk]]%lookup_insert_Some; eauto.
Qed.

Lemma setsInv_Protocol_save p w :
  goodTags (Protocol.tags p) → setsInv w → setsInv (Protocol_save p w).
Proof.
  intros Hp (HP & HG & HA). split_and!; [|done|done]. simpl.
  intros k p' [[<- <-]|[_ Hk]]%lookup_insert_Some; eauto.
Qed.

Lemma setsInv_GlobalStats_save g w :
  goodTags (GlobalStats.tags g) → setsInv w → setsInv (GlobalStats_save g w).
Proof.
  intros Hg (HP & HG & HA). split_and!; [done| |done]. simpl.
  intros k g' [[<- <-]|[_ Hk]]%lookup_insert_Some; eauto.
Qed.

Lemma goodTags_nil : goodTags [].
Proof. split; [apply NoDup_nil_2|apply not_elem_of_nil]. Qed.

Lemma setsInv_global_or_new w :
  setsInv w →
  goodTags (GlobalStats.tags
    (match globalStats w !! "global" with
     | Some g => g | None => Identity.newGlobalStats end)).
Proof.
  intros (_ & HG & _). destruct (globalStats w !! "global") eqn:E; eauto.
  apply goodTags_nil.
Qed.

Lemma setsInv_identity_updateProtocolStats c a t w :
  setsInv w → setsInv (Identity.updateProtocolStats c a t w).
Proof.
  intros Hw. unfold Identity.updateProtocolStats.
  destruct (isSupportedChain c); simpl; [|done].
  destruct (protocols w !! toString c) as [p|] eqn:E.
  - apply setsInv_Protocol_save; [|done]. simpl. destruct Hw as (HP & _). eauto.
  - apply setsInv_GlobalStats_save.
    + simpl. by apply setsInv_global_or_new.
    + apply setsInv_Protocol_save; [apply goodTags_nil|done].
Qed.

(** One step of a set-invariant proof: peel the outermost store operation. *)
Ltac sets_step :=
  lazymatch goal with
  | |- setsInv (Agent_save _ _) =>
      apply setsInv_Agent_save; [simpl; eauto|]
  | |- setsInv (Protocol_save _ _) =>
      apply setsInv_Protocol_save; [simpl; eauto|]
  | |- setsInv (GlobalStats_save _ _) =>
      apply setsInv_GlobalStats_save; [simpl; eauto|]
  | |- setsInv (AgentMetadata_save _ ?w) => change (setsInv w)
  | |- setsInv (Feedback_save _ ?w) => change (setsInv w)
  | |- setsInv (FeedbackResponse_save _ ?w) => change (setsInv w)
  | |- setsInv (AgentStats_save _ ?w) => change (setsInv w)
  | |- setsInv (createWithContext _ _ _ ?w) => change (setsInv w)
  | |- setsInv (Identity.updateProtocolStats _ _ _ _) =>
      apply setsInv_identity_updateProtocolStats
  end.

Lemma setsInv_agent_lookup w k a :
  setsInv w → agents w !! k = Some a → NoDup (toHexString <$> Agent.operators a).
Proof. intros (_ & _ & HA) Hk. eauto. Qed.

Lemma setsInv_handleAgentRegistered m agentId tokenURI owner w :
  setsInv w → setsInv (Identity.handleAgentRegistered m agentId tokenURI owner w).
Proof.
  intros Hw. unfold Identity.handleAgentRegistered.
  set (agent0 := match agents w !! _ with Some a => a | None => _ end).
  assert (NoDup (toHexString <$> Agent.operators agent0)) as Hops.
  { subst agent0. destruct (agents w !! _) eqn:E.
    - eapply setsInv_agent_lookup; eauto.
    - apply NoDup_nil_2. }
  unfold Identity.scheduleRegistrationFile.
  destruct (nonEmpty tokenURI && isIpfsUri tokenURI);
    [destruct (nonEmpty (extractIpfsHash tokenURI))|];
    (destruct (nonEmpty tokenURI && isArweaveUri tokenURI);
      [destruct (nonEmpty (extractArweaveTxId tokenURI))|]);
    repeat sets_step; try done;
    by apply setsInv_global_or_new; repeat sets_step.
Qed.

Lemma setsInv_handleMetadataSet m agentId key value w :
  setsInv w → setsInv (Identity.handleMetadataSet m agentId key value w).
Proof.
  intros Hw. unfold Identity.handleMetadataSet.
  destruct (agents w !! _) eqn:E; [|done].
  repeat sets_step; [|done]. eapply setsInv_agent_lookup; eauto.
Qed.

Lemma setsInv_handleUriUpdated m agentId newUri w :
  setsInv w → setsInv (Identity.handleUriUpdated m agentId newUri w).
Proof.
  intros Hw. unfold Identity.handleUriUpdated.
  destruct (agents w !! _) as [a|] eqn:E; [|done].
  pose proof (setsInv_agent_lookup _ _ _ Hw E) as Hops.
  unfold Identity.scheduleRegistrationFile.
  destruct (isIpfsUri newUri);
    [destruct (nonEmpty (extractIpfsHash newUri))|];
    (destruct (isArweaveUri newUri);
      [destruct (nonEmpty (extractArweaveTxId newUri))|]);
    by repeat sets_step.
Qed.

Lemma setsInv_handleTransfer m from to tokenId w :
  setsInv w → setsInv (Identity.handleTransfer m from to tokenId w).
Proof.
  intros Hw. unfold Identity.handleTransfer.
  case_bool_decide; [done|].
  destruct (agents w !! _) eqn:E; [|done].
  repeat sets_step; [|done]. eapply setsInv_agent_lookup; eauto.
Qed.

Lemma setsInv_handleApproval m tokenId approved w :
  setsInv w → setsInv (Identity.handleApproval m tokenId approved w).
Proof.
  intros Hw. unfold Identity.handleApproval.
  destruct (agents w !! _) eqn:E; [|done].
  apply setsInv_Agent_save; [|done]. simpl.
  apply approval_operators_NoDup. eapply setsInv_agent_lookup; eauto.
Qed.

Lemma setsInv_updateAgentStats a score t w w' :
  NoDup (toHexString <$> Agent.operators a) →
  setsInv w → Reputation.updateAgentStats a score t w = Some w' → setsInv w'.
Proof.
  intros Ha Hw. unfold Reputation.updateAgentStats. intros Hrun.
  repeat (simplify_option_eq || case_match); by repeat sets_step.
Qed.

Lemma setsInv_updateAgentStatsAfterRevocation a score t w :
  NoDup (toHexString <$> Agent.operators a) →
  setsInv w → setsInv (Reputation.updateAgentStatsAfterRevocation a score t w).
Proof.
  intros Ha Hw. unfold Reputation.updateAgentStatsAfterRevocation.
  destruct (agentStats _ !! _); by repeat sets_step.
Qed.

Lemma setsInv_reputation_updateProtocolStats c a t tag1 tag2 w :
  setsInv w → setsInv (Reputation.updateProtocolStats c a t tag1 tag2 w).
Proof.
  intros Hw. unfold Reputation.updateProtocolStats.
  destruct (isSupportedChain c); simpl; [|done].
  apply setsInv_Protocol_save; [|done]. simpl.
  do 2 apply processTag_good.
  destruct (protocols w !! toString c) eqn:E; simpl; [|apply goodTags_nil].
  destruct Hw as (HP & _). eauto.
Qed.

Lemma setsInv_handleNewFeedback m agentId client score tag1 tag2 uri hash w w' :
  setsInv w →
  Reputation.handleNewFeedback m agentId client score tag1 tag2 uri hash w
    = Some w' →
  setsInv w'.
Proof.
  intros Hw. unfold Reputation.handleNewFeedback.
  destruct (agents w !! _) as [a|] eqn:E; [|by intros [= <-]].
  pose proof (setsInv_agent_lookup _ _ _ Hw E) as Hops.
  unfold Reputation.scheduleFeedbackFile.
  destruct (nonEmpty uri && isIpfsUri uri);
    [destruct (nonEmpty (extractIpfsHash uri))
    |destruct (nonEmpty uri && isArweaveUri uri);
      [destruct (nonEmpty (extractArweaveTxId uri))|]];
    intros (w1 & Hu & [= <-])%bind_Some;
    (apply setsInv_GlobalStats_save;
      [simpl; do 2 apply processTag_good; apply setsInv_global_or_new|];
     apply setsInv_reputation_updateProtocolStats;
     (eapply setsInv_updateAgentStats; [exact Hops| |exact Hu]);
     by repeat sets_step).
Qed.

Lemma setsInv_handleFeedbackRevoked m agentId client index w :
  setsInv w → setsInv (Reputation.handleFeedbackRevoked m agentId client index w).
Proof.
  intros Hw. unfold Reputation.handleFeedbackRevoked.
  destruct (feedbacks w !! _) eqn:Ef; [|done].
  destruct (agents _ !! _) eqn:Ea; [|by repeat sets_step].
  apply setsInv_updateAgentStatsAfterRevocation; [|by repeat sets_step].
  eapply setsInv_agent_lookup; eauto.
Qed.

Lemma setsInv_handleResponseAppended m agentId client index responder uri hash w :
  setsInv w →
  setsInv (Reputation.handleResponseAppended m agentId client index responder
             uri hash w).
Proof.
  intros Hw. unfold Reputation.handleResponseAppended.
  destruct (feedbacks w !! _); by repeat sets_step.
Qed.

Lemma setsInv_handle e w w' : setsInv w → handle e w = Some w' → setsInv w'.
Proof.
  intros Hw. destruct e; simpl; try (intros [= <-]).
  - by apply setsInv_handleAgentRegistered.
  - by apply setsInv_handleMetadataSet.
  - by apply setsInv_handleUriUpdated.
  - by apply setsInv_handleTransfer.
  - by apply setsInv_handleApproval.
  - done.
  - by apply setsInv_handleNewFeedback.
  - by apply setsInv_handleFeedbackRevoked.
  - by apply setsInv_handleResponseAppended.
Qed.

Lemma setsInv_empty : setsInv emptyWorld.
Proof. split_and!; intros ?? Hk; simpl in Hk; by rewrite lookup_empty in Hk. Qed.

End Sets.

(* ===================================================================== *)
(** * C7: tag sets and operator sets                                      *)
(* ===================================================================== *)

(** C7.  Along every event stream, the tag arrays of every Protocol and of
    GlobalStats and the operator array of every Agent hold no value twice,
    and the hex string of the all-zero 32-byte tag is in no tag array. *)
Theorem C7_tag_and_operator_sets `{HostEnv} (es : list Event) (w : World) :
  run es emptyWorld = Some w →
  (∀ k p, protocols w !! k = Some p →
     NoDup (Protocol.tags p) ∧ toHexString zeroBytes32 ∉ Protocol.tags p) ∧
  (∀ k g, globalStats w !! k = Some g →
     NoDup (GlobalStats.tags g) ∧ toHexString zeroBytes32 ∉ GlobalStats.tags g) ∧
  (∀ k a, agents w !! k = Some a →
     NoDup (Agent.operators a) ∧ NoDup (toHexString <$> Agent.operators a)).
Proof.
  intros Hrun.
  assert (setsInv w) as (HP & HG & HA).
  { eapply run_preserves; [apply @setsInv_handle|apply setsInv_empty|exact Hrun]. }
  change (toHexString zeroBytes32) with ZERO_BYTES32_HEX.
  split_and!.
  - intros k p Hk. apply (HP k p Hk).
  - intros k g Hk. apply (HG k g Hk).
  - intros k a Hk. split; [|by eauto].
    eapply NoDup_fmap_1. eauto.
Qed.

Lemma C7_tag_and_operator_sets_witness :
  @run demoHost demoSetEvents emptyWorld = Some demoSetWorld ∧
  (GlobalStats.tags <$> globalStats demoSetWorld !! "global"
     = Some [toHexString demoTagA]) ∧
  (Agent.operators <$> agents demoSetWorld !! "1:7" = Some [demoOperator]) ∧
  (∀ k p, protocols demoSetWorld !! k = Some p →
     NoDup (Protocol.tags p) ∧ toHexString zeroBytes32 ∉ Protocol.tags p).
Proof.
  split_and!; [vm_compute; reflexivity..|].
  apply (@C7_tag_and_operator_sets demoHost demoSetEvents demoSetWorld).
  vm_compute; reflexivity.
Defined.

(* ===================================================================== *)
(** * Entities are stored under their own id                              *)
(* ===================================================================== *)

Section WellKeyed.
Context `{HostEnv}.

Lemma wellKeyed_Agent_save a w : wellKeyed w → wellKeyed (Agent_save a w).
Proof.
  intros (HA & HF & HS & HP & HG). split_and!; try done. simpl.
  intros k a' [[<- <-]|[_ Hk]]%lookup_insert_Some; eauto.
Qed.
Lemma wellKeyed_Feedback_save f w : wellKeyed w → wellKeyed (Feedback_save f w).
Proof.
  intros (HA & HF & HS & HP & HG). split_and!; try done. simpl.
  intros k a' [[<- <-]|[_ Hk]]%lookup_insert_Some; eauto.
Qed.
Lemma wellKeyed_AgentStats_save s w : wellKeyed w → wellKeyed (AgentStats_save s w).
Proof.
  intros (HA & HF & HS & HP & HG). split_and!; try done. simpl.
  intros k a' [[<- <-]|[_ Hk]]%lookup_insert_Some; eauto.
Qed.
Lemma wellKeyed_Protocol_save p w : wellKeyed w → wellKeyed (Protocol_save p w).
Proof.
  intros (HA & HF & HS & HP & HG). split_and!; try done. simpl.
  intros k a' [[<- <-]|[_ Hk]]%lookup_insert_Some; eauto.
Qed.
Lemma wellKeyed_GlobalStats_save g w : wellKeyed w → wellKeyed (GlobalStats_save g w).
Proof.
  intros (HA & HF & HS & HP & HG). split_and!; try done. simpl.
  intros k a' [[<- <-]|[_ Hk]]%lookup_insert_Some; eauto.
Qed.

Ltac wk_step :=
  lazymatch goal with
  | |- wellKeyed (Agent_save _ _) => apply wellKeyed_Agent_save
  | |- wellKeyed (Feedback_save _ _) => apply wellKeyed_Feedback_save
  | |- wellKeyed (AgentStats_save _ _) => apply wellKeyed_AgentStats_save
  | |- wellKeyed (Protocol_save _ _) => apply wellKeyed_Protocol_save
  | |- wellKeyed (GlobalStats_save _ _) => apply wellKeyed_GlobalStats_save
  | |- wellKeyed (AgentMetadata_save _ ?w) => change (wellKeyed w)
  | |- wellKeyed (FeedbackResponse_save _ ?w) => change (wellKeyed w)
  | |- wellKeyed (createWithContext _ _ _ ?w) => change (wellKeyed w)
  end.

Lemma wellKeyed_identity_updateProtocolStats c a t w :
  wellKeyed w → wellKeyed (Identity.updateProtocolStats c a t w).
Proof.
  intros Hw. unfold Identity.updateProtocolStats.
  destruct (isSupportedChain c); simpl; [|done].
  destruct (protocols w !! toString c); by repeat wk_step.
Qed.

Lemma wellKeyed_reputation_updateProtocolStats c a t tag1 tag2 w :
  wellKeyed w → wellKeyed (Reputation.updateProtocolStats c a t tag1 tag2 w).
Proof.
  intros Hw. unfold Reputation.updateProtocolStats.
  destruct (isSupportedChain c); simpl; [|done]. by wk_step.
Qed.

Lemma wellKeyed_updateAgentStats a score t w w' :
  wellKeyed w → Reputation.updateAgentStats a score t w = Some w' → wellKeyed w'.
Proof.
  intros Hw. unfold Reputation.updateAgentStats.
  intros (d & _ & (q & _ & [= <-])%bind_Some)%bind_Some.
  by repeat wk_step.
Qed.

Lemma wellKeyed_handle e w w' : wellKeyed w → handle e w = Some w' → wellKeyed w'.
Proof.
  intros Hw. destruct e; simpl; try (intros [= <-]).
  - unfold Identity.handleAgentRegistered, Identity.scheduleRegistrationFile.
    destruct (nonEmpty tokenURI && isIpfsUri tokenURI);
      [destruct (nonEmpty (extractIpfsHash tokenURI))|];
      (destruct (nonEmpty tokenURI && isArweaveUri tokenURI);
        [destruct (nonEmpty (extractArweaveTxId tokenURI))|]);
      repeat first [wk_step | apply wellKeyed_identity_updateProtocolStats];
      done.
  - unfold Identity.handleMetadataSet.
    destruct (agents w !! _); by repeat wk_step.
  - unfold Identity.handleUriUpdated, Identity.scheduleRegistrationFile.
    destruct (agents w !! _); [|done].
    destruct (isIpfsUri newUri);
      [destruct (nonEmpty (extractIpfsHash newUri))|];
      (destruct (isArweaveUri newUri);
        [destruct (nonEmpty (extractArweaveTxId newUri))|]);
      by repeat wk_step.
  - unfold Identity.handleTransfer.
    case_bool_decide; [done|]. destruct (agents w !! _); by repeat wk_step.
  - unfold Identity.handleApproval.
    destruct (agents w !! _); by repeat wk_step.
  - done.
  - unfold Reputation.handleNewFeedback, Reputation.scheduleFeedbackFile.
    destruct (agents w !! _); [|by intros [= <-]].
    destruct (nonEmpty feedbackUri && isIpfsUri feedbackUri);
      [destruct (nonEmpty (extractIpfsHash feedbackUri))
      |destruct (nonEmpty feedbackUri && isArweaveUri feedbackUri);
        [destruct (nonEmpty (extractArweaveTxId feedbackUri))|]];
      intros (w1 & Hu & [= <-])%bind_Some;
      (wk_step; apply wellKeyed_reputation_updateProtocolStats;
       (eapply wellKeyed_updateAgentStats; [|exact Hu]);
       by repeat wk_step).
  - unfold Reputation.handleFeedbackRevoked,
      Reputation.updateAgentStatsAfterRevocation.
    destruct (feedbacks w !! _); [|done].
    destruct (agents _ !! _); [|by repeat wk_step].
    destruct (agentStats _ !! _); by repeat wk_step.
  - unfold Reputation.handleResponseAppended.
    destruct (feedbacks w !! _); by repeat wk_step.
Qed.

Lemma wellKeyed_empty : wellKeyed emptyWorld.
Proof. split_and!; intros ?? Hk; simpl in Hk; by rewrite lookup_empty in Hk. Qed.

Lemma reachable_wellKeyed w : reachable w → wellKeyed w.
Proof. apply reachable_preserves; [apply wellKeyed_empty|apply @wellKeyed_handle]. Qed.

End WellKeyed.

(* ===================================================================== *)
(** * The identity handlers on the aggregation records                    *)
(* ===================================================================== *)

Section IdentityAggregation.
Context `{HostEnv}.

Lemma identity_ups_unsupported c a t w :
  isSupportedChain c = false → Identity.updateProtocolStats c a t w = w.
Proof. intros Hc. unfold Identity.updateProtocolStats. by rewrite Hc. Qed.

Lemma identity_ups_frame c a t w :
  agents (Identity.updateProtocolStats c a t w) = agents w ∧
  feedbacks (Identity.updateProtocolStats c a t w) = feedbacks w ∧
  agentStats (Identity.updateProtocolStats c a t w) = agentStats w.
Proof.
  unfold Identity.updateProtocolStats.
  destruct (isSupportedChain c); [|done]. simpl.
  destruct (protocols w !! toString c); done.
Qed.

Lemma protocolView_id w c : wellKeyed w → Protocol.id (protocolView w c) = toString c.
Proof.
  intros (_ & _ & _ & HP & _). unfold protocolView.
  destruct (protocols w !! toString c) eqn:E; simpl; eauto.
Qed.

Lemma globalView_id w : wellKeyed w → GlobalStats.id (globalView w) = "global".
Proof.
  intros (_ & _ & _ & _ & HG). unfold globalView.
  destruct (globalStats w !! "global") eqn:E; simpl; eauto.
Qed.

(** One call of the identity-side [updateProtocolStats] on a supported
    chain: the Protocol record gains one agent, and the global protocol
    counter moves only when the record was not stored before. *)
Lemma identity_ups_protocols c a t w :
  wellKeyed w → isSupportedChain c = true →
  protocols (Identity.updateProtocolStats c a t w)
  = <[toString c :=
        Protocol.set_updatedAt t
          (Protocol.set_agents (Protocol.agents (protocolView w c) ++ [Agent.id a])
            (Protocol.set_totalAgents (Protocol.totalAgents (protocolView w c) + 1)
              (protocolView w c)))]> (protocols w).
Proof.
  intros Hwk Hc. pose proof (protocolView_id w c Hwk) as Hid.
  unfold Identity.updateProtocolStats, protocolView in *. rewrite Hc. simpl.
  destruct (protocols w !! toString c) eqn:E; simpl in *; [by rewrite Hid|done].
Qed.

Lemma identity_ups_globalStats c a t w :
  wellKeyed w → isSupportedChain c = true →
  globalStats (Identity.updateProtocolStats c a t w)
  = match protocols w !! toString c with
    | Some _ => globalStats w
    | None =>
        <["global" :=
            GlobalStats.set_updatedAt t
              (GlobalStats.set_totalProtocols
                 (GlobalStats.totalProtocols (globalView w) + 1) (globalView w))]>
          (globalStats w)
    end.
Proof.
  intros Hwk Hc. pose proof (globalView_id w Hwk) as Hid.
  unfold Identity.updateProtocolStats, globalView in *. rewrite Hc. simpl.
  destruct (protocols w !! toString c) eqn:E; simpl; [done|].
  destruct (globalStats w !! "global") eqn:Eg; simpl in *; [by rewrite Hid|done].
Qed.

Lemma registeredAgent_id m agentId tokenURI owner w :
  wellKeyed w →
  Agent.id (registeredAgent m agentId tokenURI owner w)
  = agentEntityIdOf (ev_chainId m) agentId.
Proof.
  intros (HA & _). unfold registeredAgent. simpl.
  destruct (agents w !! _) eqn:E; simpl; eauto.
Qed.

(** What [handleAgentRegistered] leaves in the Protocol and GlobalStats
    stores: two calls of [updateProtocolStats], then one update of the
    singleton.  The file scheduling that follows touches neither. *)
Lemma register_protocols m agentId tokenURI owner w :
  protocols (Identity.handleAgentRegistered m agentId tokenURI owner w)
  = protocols
      (Identity.updateProtocolStats (ev_chainId m)
         (registeredAgent m agentId tokenURI owner w) (ev_timestamp m)
         (Identity.updateProtocolStats (ev_chainId m)
            (registeredAgent m agentId tokenURI owner w) (ev_timestamp m)
            (Agent_save (registeredAgent m agentId tokenURI owner w) w))).
Proof.
  unfold Identity.handleAgentRegistered, Identity.scheduleRegistrationFile.
  destruct (nonEmpty tokenURI && isIpfsUri tokenURI);
    [destruct (nonEmpty (extractIpfsHash tokenURI))|];
    (destruct (nonEmpty tokenURI && isArweaveUri tokenURI);
      [destruct (nonEmpty (extractArweaveTxId tokenURI))|]);
    reflexivity.
Qed.

Lemma register_globalStats m agentId tokenURI owner w :
  let A := registeredAgent m agentId tokenURI owner w in
  let w2 :=
    Identity.updateProtocolStats (ev_chainId m) A (ev_timestamp m)
      (Identity.updateProtocolStats (ev_chainId m) A (ev_timestamp m)
         (Agent_save A w)) in
  globalStats (Identity.handleAgentRegistered m agentId tokenURI owner w)
  = <[GlobalStats.id (globalView w2) :=
        GlobalStats.set_updatedAt (ev_timestamp m)
          (GlobalStats.set_agents (GlobalStats.agents (globalView w2) ++ [Agent.id A])
            (GlobalStats.set_totalAgents
               (GlobalStats.totalAgents (globalView w2) + 1) (globalView w2)))]>
      (globalStats w2).
Proof.
  unfold Identity.handleAgentRegistered, Identity.scheduleRegistrationFile.
  destruct (nonEmpty tokenURI && isIpfsUri tokenURI);
    [destruct (nonEmpty (extractIpfsHash tokenURI))|];
    (destruct (nonEmpty tokenURI && isArweaveUri tokenURI);
      [destruct (nonEmpty (extractArweaveTxId tokenURI))|]);
    reflexivity.
Qed.

End IdentityAggregation.

Section IdentityCounters.
Context `{HostEnv}.

Lemma identity_ups_protocolView c a t w :
  wellKeyed w → isSupportedChain c = true →
  protocolView (Identity.updateProtocolStats c a t w) c
  = Protocol.set_updatedAt t
      (Protocol.set_agents (Protocol.agents (protocolView w c) ++ [Agent.id a])
        (Protocol.set_totalAgents (Protocol.totalAgents (protocolView w c) + 1)
          (protocolView w c))).
Proof.
  intros Hwk Hc. unfold protocolView at 1.
  rewrite identity_ups_protocols by done. by rewrite lookup_insert_eq.
Qed.

Lemma register_protocolView m agentId tokenURI owner w :
  wellKeyed w → isSupportedChain (ev_chainId m) = true →
  let c := ev_chainId m in
  let id := agentEntityIdOf c agentId in
  let w' := Identity.handleAgentRegistered m agentId tokenURI owner w in
  Protocol.totalAgents (protocolView w' c)
    = Protocol.totalAgents (protocolView w c) + 2 ∧
  Protocol.agents (protocolView w' c)
    = Protocol.agents (protocolView w c) ++ [id; id].
Proof.
  intros Hwk Hc c id w'. subst w'.
  pose proof (registeredAgent_id m agentId tokenURI owner w Hwk) as HA.
  assert (protocolView (Identity.handleAgentRegistered m agentId tokenURI owner w) c
    = protocolView
        (Identity.updateProtocolStats c
           (registeredAgent m agentId tokenURI owner w) (ev_timestamp m)
           (Identity.updateProtocolStats c
              (registeredAgent m agentId tokenURI owner w) (ev_timestamp m)
              (Agent_save (registeredAgent m agentId tokenURI owner w) w))) c)
    as ->.
  { unfold protocolView. by rewrite register_protocols. }
  fold id in HA. revert HA.
  generalize (registeredAgent m agentId tokenURI owner w). intros A HA.
  rewrite !identity_ups_protocolView;
    try done; repeat first
      [apply wellKeyed_identity_updateProtocolStats | apply wellKeyed_Agent_save];
    try done.
  change (protocolView (Agent_save A w) c) with (protocolView w c).
  simpl. rewrite HA. split; [lia|]. by rewrite <- app_assoc.
Qed.

End IdentityCounters.

Section IdentityGlobal.
Context `{HostEnv}.

Lemma identity_ups_globalView c a t w :
  wellKeyed w →
  globalView (Identity.updateProtocolStats c a t w)
  = if createsProtocol w c
    then GlobalStats.set_updatedAt t
           (GlobalStats.set_totalProtocols
              (GlobalStats.totalProtocols (globalView w) + 1) (globalView w))
    else globalView w.
Proof.
  intros Hwk. unfold createsProtocol.
  destruct (isSupportedChain c) eqn:Hc; simpl.
  - unfold globalView at 1. rewrite identity_ups_globalStats by done.
    destruct (protocols w !! toString c) eqn:E; case_bool_decide; try done.
    by rewrite lookup_insert_eq.
  - by rewrite identity_ups_unsupported.
Qed.

Lemma identity_ups_creates_once c a t w :
  wellKeyed w →
  createsProtocol (Identity.updateProtocolStats c a t w) c = false.
Proof.
  intros Hwk. unfold createsProtocol.
  destruct (isSupportedChain c) eqn:Hc; simpl; [|done].
  rewrite identity_ups_protocols by done.
  rewrite lookup_insert_eq. by apply bool_decide_eq_false_2.
Qed.

(** The GlobalStats singleton after [handleAgentRegistered]. *)
Lemma register_globalView m agentId tokenURI owner w :
  wellKeyed w →
  let c := ev_chainId m in
  let w' := Identity.handleAgentRegistered m agentId tokenURI owner w in
  GlobalStats.agents (globalView w')
    = GlobalStats.agents (globalView w) ++ [agentEntityIdOf c agentId] ∧
  GlobalStats.totalAgents (globalView w')
    = GlobalStats.totalAgents (globalView w) + 1 ∧
  GlobalStats.totalProtocols (globalView w')
    = GlobalStats.totalProtocols (globalView w)
      + (if createsProtocol w c then 1 else 0) ∧
  GlobalStats.totalFeedback (globalView w')
    = GlobalStats.totalFeedback (globalView w) ∧
  GlobalStats.tags (globalView w') = GlobalStats.tags (globalView w).
Proof.
  intros Hwk c w'. subst w'.
  pose proof (registeredAgent_id m agentId tokenURI owner w Hwk) as HA.
  unfold globalView at 1 3 5 7 9. rewrite register_globalStats.
  fold c in HA |- *. revert HA.
  generalize (registeredAgent m agentId tokenURI owner w). intros A HA.
  assert (wellKeyed (Agent_save A w)) as Hwk1 by by apply wellKeyed_Agent_save.
  assert (wellKeyed (Identity.updateProtocolStats c A (ev_timestamp m)
                       (Agent_save A w))) as Hwk2
    by by apply wellKeyed_identity_updateProtocolStats.
  assert (wellKeyed (Identity.updateProtocolStats c A (ev_timestamp m)
            (Identity.updateProtocolStats c A (ev_timestamp m) (Agent_save A w))))
    as Hwk3 by by apply wellKeyed_identity_updateProtocolStats.
  rewrite (globalView_id _ Hwk3), lookup_insert_eq. simpl.
  rewrite (identity_ups_globalView _ _ _ _ Hwk2).
  rewrite (identity_ups_creates_once _ _ _ _ Hwk1).
  rewrite (identity_ups_globalView _ _ _ _ Hwk1).
  change (createsProtocol (Agent_save A w) c) with (createsProtocol w c).
  change (globalView (Agent_save A w)) with (globalView w).
  rewrite HA. destruct (createsProtocol w c); simpl; split_and!; try done; lia.
Qed.

End IdentityGlobal.

(* ===================================================================== *)
(** * C2: counters per qualifying event                                   *)
(* ===================================================================== *)

(** C2 (what the code does).  A Register event on a supported chain raises
    Protocol.totalAgents by 2, not by 1: [handleAgentRegistered] calls
    [updateProtocolStats] twice in a row. *)
Theorem C2_register_counts_agent_twice `{HostEnv}
    (m : EventMeta) (agentId : BigInt) (tokenURI : string) (owner : Bytes)
    (w : World) :
  reachable w →
  isSupportedChain (ev_chainId m) = true →
  Protocol.totalAgents
    (protocolView (Identity.handleAgentRegistered m agentId tokenURI owner w)
       (ev_chainId m))
  = Protocol.totalAgents (protocolView w (ev_chainId m)) + 2.
Proof.
  intros Hr Hc.
  by destruct (register_protocolView m agentId tokenURI owner w
                 (reachable_wellKeyed w Hr) Hc) as [-> _].
Qed.

Lemma C2_register_counts_agent_twice_witness :
  @reachable demoHost emptyWorld ∧
  @isSupportedChain demoHost (ev_chainId demoMeta) = true ∧
  Protocol.totalAgents
    (@protocolView demoHost
       (@Identity.handleAgentRegistered demoHost demoMeta 7 "" demoOwner emptyWorld)
       (ev_chainId demoMeta))
  = Protocol.totalAgents (@protocolView demoHost emptyWorld (ev_chainId demoMeta)) + 2.
Proof.
  assert (@reachable demoHost emptyWorld) as Hr by (by exists []).
  split_and!; [exact Hr|reflexivity|].
  apply (@C2_register_counts_agent_twice demoHost demoMeta 7 "" demoOwner
           emptyWorld Hr).
  reflexivity.
Defined.

(* ===================================================================== *)
(** * C8: agent-membership arrays                                         *)
(* ===================================================================== *)

(** C8 (counterexample).  A second Register event for an agent id that
    GlobalStats.agents already holds leaves the id in the array twice. *)
Lemma C8_second_register_duplicates :
  let w1 := @Identity.handleAgentRegistered demoHost demoMeta 7 "" demoOwner
              emptyWorld in
  let w2 := @Identity.handleAgentRegistered demoHost demoMeta 7 "" demoOwner w1 in
  "1:7" ∈ GlobalStats.agents (globalView w1) ∧
  NoDup (GlobalStats.agents (globalView w1)) ∧
  GlobalStats.agents (globalView w2) = ["1:7"; "1:7"] ∧
  ¬ NoDup (GlobalStats.agents (globalView w2)).
Proof.
  assert (GlobalStats.agents (globalView
            (@Identity.handleAgentRegistered demoHost demoMeta 7 "" demoOwner
               emptyWorld)) = ["1:7"]) as E1 by (vm_compute; reflexivity).
  assert (GlobalStats.agents (globalView
            (@Identity.handleAgentRegistered demoHost demoMeta 7 "" demoOwner
               (@Identity.handleAgentRegistered demoHost demoMeta 7 "" demoOwner
                  emptyWorld))) = ["1:7"; "1:7"]) as E2 by (vm_compute; reflexivity).
  cbv zeta. rewrite E1, E2. split_and!.
  - apply list_elem_of_singleton. reflexivity.
  - apply NoDup_singleton.
  - reflexivity.
  - intros Hnd. apply NoDup_cons in Hnd as [Hnotin _].
    apply Hnotin, list_elem_of_singleton. reflexivity.
Qed.

(** C8 (amended).  Appending to the agent-membership arrays is an
    unconditional push.  A Register event appends the agent's id to
    GlobalStats.agents exactly once, whether or not the array holds it, and
    one call of [updateProtocolStats] on a supported chain appends it to
    Protocol.agents exactly once; so an id that is already a member is a
    member twice afterwards. *)
Theorem C8_agent_membership_push `{HostEnv}
    (m : EventMeta) (agentId : BigInt) (tokenURI : string) (owner : Bytes)
    (w : World) :
  reachable w →
  let id := agentEntityIdOf (ev_chainId m) agentId in
  let w' := Identity.handleAgentRegistered m agentId tokenURI owner w in
  GlobalStats.agents (globalView w') = GlobalStats.agents (globalView w) ++ [id] ∧
  (id ∈ GlobalStats.agents (globalView w) →
     ¬ NoDup (GlobalStats.agents (globalView w'))) ∧
  (∀ a t, isSupportedChain (ev_chainId m) = true →
     Protocol.agents
       (protocolView (Identity.updateProtocolStats (ev_chainId m) a t w)
          (ev_chainId m))
     = Protocol.agents (protocolView w (ev_chainId m)) ++ [Agent.id a]).
Proof.
  intros Hr id w'. pose proof (reachable_wellKeyed w Hr) as Hwk.
  destruct (register_globalView m agentId tokenURI owner w Hwk) as (Hag & _).
  fold id w' in Hag. split_and!.
  - exact Hag.
  - intros Hin Hnd. rewrite Hag in Hnd.
    apply NoDup_app in Hnd as (_ & Hdisj & _).
    apply (Hdisj id Hin), list_elem_of_singleton. reflexivity.
  - intros a t Hc. by rewrite identity_ups_protocolView.
Qed.

Lemma C8_agent_membership_push_witness :
  let w1 := @Identity.handleAgentRegistered demoHost demoMeta 7 "" demoOwner
              emptyWorld in
  @reachable demoHost w1 ∧
  GlobalStats.agents
    (globalView
       (@Identity.handleAgentRegistered demoHost demoMeta 7 "" demoOwner w1))
  = GlobalStats.agents (globalView w1) ++ ["1:7"].
Proof.
  assert (@reachable demoHost
            (@Identity.handleAgentRegistered demoHost demoMeta 7 "" demoOwner
               emptyWorld)) as Hr by (by exists [demoRegisterPlain]).
  split; [exact Hr|].
  exact (proj1 (@C8_agent_membership_push demoHost demoMeta 7 "" demoOwner _ Hr)).
Defined.

(* ===================================================================== *)
(** * The reputation handlers on the aggregation records                  *)
(* ===================================================================== *)

Section ReputationAggregation.
Context `{HostEnv}.

(** [handleNewFeedback] in three stages: store the Feedback (and schedule
    its file), update the agent statistics, update Protocol and
    GlobalStats. *)
Lemma handleNewFeedback_stages m agentId client score tag1 tag2 uri hash w a :
  agents w !! agentEntityIdOf (ev_chainId m) agentId = Some a →
  Reputation.handleNewFeedback m agentId client score tag1 tag2 uri hash w
  = w1 ← Reputation.updateAgentStats a score (ev_timestamp m)
           (feedbackStored m agentId client score tag1 tag2 uri hash a w);
    let w2 :=
      Reputation.updateProtocolStats (ev_chainId m) a (ev_timestamp m)
        tag1 tag2 w1 in
    Some (GlobalStats_save
      (GlobalStats.set_updatedAt (ev_timestamp m)
        (GlobalStats.set_tags
           (Reputation.processTag tag2
              (Reputation.processTag tag1 (GlobalStats.tags (globalView w2))))
           (GlobalStats.set_totalFeedback
              (GlobalStats.totalFeedback (globalView w2) + 1) (globalView w2))))
      w2).
Proof.
  intros Ha. unfold Reputation.handleNewFeedback, feedbackStored. rewrite Ha.
  destruct (nonEmpty uri && isIpfsUri uri);
    [destruct (nonEmpty (extractIpfsHash uri))
    |destruct (nonEmpty uri && isArweaveUri uri);
      [destruct (nonEmpty (extractArweaveTxId uri))|]];
    reflexivity.
Qed.

Lemma handleNewFeedback_unknown m agentId client score tag1 tag2 uri hash w :
  agents w !! agentEntityIdOf (ev_chainId m) agentId = None →
  Reputation.handleNewFeedback m agentId client score tag1 tag2 uri hash w
  = Some w.
Proof. intros Ha. unfold Reputation.handleNewFeedback. by rewrite Ha. Qed.

Lemma feedbackStored_frame m agentId client score tag1 tag2 uri hash a w :
  let w0 := feedbackStored m agentId client score tag1 tag2 uri hash a w in
  agents w0 = agents w ∧ agentStats w0 = agentStats w ∧
  protocols w0 = protocols w ∧ globalStats w0 = globalStats w.
Proof.
  unfold feedbackStored, Reputation.scheduleFeedbackFile.
  destruct (nonEmpty uri && isIpfsUri uri);
    [destruct (nonEmpty (extractIpfsHash uri))
    |destruct (nonEmpty uri && isArweaveUri uri);
      [destruct (nonEmpty (extractArweaveTxId uri))|]];
    done.
Qed.

Lemma wellKeyed_feedbackStored m agentId client score tag1 tag2 uri hash a w :
  wellKeyed w →
  wellKeyed (feedbackStored m agentId client score tag1 tag2 uri hash a w).
Proof.
  intros Hw. unfold feedbackStored, Reputation.scheduleFeedbackFile.
  destruct (nonEmpty uri && isIpfsUri uri);
    [destruct (nonEmpty (extractIpfsHash uri))
    |destruct (nonEmpty uri && isArweaveUri uri);
      [destruct (nonEmpty (extractArweaveTxId uri))|]];
    simpl; by repeat apply wellKeyed_Feedback_save.
Qed.

(** [updateAgentStats] touches the Agent and its AgentStats, nothing else. *)
Lemma updateAgentStats_frame a score t w w' :
  Reputation.updateAgentStats a score t w = Some w' →
  protocols w' = protocols w ∧ globalStats w' = globalStats w ∧
  feedbacks w' = feedbacks w ∧
  agents w' =
    <[Agent.id a :=
        Agent.set_updatedAt t
          (Agent.set_lastActivity t
            (Agent.set_totalFeedback (Agent.totalFeedback a + 1) a))]> (agents w).
Proof.
  unfold Reputation.updateAgentStats.
  intros (d & _ & (q & _ & [= <-])%bind_Some)%bind_Some. done.
Qed.

Lemma reputation_ups_frame c a t tag1 tag2 w :
  agents (Reputation.updateProtocolStats c a t tag1 tag2 w) = agents w ∧
  feedbacks (Reputation.updateProtocolStats c a t tag1 tag2 w) = feedbacks w ∧
  agentStats (Reputation.updateProtocolStats c a t tag1 tag2 w) = agentStats w ∧
  globalStats (Reputation.updateProtocolStats c a t tag1 tag2 w) = globalStats w.
Proof.
  unfold Reputation.updateProtocolStats. by destruct (isSupportedChain c).
Qed.

(** The reputation-side [updateProtocolStats] upserts the Protocol of a
    supported chain; it never touches GlobalStats. *)
Lemma reputation_ups_protocols c a t tag1 tag2 w :
  wellKeyed w →
  protocols (Reputation.updateProtocolStats c a t tag1 tag2 w)
  = if isSupportedChain c then
      <[toString c :=
          Protocol.set_updatedAt t
            (Protocol.set_tags
               (Reputation.processTag tag2
                  (Reputation.processTag tag1 (Protocol.tags (protocolView w c))))
               (Protocol.set_totalFeedback
                  (Protocol.totalFeedback (protocolView w c) + 1)
                  (protocolView w c)))]> (protocols w)
    else protocols w.
Proof.
  intros Hwk. pose proof (protocolView_id w c Hwk) as Hid.
  unfold Reputation.updateProtocolStats, protocolView in *.
  destruct (isSupportedChain c); simpl; [|done].
  destruct (protocols w !! toString c) eqn:E; simpl in *; [by rewrite Hid|done].
Qed.

(** The Protocol and GlobalStats stores after a NewFeedback event for a
    stored Agent. *)
Lemma newFeedback_aggregates m agentId client score tag1 tag2 uri hash w w' a :
  wellKeyed w →
  agents w !! agentEntityIdOf (ev_chainId m) agentId = Some a →
  Reputation.handleNewFeedback m agentId client score tag1 tag2 uri hash w
    = Some w' →
  let c := ev_chainId m in
  protocols w'
    = (if isSupportedChain c then
         <[toString c :=
             Protocol.set_updatedAt (ev_timestamp m)
               (Protocol.set_tags
                  (Reputation.processTag tag2
                     (Reputation.processTag tag1 (Protocol.tags (protocolView w c))))
                  (Protocol.set_totalFeedback
                     (Protocol.totalFeedback (protocolView w c) + 1)
                     (protocolView w c)))]> (protocols w)
       else protocols w) ∧
  globalView w'
    = GlobalStats.set_updatedAt (ev_timestamp m)
        (GlobalStats.set_tags
           (Reputation.processTag tag2
              (Reputation.processTag tag1 (GlobalStats.tags (globalView w))))
           (GlobalStats.set_totalFeedback
              (GlobalStats.totalFeedback (globalView w) + 1) (globalView w))).
Proof.
  intros Hwk Ha. rewrite (handleNewFeedback_stages _ _ _ _ _ _ _ _ _ _ Ha).
  intros (w1 & Hu & [= <-])%bind_Some c.
  pose proof (wellKeyed_feedbackStored m agentId client score tag1 tag2 uri
                hash a w Hwk) as Hwk0.
  pose proof (wellKeyed_updateAgentStats _ _ _ _ _ Hwk0 Hu) as Hwk1.
  pose proof (wellKeyed_reputation_updateProtocolStats c a (ev_timestamp m)
                tag1 tag2 w1 Hwk1) as Hwk2.
  destruct (updateAgentStats_frame _ _ _ _ _ Hu) as (Hp1 & Hg1 & _ & _).
  destruct (feedbackStored_frame m agentId client score tag1 tag2 uri hash a w)
    as (_ & _ & Hp0 & Hg0).
  destruct (reputation_ups_frame c a (ev_timestamp m) tag1 tag2 w1)
    as (_ & _ & _ & Hg2).
  assert (globalView (Reputation.updateProtocolStats c a (ev_timestamp m)
                        tag1 tag2 w1) = globalView w) as Hgv.
  { unfold globalView. by rewrite Hg2, Hg1, Hg0. }
  assert (protocolView w1 c = protocolView w c) as Hpv.
  { unfold protocolView. by rewrite Hp1, Hp0. }
  split.
  - change (protocols (GlobalStats_save ?g ?w)) with (protocols w).
    rewrite reputation_ups_protocols by done. subst c. by rewrite Hpv, Hp1, Hp0.
  - unfold globalView at 1. simpl. subst c. rewrite Hgv.
    rewrite (globalView_id w Hwk), lookup_insert_eq. done.
Qed.

End ReputationAggregation.

(* ===================================================================== *)
(** * Which handlers create Agents and Protocols                          *)
(* ===================================================================== *)

Section Domains.
Context `{HostEnv}.

(** Only an [Agent_save] under a fresh id adds an Agent; the handlers other
    than [handleAgentRegistered] re-save an Agent they loaded. *)
Lemma handle_agents_dom e w w' k :
  wellKeyed w → handle e w = Some w' →
  is_Some (agents w' !! k) →
  is_Some (agents w !! k) ∨
  (∃ m agentId tokenURI owner,
     e = Registered m agentId tokenURI owner ∧
     k = agentEntityIdOf (ev_chainId m) agentId).
Proof.
  intros Hwk He Hk. pose proof Hwk as (HA & _).
  destruct e; simpl in He.
  - injection He as <-.
    pose proof (registeredAgent_id m agentId tokenURI owner w Hwk) as Hid.
    pose proof Hid as Hid'. unfold registeredAgent in Hid'. simpl in Hid'.
    assert (∃ A', agents (Identity.handleAgentRegistered m agentId tokenURI owner w)
              = <[agentEntityIdOf (ev_chainId m) agentId := A']> (agents w))
      as [A' HA'].
    { unfold Identity.handleAgentRegistered, Identity.scheduleRegistrationFile.
      fold (registeredAgent m agentId tokenURI owner w).
      destruct (identity_ups_frame (ev_chainId m)
                  (registeredAgent m agentId tokenURI owner w) (ev_timestamp m)
                  (Identity.updateProtocolStats (ev_chainId m)
                     (registeredAgent m agentId tokenURI owner w) (ev_timestamp m)
                     (Agent_save (registeredAgent m agentId tokenURI owner w) w)))
        as (E2 & _).
      destruct (identity_ups_frame (ev_chainId m)
                  (registeredAgent m agentId tokenURI owner w) (ev_timestamp m)
                  (Agent_save (registeredAgent m agentId tokenURI owner w) w))
        as (E1 & _).
      destruct (nonEmpty tokenURI && isIpfsUri tokenURI);
        [destruct (nonEmpty (extractIpfsHash tokenURI))|];
        (destruct (nonEmpty tokenURI && isArweaveUri tokenURI);
          [destruct (nonEmpty (extractArweaveTxId tokenURI))|]);
        simpl; rewrite ?E2, ?E1; simpl; rewrite ?Hid, ?Hid', ?insert_insert_eq;
        eauto. }
    rewrite HA' in Hk. apply lookup_insert_is_Some in Hk as [<-|[_ Hk]]; eauto 10.
  - injection He as <-. left. revert Hk. unfold Identity.handleMetadataSet.
    destruct (agents w !! _) as [a|] eqn:E; [|done]. simpl.
    rewrite (HA _ _ E).
    intros [<-|[_ Hk]]%lookup_insert_is_Some; eauto.
  - injection He as <-. left. revert Hk.
    unfold Identity.handleUriUpdated, Identity.scheduleRegistrationFile.
    destruct (agents w !! _) as [a|] eqn:E; [|done].
    destruct (isIpfsUri newUri);
      [destruct (nonEmpty (extractIpfsHash newUri))|];
      (destruct (isArweaveUri newUri);
        [destruct (nonEmpty (extractArweaveTxId newUri))|]);
      simpl; rewrite (HA _ _ E), ?insert_insert_eq;
      intros [<-|[_ Hk]]%lookup_insert_is_Some; eauto.
  - injection He as <-. left. revert Hk. unfold Identity.handleTransfer.
    case_bool_decide; [done|].
    destruct (agents w !! _) as [a|] eqn:E; [|done]. simpl.
    rewrite (HA _ _ E).
    intros [<-|[_ Hk]]%lookup_insert_is_Some; eauto.
  - injection He as <-. left. revert Hk. unfold Identity.handleApproval.
    destruct (agents w !! _) as [a|] eqn:E; [|done]. simpl.
    rewrite (HA _ _ E).
    intros [<-|[_ Hk]]%lookup_insert_is_Some; eauto.
  - injection He as <-. by left.
  - left. destruct (agents w !! agentEntityIdOf (ev_chainId m) agentId)
      as [a|] eqn:E.
    + rewrite (handleNewFeedback_stages _ _ _ _ _ _ _ _ _ _ E) in He.
      apply bind_Some in He as (w1 & Hu & [= <-]).
      destruct (updateAgentStats_frame _ _ _ _ _ Hu) as (_ & _ & _ & Hag).
      destruct (feedbackStored_frame m agentId clientAddress score tag1 tag2
                  feedbackUri feedbackHash a w) as (Hag0 & _).
      destruct (reputation_ups_frame (ev_chainId m) a (ev_timestamp m) tag1
                  tag2 w1) as (Hag2 & _).
      simpl in Hk. rewrite Hag2, Hag, Hag0, (HA _ _ E) in Hk.
      apply lookup_insert_is_Some in Hk as [<-|[_ Hk]]; eauto.
    + rewrite handleNewFeedback_unknown in He by done. by simplify_eq.
  - injection He as <-. left. revert Hk.
    unfold Reputation.handleFeedbackRevoked,
      Reputation.updateAgentStatsAfterRevocation.
    destruct (feedbacks w !! _); [|done]. simpl.
    destruct (agents w !! _) as [a|] eqn:E; [|done]. simpl.
    destruct (agentStats w !! _); simpl; rewrite (HA _ _ E);
      intros [<-|[_ Hk]]%lookup_insert_is_Some; eauto.
  - injection He as <-. left. revert Hk.
    unfold Reputation.handleResponseAppended.
    by destruct (feedbacks w !! _).
Qed.

(** Protocol records are never removed. *)
Lemma handle_protocols_mono e w w' k :
  wellKeyed w → handle e w = Some w' →
  is_Some (protocols w !! k) → is_Some (protocols w' !! k).
Proof.
  intros Hwk He Hk. destruct e; simpl in He;
    try (injection He as <-).
  - rewrite register_protocols.
    set (A := registeredAgent m agentId tokenURI owner w).
    assert (wellKeyed (Agent_save A w)) as Hwk1 by by apply wellKeyed_Agent_save.
    assert (wellKeyed (Identity.updateProtocolStats (ev_chainId m) A
              (ev_timestamp m) (Agent_save A w))) as Hwk2
      by by apply wellKeyed_identity_updateProtocolStats.
    destruct (isSupportedChain (ev_chainId m)) eqn:Hc.
    + rewrite !identity_ups_protocols by done.
      rewrite !lookup_insert_is_Some'. eauto.
    + by rewrite !identity_ups_unsupported.
  - revert Hk. unfold Identity.handleMetadataSet.
    by destruct (agents w !! _).
  - revert Hk. unfold Identity.handleUriUpdated, Identity.scheduleRegistrationFile.
    destruct (agents w !! _); [|done].
    destruct (isIpfsUri newUri);
      [destruct (nonEmpty (extractIpfsHash newUri))|];
      (destruct (isArweaveUri newUri);
        [destruct (nonEmpty (extractArweaveTxId newUri))|]); done.
  - revert Hk. unfold Identity.handleTransfer.
    case_bool_decide; [done|]. by destruct (agents w !! _).
  - revert Hk. unfold Identity.handleApproval. by destruct (agents w !! _).
  - done.
  - destruct (agents w !! agentEntityIdOf (ev_chainId m) agentId)
      as [a|] eqn:E.
    + destruct (newFeedback_aggregates _ _ _ _ _ _ _ _ _ _ _ Hwk E He)
        as (-> & _).
      destruct (isSupportedChain (ev_chainId m)); [|done].
      rewrite lookup_insert_is_Some'. eauto.
    + rewrite handleNewFeedback_unknown in He by done. by simplify_eq.
  - revert Hk. unfold Reputation.handleFeedbackRevoked,
      Reputation.updateAgentStatsAfterRevocation.
    destruct (feedbacks w !! _); [|done]. simpl.
    destruct (agents w !! _); [|done]. simpl.
    by destruct (agentStats w !! _).
  - revert Hk. unfold Reputation.handleResponseAppended.
    by destruct (feedbacks w !! _).
Qed.

(** The events that do not qualify leave Protocol and GlobalStats alone. *)
Lemma handle_not_qualifying e w w' :
  handle e w = Some w' → qualifying e w = false →
  protocols w' = protocols w ∧ globalStats w' = globalStats w.
Proof.
  intros He Hq. destruct e; simpl in He, Hq; try done;
    try (injection He as <-).
  - unfold Identity.handleMetadataSet. by destruct (agents w !! _).
  - unfold Identity.handleUriUpdated, Identity.scheduleRegistrationFile.
    destruct (agents w !! _); [|done].
    destruct (isIpfsUri newUri);
      [destruct (nonEmpty (extractIpfsHash newUri))|];
      (destruct (isArweaveUri newUri);
        [destruct (nonEmpty (extractArweaveTxId newUri))|]); done.
  - unfold Identity.handleTransfer.
    case_bool_decide; [done|]. by destruct (agents w !! _).
  - unfold Identity.handleApproval. by destruct (agents w !! _).
  - done.
  - apply bool_decide_eq_false in Hq.
    rewrite handleNewFeedback_unknown in He.
    + by simplify_eq.
    + destruct (agents w !! _) eqn:E; [|done]. destruct Hq. eauto.
  - unfold Reputation.handleFeedbackRevoked,
      Reputation.updateAgentStatsAfterRevocation.
    destruct (feedbacks w !! _); [|done]. simpl.
    destruct (agents w !! _); [|done]. simpl.
    by destruct (agentStats w !! _).
  - unfold Reputation.handleResponseAppended.
    by destruct (feedbacks w !! _).
Qed.

Lemma agentProtocolInv_handle e w w' :
  wellKeyed w → agentProtocolInv w → handle e w = Some w' → agentProtocolInv w'.
Proof.
  intros Hwk Hinv He c a Hag Hc.
  destruct (handle_agents_dom e w w' _ Hwk He Hag)
    as [Hold|(m & agentId & tokenURI & owner & -> & Hkey)].
  - eapply handle_protocols_mono; eauto.
  - apply agentEntityIdOf_inj in Hkey as [-> ->].
    simpl in He. injection He as <-.
    rewrite register_protocols.
    rewrite identity_ups_protocols; [by rewrite lookup_insert_eq| |done].
    by apply wellKeyed_identity_updateProtocolStats, wellKeyed_Agent_save.
Qed.

Lemma reachable_agentProtocolInv w : reachable w → agentProtocolInv w.
Proof.
  intros Hr.
  cut (wellKeyed w ∧ agentProtocolInv w); [by intros [_ ?]|].
  revert w Hr. apply reachable_preserves.
  - split; [apply wellKeyed_empty|].
    intros c a [x Hx]. simpl in Hx. by rewrite lookup_empty in Hx.
  - intros e w w' [Hwk Hinv] He. split.
    + by eapply wellKeyed_handle.
    + by eapply agentProtocolInv_handle.
Qed.

End Domains.

(* ===================================================================== *)
(** * C3: first-seen-chain bootstrap                                      *)
(* ===================================================================== *)

(** C3.  Along every event stream and for every supported chain: when the
    chain has no Protocol record yet, a qualifying event (a Register event,
    or a NewFeedback event for a stored Agent) creates exactly that one
    record and raises GlobalStats.totalProtocols by exactly 1; once the
    record exists, no event on the chain adds a record or changes
    GlobalStats.totalProtocols. *)
Theorem C3_protocol_bootstrap_once `{HostEnv} (e : Event) (w w' : World) :
  reachable w →
  handle e w = Some w' →
  isSupportedChain (eventChain e) = true →
  (protocols w !! toString (eventChain e) = None →
   qualifying e w = true →
     (∃ p, protocols w' = <[toString (eventChain e) := p]> (protocols w)) ∧
     GlobalStats.totalProtocols (globalView w')
       = GlobalStats.totalProtocols (globalView w) + 1) ∧
  (is_Some (protocols w !! toString (eventChain e)) →
     dom (protocols w') = dom (protocols w) ∧
     GlobalStats.totalProtocols (globalView w')
       = GlobalStats.totalProtocols (globalView w)) ∧
  (∀ k, is_Some (protocols w !! k) → is_Some (protocols w' !! k)).
Proof.
  intros Hr He Hc.
  pose proof (reachable_wellKeyed w Hr) as Hwk.
  pose proof (reachable_agentProtocolInv w Hr) as Hinv.
  cut (∀ P Q R : Prop, P ∧ Q → R → P ∧ Q ∧ R); [|tauto].
  intros Hcut. apply Hcut; clear Hcut;
    [|intros k; by apply (handle_protocols_mono e)].
  destruct (qualifying e w) eqn:Hq; last first.
  { destruct (handle_not_qualifying e w w' He Hq) as [Hp Hg].
    split; [done|]. intros _. unfold globalView. by rewrite Hp, Hg. }
  destruct e; simpl in Hq, He, Hc |- *; try done.
  - (* Register *)
    injection He as <-.
    destruct (register_globalView m agentId tokenURI owner w Hwk)
      as (_ & _ & Htp & _).
    simpl in Htp. rewrite Htp. unfold createsProtocol. rewrite Hc. simpl.
    assert (∃ p, protocols (Identity.handleAgentRegistered m agentId tokenURI
                              owner w)
                 = <[toString (ev_chainId m) := p]> (protocols w)) as [p Hp].
    { rewrite register_protocols.
      rewrite identity_ups_protocols; [|
        by apply wellKeyed_identity_updateProtocolStats, wellKeyed_Agent_save
        |done].
      rewrite identity_ups_protocols; [|by apply wellKeyed_Agent_save|done].
      rewrite insert_insert_eq. eauto. }
    split.
    + intros Hnone _. rewrite bool_decide_eq_true_2 by done. eauto.
    + intros Hsome. rewrite Hp, dom_insert_lookup_L by done.
      rewrite bool_decide_eq_false_2; [split; [done|lia]|].
      intros Hnone. rewrite Hnone in Hsome. by destruct Hsome.
  - (* NewFeedback for a stored Agent *)
    apply bool_decide_eq_true in Hq.
    pose proof (Hinv _ _ Hq Hc) as Hsome.
    split; [intros Hnone; rewrite Hnone in Hsome; by destruct Hsome|].
    intros _. destruct Hq as [a Ha].
    destruct (newFeedback_aggregates _ _ _ _ _ _ _ _ _ _ _ Hwk Ha He)
      as (-> & ->).
    rewrite Hc, dom_insert_lookup_L by done. done.
Qed.

(** GlobalStats.totalProtocols counts the Protocol records, at every point
    of every event stream. *)
Lemma reachable_totalProtocols_counts_records `{HostEnv} (w : World) :
  reachable w →
  GlobalStats.totalProtocols (globalView w) = Z.of_nat (size (protocols w)).
Proof.
  intros Hr.
  cut (reachable w ∧
       GlobalStats.totalProtocols (globalView w) = Z.of_nat (size (protocols w)));
    [by intros [_ ?]|].
  revert w Hr. apply reachable_preserves; [split; [by exists []|done]|].
  intros e w w' [Hr Hcount] He.
  split; [by eapply reachable_step|].
  pose proof (reachable_wellKeyed w Hr) as Hwk.
  pose proof (reachable_agentProtocolInv w Hr) as Hinv.
  destruct (qualifying e w) eqn:Hq; last first.
  { destruct (handle_not_qualifying e w w' He Hq) as [Hp Hg].
    unfold globalView. by rewrite Hp, Hg. }
  destruct e; simpl in Hq, He; try done.
  - injection He as <-.
    destruct (register_globalView m agentId tokenURI owner w Hwk)
      as (_ & _ & Htp & _).
    simpl in Htp. rewrite Htp, register_protocols. unfold createsProtocol.
    destruct (isSupportedChain (ev_chainId m)) eqn:Hc; simpl.
    + rewrite identity_ups_protocols; [|
        by apply wellKeyed_identity_updateProtocolStats, wellKeyed_Agent_save
        |done].
      rewrite identity_ups_protocols; [|by apply wellKeyed_Agent_save|done].
      rewrite insert_insert_eq.
      change (protocols (Agent_save ?a w)) with (protocols w).
      destruct (protocols w !! toString (ev_chainId m)) as [p|] eqn:Hp.
      * rewrite bool_decide_eq_false_2 by done.
        rewrite map_size_insert_Some by eauto. lia.
      * rewrite bool_decide_eq_true_2 by done.
        rewrite map_size_insert_None by done. lia.
    + rewrite !identity_ups_unsupported by done. simpl. lia.
  - apply bool_decide_eq_true in Hq. pose proof Hq as [a Ha].
    destruct (newFeedback_aggregates _ _ _ _ _ _ _ _ _ _ _ Hwk Ha He)
      as (-> & ->).
    simpl. rewrite Hcount.
    destruct (isSupportedChain (ev_chainId m)) eqn:Hc; [|done].
    by rewrite map_size_insert_Some by (by eapply Hinv).
Qed.

Lemma C3_protocol_bootstrap_once_witness :
  @reachable demoHost emptyWorld ∧
  @handle demoHost demoRegisterPlain emptyWorld = Some demoRegisteredWorld ∧
  @isSupportedChain demoHost (eventChain demoRegisterPlain) = true ∧
  protocols emptyWorld !! toString (eventChain demoRegisterPlain) = None ∧
  @qualifying demoRegisterPlain emptyWorld = true ∧
  GlobalStats.totalProtocols (globalView demoRegisteredWorld)
    = GlobalStats.totalProtocols (globalView emptyWorld) + 1 ∧
  @reachable demoHost demoRegisteredWorld ∧
  is_Some (protocols demoRegisteredWorld !! toString (eventChain demoRegisterOther)) ∧
  (∀ w', @handle demoHost demoRegisterOther demoRegisteredWorld = Some w' →
     GlobalStats.totalProtocols (globalView w')
       = GlobalStats.totalProtocols (globalView demoRegisteredWorld)).
Proof.
  assert (@reachable demoHost emptyWorld) as Hr0 by (by exists []).
  assert (@reachable demoHost demoRegisteredWorld) as Hr1
    by (exists [demoRegisterPlain]; vm_compute; reflexivity).
  assert (@handle demoHost demoRegisterPlain emptyWorld = Some demoRegisteredWorld)
    as He0 by (vm_compute; reflexivity).
  assert (is_Some (protocols demoRegisteredWorld
                     !! toString (eventChain demoRegisterOther))) as Hs
    by (vm_compute; eauto).
  split_and!.
  - exact Hr0.
  - exact He0.
  - reflexivity.
  - reflexivity.
  - reflexivity.
  - exact (proj2 (proj1 (@C3_protocol_bootstrap_once demoHost demoRegisterPlain
                           emptyWorld demoRegisteredWorld Hr0 He0 eq_refl)
                    eq_refl eq_refl)).
  - exact Hr1.
  - exact Hs.
  - intros w' He.
    exact (proj2 (proj1 (proj2 (@C3_protocol_bootstrap_once demoHost
                                  demoRegisterOther demoRegisteredWorld w' Hr1
                                  He eq_refl)) Hs)).
Defined.

(* ===================================================================== *)
(** * The running mean and the histogram                                  *)
(* ===================================================================== *)

Section RunningMean.
Context `{HostEnv}.

Lemma wrap32_small z : - 2 ^ 31 ≤ z < 2 ^ 31 → wrap32 z = z.
Proof. intros Hz. unfold wrap32. rewrite Z.mod_small; lia. Qed.

Lemma i32_add_wrap32 z : i32_add (wrap32 z) 1 = wrap32 (z + 1).
Proof.
  unfold i32_add, wrap32.
  replace ((z + 2 ^ 31) mod 2 ^ 32 - 2 ^ 31 + 1 + 2 ^ 31)
    with ((z + 2 ^ 31) mod 2 ^ 32 + 1) by lia.
  replace (z + 1 + 2 ^ 31) with ((z + 2 ^ 31) + 1) by lia.
  by rewrite Zplus_mod_idemp_l.
Qed.

Lemma bucketIndex_lt score : (Reputation.bucketIndex score < 5)%nat.
Proof. unfold Reputation.bucketIndex. repeat case_match; lia. Qed.

(** The cascade of comparisons, as the five score ranges. *)
Lemma bucketIndex_ranges s :
  (Reputation.bucketIndex s = 0%nat ↔ s ≤ 20) ∧
  (Reputation.bucketIndex s = 1%nat ↔ 20 < s ≤ 40) ∧
  (Reputation.bucketIndex s = 2%nat ↔ 40 < s ≤ 60) ∧
  (Reputation.bucketIndex s = 3%nat ↔ 60 < s ≤ 80) ∧
  (Reputation.bucketIndex s = 4%nat ↔ 80 < s).
Proof.
  unfold Reputation.bucketIndex.
  destruct (Z.leb_spec s 20); [split_and!; split; intros; (done || lia)|].
  destruct (Z.leb_spec s 40); [split_and!; split; intros; (done || lia)|].
  destruct (Z.leb_spec s 60); [split_and!; split; intros; (done || lia)|].
  destruct (Z.leb_spec s 80); split_and!; split; intros; (done || lia).
Qed.

Lemma sumZ_app l1 l2 : sumZ (l1 ++ l2) = sumZ l1 + sumZ l2.
Proof. induction l1 as [|x l1 IH]; simpl; lia. Qed.

Lemma bucketCount_snoc k prev s :
  bucketCount k (prev ++ [s])
  = bucketCount k prev + (if decide (Reputation.bucketIndex s = k) then 1 else 0).
Proof.
  unfold bucketCount. rewrite filter_app, length_app, Nat2Z.inj_add.
  f_equal. rewrite filter_cons, filter_nil. by case_decide.
Qed.

Lemma bucketCount_nonneg k l : 0 ≤ bucketCount k l.
Proof. unfold bucketCount. lia. Qed.

Lemma bucketCount_nil k : bucketCount k [] = 0.
Proof. done. Qed.

(** The five ranges partition the scores. *)
Lemma bucketCount_total scores :
  bucketCount 0 scores + bucketCount 1 scores + bucketCount 2 scores
  + bucketCount 3 scores + bucketCount 4 scores
  = Z.of_nat (length scores).
Proof.
  induction scores as [|s scores IH] using rev_ind; [done|].
  rewrite !bucketCount_snoc, length_app, Nat2Z.inj_add. simpl.
  pose proof (bucketIndex_lt s).
  repeat case_decide; lia.
Qed.

(** Bumping the bucket of [score] in the tracked histogram. *)
Lemma bumpBucket_tracked prev score :
  Reputation.bumpBucket (Reputation.bucketIndex score)
    ((λ k, wrap32 (bucketCount k prev)) <$> [0; 1; 2; 3; 4]%nat)
  = Some ((λ k, wrap32 (bucketCount k (prev ++ [score])))
            <$> [0; 1; 2; 3; 4]%nat).
Proof.
  pose proof (bucketIndex_lt score) as Hlt.
  unfold Reputation.bumpBucket.
  destruct (Reputation.bucketIndex score) as [|[|[|[|[|n]]]]] eqn:Hk;
    [..|lia]; simpl; rewrite i32_add_wrap32, !bucketCount_snoc, Hk; simpl;
    by rewrite ?Z.add_0_r.
Qed.

Lemma inject_Z_nonzero z : z ≠ 0 → ¬ (inject_Z z == 0)%Q.
Proof. intros Hz Heq. apply Hz. unfold Qeq in Heq. simpl in Heq. lia. Qed.

Lemma BigDecimal_div_Some a n :
  n ≠ 0 →
  BigDecimal_div a (BigDecimal_ofInt n) = Some (a / inject_Z n)%Q.
Proof.
  intros Hn. unfold BigDecimal_div, BigDecimal_ofInt.
  destruct (Qeq_bool (inject_Z n) 0) eqn:E; [|done].
  apply Qeq_bool_iff in E. by destruct (inject_Z_nonzero n).
Qed.

(** The incremental formula keeps the mean exact. *)
Lemma running_mean_step (avg : Q) (n s total : Z) :
  0 ≤ n →
  (avg * inject_Z n == inject_Z total)%Q →
  ((avg * inject_Z (n + 1 - 1) + inject_Z s) / inject_Z (n + 1) * inject_Z (n + 1)
   == inject_Z (total + s))%Q.
Proof.
  intros Hn Hm.
  replace (n + 1 - 1) with n by lia.
  rewrite Qmult_comm, Qmult_div_r by (apply inject_Z_nonzero; lia).
  by rewrite Hm, inject_Z_plus.
Qed.

End RunningMean.

Section FeedbackRuns.
Context `{HostEnv}.

Lemma statsView_id w id t :
  wellKeyed w → AgentStats.id (statsView w id t) = id.
Proof.
  intros (_ & _ & HS & _). unfold statsView.
  destruct (agentStats w !! id) eqn:E; simpl; eauto.
Qed.

Lemma tracks_new id t : tracks (newAgentStats id t) [].
Proof. split_and!; done. Qed.

(** [updateAgentStats] on statistics that track [prev]: it does not abort,
    and the statistics track [prev ++ [score]] afterwards. *)
Lemma updateAgentStats_tracked a score t w prev :
  wellKeyed w →
  tracks (statsView w (Agent.id a) t) prev →
  ∃ w' st,
    Reputation.updateAgentStats a score t w = Some w' ∧
    agentStats w' = <[Agent.id a := st]> (agentStats w) ∧
    tracks st (prev ++ [score]).
Proof.
  intros Hwk (Hn & Havg & Hd).
  pose proof (statsView_id w (Agent.id a) t Hwk) as Hid.
  unfold Reputation.updateAgentStats. simpl.
  change (match agentStats w !! Agent.id a with
          | Some s => s
          | None => AgentStats.mk (Agent.id a) (Agent.id a) 0 (BigDecimal_ofInt 0)
                      [0; 0; 0; 0; 0] 0 0 (BigDecimal_ofInt 0) t 0
          end) with (statsView w (Agent.id a) t).
  revert Hid Hn Havg Hd. generalize (statsView w (Agent.id a) t).
  intros sv Hid Hn Havg Hd.
  rewrite Hd, bumpBucket_tracked. simpl.
  rewrite BigDecimal_div_Some by lia. simpl.
  eexists _, _. split; [reflexivity|]. simpl. rewrite Hid.
  split; [reflexivity|].
  split_and!; simpl.
  - rewrite length_app, Nat2Z.inj_add. simpl. lia.
  - rewrite length_app, Nat2Z.inj_add, sumZ_app. simpl.
    rewrite Z.add_0_r, Hn.
    apply running_mean_step; [lia|exact Havg].
  - done.
Qed.

(** One NewFeedback event for a stored Agent whose statistics track
    [prev]. *)
Lemma newFeedback_tracked m agentId client score tag1 tag2 uri hash w a prev :
  wellKeyed w →
  agents w !! agentEntityIdOf (ev_chainId m) agentId = Some a →
  (∀ t, tracks (statsView w (agentEntityIdOf (ev_chainId m) agentId) t) prev) →
  ∃ w' a' st,
    Reputation.handleNewFeedback m agentId client score tag1 tag2 uri hash w
      = Some w' ∧
    agents w' !! agentEntityIdOf (ev_chainId m) agentId = Some a' ∧
    agentStats w' !! agentEntityIdOf (ev_chainId m) agentId = Some st ∧
    tracks st (prev ++ [score]).
Proof.
  intros Hwk Ha Htr. pose proof Hwk as (HA & _).
  pose proof (HA _ _ Ha) as Hid.
  rewrite (handleNewFeedback_stages _ _ _ _ _ _ _ _ _ _ Ha).
  set (w0 := feedbackStored m agentId client score tag1 tag2 uri hash a w).
  destruct (feedbackStored_frame m agentId client score tag1 tag2 uri hash a w)
    as (Hag0 & Hst0 & _).
  fold w0 in Hag0, Hst0.
  assert (wellKeyed w0) as Hwk0 by by apply wellKeyed_feedbackStored.
  destruct (updateAgentStats_tracked a score (ev_timestamp m) w0 prev Hwk0)
    as (w1 & st & Hu & Hst1 & Htr1).
  { rewrite Hid. unfold statsView. rewrite Hst0. apply Htr. }
  rewrite Hu. simpl.
  destruct (updateAgentStats_frame _ _ _ _ _ Hu) as (_ & _ & _ & Hag1).
  destruct (reputation_ups_frame (ev_chainId m) a (ev_timestamp m) tag1 tag2 w1)
    as (Hag2 & _ & Hst2 & _).
  eexists _, _, st. split; [reflexivity|]. simpl.
  rewrite Hag2, Hst2, Hag1, Hst1, Hid, !lookup_insert_eq. done.
Qed.

(** A run of NewFeedback events for one Agent, no other event in between:
    it does not abort, and the statistics track every score. *)
Lemma feedback_run_tracked c agentId es scores :
  Forall2 (λ e s, feedbackScoreFor c agentId e = Some s) es scores →
  ∀ w a prev,
    wellKeyed w →
    agents w !! agentEntityIdOf c agentId = Some a →
    (∀ t, tracks (statsView w (agentEntityIdOf c agentId) t) prev) →
    ∃ w',
      run es w = Some w' ∧
      (∀ t, tracks (statsView w' (agentEntityIdOf c agentId) t) (prev ++ scores)) ∧
      (is_Some (agentStats w !! agentEntityIdOf c agentId) ∨ scores ≠ [] →
       is_Some (agentStats w' !! agentEntityIdOf c agentId)).
Proof.
  induction 1 as [|e s es scores He _ IH]; intros w a prev Hwk Ha Htr.
  - exists w. rewrite app_nil_r. split_and!; [done..|]. by intros [?|?].
  - destruct e; simpl in He; try done.
    case_bool_decide as Hm; [|done]. destruct Hm as [<- <-].
    injection He as ->.
    destruct (newFeedback_tracked m agentId0 clientAddress s tag1 tag2
                feedbackUri feedbackHash w a prev Hwk Ha Htr)
      as (w1 & a1 & st & Hh & Ha1 & Hst & Htr1).
    assert (wellKeyed w1) as Hwk1.
    { eapply (wellKeyed_handle (NewFeedback m agentId0 clientAddress s tag1 tag2
                                  feedbackUri feedbackHash)); eauto. }
    destruct (IH w1 a1 (prev ++ [s]) Hwk1 Ha1) as (w' & Hrun & Htr' & Hsome).
    { intros t. unfold statsView. by rewrite Hst. }
    exists w'. simpl. rewrite Hh. simpl.
    rewrite <- app_assoc in Htr'. split_and!; [done..|].
    intros _. apply Hsome. left. by rewrite Hst.
Qed.

(** The same, read off the stored record, for a run that starts with no
    AgentStats record. *)
Lemma feedback_run_from_fresh c agentId es scores w a :
  wellKeyed w →
  agents w !! agentEntityIdOf c agentId = Some a →
  agentStats w !! agentEntityIdOf c agentId = None →
  Forall2 (λ e s, feedbackScoreFor c agentId e = Some s) es scores →
  scores ≠ [] →
  ∃ w' st,
    run es w = Some w' ∧
    agentStats w' !! agentEntityIdOf c agentId = Some st ∧
    tracks st scores.
Proof.
  intros Hwk Ha Hnone Hes Hne.
  destruct (feedback_run_tracked c agentId es scores Hes w a [] Hwk Ha)
    as (w' & Hrun & Htr & Hsome).
  { intros t. unfold statsView. rewrite Hnone. apply tracks_new. }
  destruct Hsome as [st Hst]; [by right|].
  exists w', st. split_and!; [done..|].
  specialize (Htr 0). unfold statsView in Htr. by rewrite Hst in Htr.
Qed.

Lemma tracks_mean st scores :
  scores ≠ [] → tracks st scores →
  (AgentStats.averageScore st == mean scores)%Q.
Proof.
  intros Hne (_ & Havg & _). unfold mean.
  rewrite <- Havg, Qdiv_mult_l; [done|].
  apply inject_Z_nonzero. destruct scores; [done|]. simpl. lia.
Qed.

Lemma tracks_histogram_sum st scores :
  tracks st scores →
  Z.of_nat (length scores) < 2 ^ 31 →
  sumZ (AgentStats.scoreDistribution st) = Z.of_nat (length scores).
Proof.
  intros (_ & _ & Hd) Hlen. rewrite Hd. simpl.
  pose proof (bucketCount_total scores) as Htot.
  pose proof (bucketCount_nonneg 0 scores).
  pose proof (bucketCount_nonneg 1 scores).
  pose proof (bucketCount_nonneg 2 scores).
  pose proof (bucketCount_nonneg 3 scores).
  pose proof (bucketCount_nonneg 4 scores).
  rewrite !wrap32_small by lia. lia.
Qed.

End FeedbackRuns.

(* ===================================================================== *)
(** * C1: running mean and histogram                                      *)
(* ===================================================================== *)

Lemma Forall2_repeat_same {A B} (R : A → B → Prop) x y n :
  R x y → Forall2 R (repeat x n) (repeat y n).
Proof. intros Hxy. induction n; simpl; by constructor. Qed.

Lemma bucketCount_repeat_low k n :
  bucketCount k (repeat 0 n) = if decide (k = 0%nat) then Z.of_nat n else 0.
Proof.
  induction n as [|n IH]; [by case_decide|].
  change (repeat 0 (S n)) with ([0] ++ repeat 0 n).
  unfold bucketCount in *. rewrite filter_app, length_app, Nat2Z.inj_add, IH.
  rewrite filter_cons, filter_nil.
  change (Reputation.bucketIndex 0) with 0%nat.
  repeat case_decide; simpl; try done; lia.
Qed.

Lemma demoRegisteredWorld_reachable : @reachable demoHost demoRegisteredWorld.
Proof. exists [demoRegisterPlain]. vm_compute. reflexivity. Qed.

(** A run of [n] events with score 0 for the demo Agent: the first bucket
    holds [n] reduced to [i32], the others stay 0. *)
Lemma uniform_low_scores_run (n : nat) :
  (0 < n)%nat →
  ∃ w' st,
    @run demoHost (repeat (demoFeedback 0) n) demoRegisteredWorld = Some w' ∧
    agentStats w' !! agentEntityIdOf 1 7 = Some st ∧
    sumZ (AgentStats.scoreDistribution st) = wrap32 (Z.of_nat n).
Proof.
  intros Hn.
  assert (Forall2 (λ e s, feedbackScoreFor 1 7 e = Some s)
            (repeat (demoFeedback 0) n) (repeat 0 n)) as Hes.
  { apply Forall2_repeat_same. reflexivity. }
  assert (∃ a, agents demoRegisteredWorld !! agentEntityIdOf 1 7 = Some a)
    as [a Ha] by (vm_compute; eauto).
  assert (agentStats demoRegisteredWorld !! agentEntityIdOf 1 7 = None)
    as Hnone by (vm_compute; reflexivity).
  assert (repeat 0 n ≠ []) as Hne by (destruct n; [lia|done]).
  destruct (@feedback_run_from_fresh demoHost 1 7 _ _ demoRegisteredWorld a
              (reachable_wellKeyed _ demoRegisteredWorld_reachable)
              Ha Hnone Hes Hne) as (w' & st & Hrun & Hst & _ & _ & Hd).
  exists w', st. split_and!; [done..|].
  rewrite Hd. cbn [fmap list_fmap sumZ foldr].
  rewrite !bucketCount_repeat_low.
  rewrite decide_True by reflexivity.
  rewrite !decide_False by discriminate.
  change (wrap32 0) with 0. lia.
Qed.

(** C1 (counterexample).  The bucket counters are [i32]: after 2^31
    NewFeedback events with score 0 for one Agent the first bucket has
    wrapped to -2^31, and the five buckets do not sum to the number of
    events. *)
Lemma C1_histogram_wraps_after_2_31_events :
  ∃ w' st,
    Forall2 (λ e s, feedbackScoreFor 1 7 e = Some s)
      (repeat (demoFeedback 0) (Z.to_nat (2 ^ 31)))
      (repeat 0 (Z.to_nat (2 ^ 31))) ∧
    @run demoHost (repeat (demoFeedback 0) (Z.to_nat (2 ^ 31)))
      demoRegisteredWorld = Some w' ∧
    agentStats w' !! agentEntityIdOf 1 7 = Some st ∧
    sumZ (AgentStats.scoreDistribution st) = - 2 ^ 31 ∧
    Z.of_nat (length (repeat 0 (Z.to_nat (2 ^ 31)))) = 2 ^ 31 ∧
    sumZ (AgentStats.scoreDistribution st)
      ≠ Z.of_nat (length (repeat 0 (Z.to_nat (2 ^ 31)))).
Proof.
  assert (0 < Z.to_nat (2 ^ 31))%nat as Hpos.
  { apply Nat2Z.inj_lt. rewrite Z2Nat.id; vm_compute; congruence. }
  destruct (uniform_low_scores_run (Z.to_nat (2 ^ 31)) Hpos)
    as (w' & st & Hrun & Hst & Hsum).
  rewrite Z2Nat.id in Hsum by (vm_compute; congruence).
  assert (Z.of_nat (length (repeat 0 (Z.to_nat (2 ^ 31)))) = 2 ^ 31) as Hlen.
  { rewrite repeat_length. apply Z2Nat.id. vm_compute; congruence. }
  exists w', st. split; [|split; [|split; [|split; [|split]]]].
  - apply Forall2_repeat_same. reflexivity.
  - exact Hrun.
  - exact Hst.
  - exact Hsum.
  - exact Hlen.
  - rewrite Hlen, Hsum. vm_compute. discriminate.
Qed.

(** C1 (amended).  For every run of N >= 1 NewFeedback events for one
    stored Agent that has no statistics yet, with scores s1..sN: the run
    completes, AgentStats.averageScore is the exact arithmetic mean of the
    scores, and bucket k of AgentStats.scoreDistribution holds the number of
    scores of range k (score <= 20 -> 0, <= 40 -> 1, <= 60 -> 2, <= 80 -> 3,
    else 4) reduced to a signed 32-bit integer; the five buckets sum to N
    whenever N < 2^31. *)
Theorem C1_running_mean_and_histogram `{HostEnv}
    (c agentId : Z) (es : list Event) (scores : list Z) (w : World) (a : Agent.t) :
  reachable w →
  agents w !! agentEntityIdOf c agentId = Some a →
  agentStats w !! agentEntityIdOf c agentId = None →
  Forall2 (λ e s, feedbackScoreFor c agentId e = Some s) es scores →
  scores ≠ [] →
  ∃ w' st,
    run es w = Some w' ∧
    agentStats w' !! agentEntityIdOf c agentId = Some st ∧
    AgentStats.totalFeedback st = Z.of_nat (length scores) ∧
    (AgentStats.averageScore st == mean scores)%Q ∧
    AgentStats.scoreDistribution st
      = (λ k, wrap32 (bucketCount k scores)) <$> [0; 1; 2; 3; 4]%nat ∧
    (Z.of_nat (length scores) < 2 ^ 31 →
       sumZ (AgentStats.scoreDistribution st) = Z.of_nat (length scores)) ∧
    (∀ s, (Reputation.bucketIndex s = 0%nat ↔ s ≤ 20) ∧
          (Reputation.bucketIndex s = 1%nat ↔ 20 < s ≤ 40) ∧
          (Reputation.bucketIndex s = 2%nat ↔ 40 < s ≤ 60) ∧
          (Reputation.bucketIndex s = 3%nat ↔ 60 < s ≤ 80) ∧
          (Reputation.bucketIndex s = 4%nat ↔ 80 < s)).
Proof.
  intros Hr Ha Hnone Hes Hne.
  destruct (feedback_run_from_fresh c agentId es scores w a
              (reachable_wellKeyed w Hr) Ha Hnone Hes Hne)
    as (w' & st & Hrun & Hst & Htr).
  exists w', st. split_and!; try done.
  - apply Htr.
  - by apply tracks_mean.
  - apply Htr.
  - by apply tracks_histogram_sum.
  - apply bucketIndex_ranges.
Qed.

Lemma C1_running_mean_and_histogram_witness :
  ∃ a w' st,
    @reachable demoHost demoRegisteredWorld ∧
    agents demoRegisteredWorld !! agentEntityIdOf 1 7 = Some a ∧
    agentStats demoRegisteredWorld !! agentEntityIdOf 1 7 = None ∧
    Forall2 (λ e s, feedbackScoreFor 1 7 e = Some s) demoFeedbackRun demoScores ∧
    demoScores ≠ [] ∧
    @run demoHost demoFeedbackRun demoRegisteredWorld = Some w' ∧
    agentStats w' !! agentEntityIdOf 1 7 = Some st ∧
    (AgentStats.averageScore st == mean demoScores)%Q ∧
    AgentStats.scoreDistribution st = [1; 1; 0; 1; 0].
Proof.
  assert (∃ a, agents demoRegisteredWorld !! agentEntityIdOf 1 7 = Some a)
    as [a Ha] by (vm_compute; eauto).
  assert (agentStats demoRegisteredWorld !! agentEntityIdOf 1 7 = None)
    as Hnone by (vm_compute; reflexivity).
  assert (Forall2 (λ e s, feedbackScoreFor 1 7 e = Some s) demoFeedbackRun
            demoScores) as Hes by (repeat constructor).
  assert (demoScores ≠ []) as Hne by done.
  destruct (@C1_running_mean_and_histogram demoHost 1 7 demoFeedbackRun
              demoScores demoRegisteredWorld a demoRegisteredWorld_reachable
              Ha Hnone Hes Hne)
    as (w' & st & Hrun & Hst & _ & Havg & Hd & _).
  exists a, w', st. split_and!.
  - apply demoRegisteredWorld_reachable.
  - exact Ha.
  - exact Hnone.
  - exact Hes.
  - exact Hne.
  - exact Hrun.
  - exact Hst.
  - exact Havg.
  - rewrite Hd. vm_compute. reflexivity.
Defined.

(* ===================================================================== *)
(** * Every stored Feedback has statistics behind it                      *)
(* ===================================================================== *)

Section FeedbackInvariant.
Context `{HostEnv}.

Lemma feedbackStored_feedbacks m agentId client score tag1 tag2 uri hash a w :
  ∃ f,
    feedbacks (feedbackStored m agentId client score tag1 tag2 uri hash a w)
    = <[feedbackIdOf (agentEntityIdOf (ev_chainId m) agentId) client
          (Agent.totalFeedback a + 1) := f]> (feedbacks w) ∧
    Feedback.agent f = agentEntityIdOf (ev_chainId m) agentId ∧
    Feedback.clientAddress f = client.
Proof.
  unfold feedbackStored, Reputation.scheduleFeedbackFile.
  destruct (nonEmpty uri && isIpfsUri uri);
    [destruct (nonEmpty (extractIpfsHash uri))
    |destruct (nonEmpty uri && isArweaveUri uri);
      [destruct (nonEmpty (extractArweaveTxId uri))|]];
    destruct (nonEmpty uri); simpl; rewrite ?insert_insert_eq; eauto.
Qed.

(** The stores after a NewFeedback event for a stored Agent. *)
Lemma newFeedback_entities m agentId client score tag1 tag2 uri hash w w' a :
  wellKeyed w →
  agents w !! agentEntityIdOf (ev_chainId m) agentId = Some a →
  Reputation.handleNewFeedback m agentId client score tag1 tag2 uri hash w
    = Some w' →
  let key := agentEntityIdOf (ev_chainId m) agentId in
  (∃ f, feedbacks w'
        = <[feedbackIdOf key client (Agent.totalFeedback a + 1) := f]> (feedbacks w) ∧
        Feedback.agent f = key ∧ Feedback.clientAddress f = client) ∧
  (∃ st, agentStats w' = <[key := st]> (agentStats w)) ∧
  agents w'
  = <[key := Agent.set_updatedAt (ev_timestamp m)
               (Agent.set_lastActivity (ev_timestamp m)
                  (Agent.set_totalFeedback (Agent.totalFeedback a + 1) a))]>
      (agents w).
Proof.
  intros Hwk Ha. pose proof Hwk as (HA & _). pose proof (HA _ _ Ha) as Hid.
  rewrite (handleNewFeedback_stages _ _ _ _ _ _ _ _ _ _ Ha).
  intros (w1 & Hu & [= <-])%bind_Some key.
  destruct (feedbackStored_frame m agentId client score tag1 tag2 uri hash a w)
    as (Hag0 & Hst0 & _).
  destruct (feedbackStored_feedbacks m agentId client score tag1 tag2 uri hash
              a w) as (f & Hf0 & Hfa & Hfc).
  destruct (updateAgentStats_frame _ _ _ _ _ Hu) as (_ & _ & Hf1 & Hag1).
  destruct (reputation_ups_frame (ev_chainId m) a (ev_timestamp m) tag1 tag2 w1)
    as (Hag2 & Hf2 & Hst2 & _).
  simpl. rewrite Hag2, Hf2, Hst2, Hf1, Hag1, Hag0, Hf0, Hid. subst key.
  split_and!; [by eauto| |done].
  revert Hu. unfold Reputation.updateAgentStats.
  intros (d & _ & (q & _ & [= <-])%bind_Some)%bind_Some. simpl.
  rewrite Hst0.
  assert (AgentStats.id
            match agentStats w !! Agent.id a with
            | Some s => s
            | None => AgentStats.mk (Agent.id a) (Agent.id a) 0
                        (BigDecimal_ofInt 0) [0; 0; 0; 0; 0] 0 0
                        (BigDecimal_ofInt 0) (ev_timestamp m) 0
            end = Agent.id a) as ->.
  { apply (statsView_id w (Agent.id a) (ev_timestamp m) Hwk). }
  rewrite Hid. eauto.
Qed.

(** [handleFeedbackRevoked] on a stored Feedback whose Agent is stored. *)
Lemma revoked_entities m agentId client index w f a :
  wellKeyed w →
  let key := agentEntityIdOf (ev_chainId m) agentId in
  feedbacks w !! feedbackIdOf key client index = Some f →
  agents w !! key = Some a →
  let w' := Reputation.handleFeedbackRevoked m agentId client index w in
  feedbacks w'
  = <[feedbackIdOf key client index :=
        Feedback.set_revokedAt (Some (ev_timestamp m))
          (Feedback.set_isRevoked true f)]> (feedbacks w) ∧
  agents w'
  = <[key := Agent.set_updatedAt (ev_timestamp m)
               (Agent.set_totalFeedback (Agent.totalFeedback a - 1) a)]>
      (agents w) ∧
  agentStats w'
  = match agentStats w !! key with
    | Some st =>
        <[key := AgentStats.set_updatedAt (ev_timestamp m)
                   (AgentStats.set_totalFeedback
                      (AgentStats.totalFeedback st - 1) st)]> (agentStats w)
    | None => agentStats w
    end.
Proof.
  intros Hwk key Hf Ha w'. subst w'.
  pose proof Hwk as (HA & HF & HS & _).
  pose proof (HA _ _ Ha) as Hida. pose proof (HF _ _ Hf) as Hidf.
  unfold Reputation.handleFeedbackRevoked,
    Reputation.updateAgentStatsAfterRevocation.
  fold key. rewrite Hf. simpl. rewrite Ha. simpl. rewrite Hida.
  destruct (agentStats w !! key) as [st|] eqn:Hst; simpl; rewrite ?Hidf, ?Hida.
  - by rewrite (HS _ _ Hst).
  - done.
Qed.

(** The identity handlers and [handleResponseAppended] touch neither the
    Feedback store nor the AgentStats store. *)
Lemma handle_identity_frame e w w' :
  handle e w = Some w' →
  match e with
  | NewFeedback _ _ _ _ _ _ _ _ | FeedbackRevoked _ _ _ _ => True
  | _ => feedbacks w' = feedbacks w ∧ agentStats w' = agentStats w
  end.
Proof.
  intros He. destruct e; simpl in He; try done; injection He as <-.
  - unfold Identity.handleAgentRegistered, Identity.scheduleRegistrationFile.
    fold (registeredAgent m agentId tokenURI owner w).
    destruct (identity_ups_frame (ev_chainId m)
                (registeredAgent m agentId tokenURI owner w) (ev_timestamp m)
                (Identity.updateProtocolStats (ev_chainId m)
                   (registeredAgent m agentId tokenURI owner w) (ev_timestamp m)
                   (Agent_save (registeredAgent m agentId tokenURI owner w) w)))
      as (_ & Ef2 & Es2).
    destruct (identity_ups_frame (ev_chainId m)
                (registeredAgent m agentId tokenURI owner w) (ev_timestamp m)
                (Agent_save (registeredAgent m agentId tokenURI owner w) w))
      as (_ & Ef1 & Es1).
    destruct (nonEmpty tokenURI && isIpfsUri tokenURI);
      [destruct (nonEmpty (extractIpfsHash tokenURI))|];
      (destruct (nonEmpty tokenURI && isArweaveUri tokenURI);
        [destruct (nonEmpty (extractArweaveTxId tokenURI))|]);
      simpl; by rewrite Ef2, Es2, Ef1, Es1.
  - unfold Identity.handleMetadataSet. by destruct (agents w !! _).
  - unfold Identity.handleUriUpdated, Identity.scheduleRegistrationFile.
    destruct (agents w !! _); [|done].
    destruct (isIpfsUri newUri);
      [destruct (nonEmpty (extractIpfsHash newUri))|];
      (destruct (isArweaveUri newUri);
        [destruct (nonEmpty (extractArweaveTxId newUri))|]); done.
  - unfold Identity.handleTransfer.
    case_bool_decide; [done|]. by destruct (agents w !! _).
  - unfold Identity.handleApproval. by destruct (agents w !! _).
  - done.
  - unfold Reputation.handleResponseAppended. by destruct (feedbacks w !! _).
Qed.

Lemma feedbackInv_handle e w w' :
  wellKeyed w → feedbackInv w → handle e w = Some w' → feedbackInv w'.
Proof.
  intros Hwk Hinv He. pose proof Hwk as (HA & HF & HS & _).
  pose proof (handle_identity_frame e w w' He) as Hframe.
  destruct e;
    try match type of Hframe with
        | _ ∧ _ =>
            destruct Hframe as [Hf Hs]; unfold feedbackInv;
            rewrite Hf, Hs; exact Hinv
        end.
  - (* NewFeedback *)
    simpl in He.
    destruct (agents w !! agentEntityIdOf (ev_chainId m) agentId)
      as [a|] eqn:Ha; last first.
    { rewrite handleNewFeedback_unknown in He by done. by simplify_eq. }
    destruct (newFeedback_entities _ _ _ _ _ _ _ _ _ _ _ Hwk Ha He)
      as ((f & Hf & Hfa & Hfc) & (st & Hst) & _).
    intros k f' Hk. rewrite Hf in Hk. rewrite Hst.
    apply lookup_insert_Some in Hk as [[<- <-]|[_ Hk]].
    + rewrite Hfa, Hfc, lookup_insert_eq. split; eauto 10.
    + destruct (Hinv _ _ Hk) as [Hkey Hsome]. split; [done|].
      rewrite lookup_insert_is_Some'. eauto.
  - (* FeedbackRevoked *)
    simpl in He. injection He as <-.
    destruct (feedbacks w !! feedbackIdOf
                (agentEntityIdOf (ev_chainId m) agentId) clientAddress
                feedbackIndex) as [f|] eqn:Hf; last first.
    { unfold Reputation.handleFeedbackRevoked. by rewrite Hf. }
    assert (∀ k f', feedbacks (Reputation.handleFeedbackRevoked m agentId
                                 clientAddress feedbackIndex w) !! k = Some f' →
              ∃ f0, feedbacks w !! k = Some f0 ∧
                    Feedback.agent f' = Feedback.agent f0 ∧
                    Feedback.clientAddress f' = Feedback.clientAddress f0)
      as Hold.
    { unfold Reputation.handleFeedbackRevoked,
        Reputation.updateAgentStatsAfterRevocation.
      rewrite Hf. simpl.
      destruct (agents w !! _); simpl; [destruct (agentStats w !! _); simpl|];
        rewrite (HF _ _ Hf);
        intros k f' [[<- <-]|[_ Hk]]%lookup_insert_Some; eauto. }
    assert (∀ k, is_Some (agentStats w !! k) →
              is_Some (agentStats (Reputation.handleFeedbackRevoked m agentId
                                     clientAddress feedbackIndex w) !! k))
      as Hmono.
    { unfold Reputation.handleFeedbackRevoked,
        Reputation.updateAgentStatsAfterRevocation.
      rewrite Hf. simpl.
      destruct (agents w !! _); simpl; [|done].
      destruct (agentStats w !! _); simpl; [|done].
      intros k Hk. rewrite lookup_insert_is_Some'. eauto. }
    intros k f' Hk. destruct (Hold k f' Hk) as (f0 & Hk0 & Hag & Hcl).
    destruct (Hinv _ _ Hk0) as [Hkey Hsome].
    rewrite Hag, Hcl. split; [done|]. by apply Hmono.
Qed.

Lemma reachable_feedbackInv w : reachable w → feedbackInv w.
Proof.
  intros Hr.
  cut (wellKeyed w ∧ feedbackInv w); [by intros [_ ?]|].
  revert w Hr. apply reachable_preserves.
  - split; [apply wellKeyed_empty|].
    intros k f Hk. simpl in Hk. by rewrite lookup_empty in Hk.
  - intros e w w' [Hwk Hinv] He. split.
    + by eapply wellKeyed_handle.
    + by eapply feedbackInv_handle.
Qed.

(** In a reachable store, a Feedback found under the composite key of an
    agent has that agent's AgentStats record behind it. *)
Lemma reachable_feedback_has_stats w c agentId client index f :
  reachable w →
  feedbacks w !! feedbackIdOf (agentEntityIdOf c agentId) client index = Some f →
  is_Some (agentStats w !! agentEntityIdOf c agentId).
Proof.
  intros Hr Hf.
  destruct (reachable_feedbackInv w Hr _ _ Hf) as [(c' & a' & n & Hag & Hk) Hsome].
  rewrite Hag in Hk, Hsome.
  apply feedbackIdOf_inj in Hk as (-> & -> & _). done.
Qed.

(** The core of C4 and C10: what one FeedbackRevoked event does to the
    counters of a stored Feedback's Agent, whatever the revocation flag. *)
Lemma revocation_decrements m agentId client index w f a :
  reachable w →
  let key := agentEntityIdOf (ev_chainId m) agentId in
  feedbacks w !! feedbackIdOf key client index = Some f →
  agents w !! key = Some a →
  let w' := Reputation.handleFeedbackRevoked m agentId client index w in
  ∃ st a' st' f',
    agentStats w !! key = Some st ∧
    agents w' !! key = Some a' ∧
    agentStats w' !! key = Some st' ∧
    feedbacks w' !! feedbackIdOf key client index = Some f' ∧
    Feedback.isRevoked f' = true ∧
    Agent.totalFeedback a' = Agent.totalFeedback a - 1 ∧
    AgentStats.totalFeedback st' = AgentStats.totalFeedback st - 1 ∧
    AgentStats.averageScore st' = AgentStats.averageScore st ∧
    AgentStats.scoreDistribution st' = AgentStats.scoreDistribution st.
Proof.
  intros Hr key Hf Ha w'.
  destruct (reachable_feedback_has_stats _ _ _ _ _ _ Hr Hf) as [st Hst].
  destruct (revoked_entities m agentId client index w f a
              (reachable_wellKeyed w Hr) Hf Ha) as (Hf' & Ha' & Hst').
  fold key w' in Hf', Ha', Hst'. fold key in Hst. rewrite Hst in Hst'.
  eexists st, _, _, _.
  rewrite Hf', Ha', Hst', !lookup_insert_eq. split_and!; done.
Qed.

End FeedbackInvariant.

(* ===================================================================== *)
(** * C4 and C10: revocation                                              *)
(* ===================================================================== *)

Section Revocation.
Context `{HostEnv}.

(** [n] FeedbackRevoked events for the same stored Feedback lower both
    counters by [n]. *)
Lemma repeated_revocation m agentId client index (n : nat) :
  ∀ w f a st,
    reachable w →
    feedbacks w !! feedbackIdOf (agentEntityIdOf (ev_chainId m) agentId)
                     client index = Some f →
    agents w !! agentEntityIdOf (ev_chainId m) agentId = Some a →
    agentStats w !! agentEntityIdOf (ev_chainId m) agentId = Some st →
    ∃ w' a' st',
      run (repeat (FeedbackRevoked m agentId client index) n) w = Some w' ∧
      agents w' !! agentEntityIdOf (ev_chainId m) agentId = Some a' ∧
      agentStats w' !! agentEntityIdOf (ev_chainId m) agentId = Some st' ∧
      Agent.totalFeedback a' = Agent.totalFeedback a - Z.of_nat n ∧
      AgentStats.totalFeedback st' = AgentStats.totalFeedback st - Z.of_nat n ∧
      AgentStats.averageScore st' = AgentStats.averageScore st ∧
      AgentStats.scoreDistribution st' = AgentStats.scoreDistribution st.
Proof.
  induction n as [|n IH]; intros w f a st Hr Hf Ha Hst.
  - exists w, a, st. simpl. split_and!; try done; lia.
  - destruct (revocation_decrements m agentId client index w f a Hr Hf Ha)
      as (st0 & a1 & st1 & f1 & Hst0 & Ha1 & Hst1 & Hf1 & _ & Hta & Hts & Havg & Hd).
    rewrite Hst in Hst0. injection Hst0 as <-.
    assert (reachable (Reputation.handleFeedbackRevoked m agentId client index w))
      as Hr1.
    { by apply (reachable_step (FeedbackRevoked m agentId client index) w). }
    destruct (IH _ f1 a1 st1 Hr1 Hf1 Ha1 Hst1)
      as (w' & a' & st' & Hrun & Ha' & Hst' & Hta' & Hts' & Havg' & Hd').
    exists w', a', st'. split_and!; try done.
    + rewrite Hta', Hta. lia.
    + rewrite Hts', Hts. lia.
    + by rewrite Havg'.
    + by rewrite Hd'.
Qed.

End Revocation.

(** C4.  For every FeedbackRevoked event whose Feedback and Agent are
    stored, the handler lowers Agent.totalFeedback and
    AgentStats.totalFeedback by exactly 1 and leaves AgentStats.averageScore
    and the five buckets of AgentStats.scoreDistribution as they were. *)
Theorem C4_revocation_decrements_and_frames `{HostEnv}
    (m : EventMeta) (agentId : BigInt) (client : Bytes) (index : BigInt)
    (w : World) (f : Feedback.t) (a : Agent.t) :
  reachable w →
  feedbacks w !! feedbackIdOf (agentEntityIdOf (ev_chainId m) agentId)
                   client index = Some f →
  agents w !! agentEntityIdOf (ev_chainId m) agentId = Some a →
  ∃ st a' st',
    agentStats w !! agentEntityIdOf (ev_chainId m) agentId = Some st ∧
    agents (Reputation.handleFeedbackRevoked m agentId client index w)
      !! agentEntityIdOf (ev_chainId m) agentId = Some a' ∧
    agentStats (Reputation.handleFeedbackRevoked m agentId client index w)
      !! agentEntityIdOf (ev_chainId m) agentId = Some st' ∧
    Agent.totalFeedback a' = Agent.totalFeedback a - 1 ∧
    AgentStats.totalFeedback st' = AgentStats.totalFeedback st - 1 ∧
    AgentStats.averageScore st' = AgentStats.averageScore st ∧
    AgentStats.scoreDistribution st' = AgentStats.scoreDistribution st.
Proof.
  intros Hr Hf Ha.
  destruct (revocation_decrements m agentId client index w f a Hr Hf Ha)
    as (st & a' & st' & f' & ? & ? & ? & _ & _ & ? & ? & ? & ?).
  exists st, a', st'. done.
Qed.

Lemma demoFeedbackWorld_reachable : @reachable demoHost demoFeedbackWorld.
Proof. exists [demoRegisterPlain; demoFeedback 80]. vm_compute. reflexivity. Qed.

Lemma demoRevokedWorld_reachable : @reachable demoHost demoRevokedWorld.
Proof.
  exists [demoRegisterPlain; demoFeedback 80; demoRevoke].
  vm_compute. reflexivity.
Qed.

Lemma C4_revocation_decrements_and_frames_witness :
  ∃ f a st a' st',
    @reachable demoHost demoFeedbackWorld ∧
    feedbacks demoFeedbackWorld
      !! feedbackIdOf (agentEntityIdOf (ev_chainId demoMeta) 7) demoClient 1
      = Some f ∧
    agents demoFeedbackWorld !! agentEntityIdOf (ev_chainId demoMeta) 7 = Some a ∧
    agentStats demoFeedbackWorld !! agentEntityIdOf (ev_chainId demoMeta) 7
      = Some st ∧
    agents (Reputation.handleFeedbackRevoked demoMeta 7 demoClient 1
              demoFeedbackWorld)
      !! agentEntityIdOf (ev_chainId demoMeta) 7 = Some a' ∧
    agentStats (Reputation.handleFeedbackRevoked demoMeta 7 demoClient 1
                  demoFeedbackWorld)
      !! agentEntityIdOf (ev_chainId demoMeta) 7 = Some st' ∧
    Agent.totalFeedback a = 1 ∧ Agent.totalFeedback a' = 0 ∧
    AgentStats.totalFeedback st' = AgentStats.totalFeedback st - 1 ∧
    AgentStats.scoreDistribution st' = [0; 0; 0; 1; 0].
Proof.
  assert (∃ f, feedbacks demoFeedbackWorld
                 !! feedbackIdOf (agentEntityIdOf (ev_chainId demoMeta) 7)
                      demoClient 1 = Some f) as [f Hf] by (vm_compute; eauto).
  assert (∃ a, agents demoFeedbackWorld
                 !! agentEntityIdOf (ev_chainId demoMeta) 7 = Some a
               ∧ Agent.totalFeedback a = 1) as (a & Ha & Hta)
    by (vm_compute; eauto).
  destruct (@C4_revocation_decrements_and_frames demoHost demoMeta 7 demoClient
              1 demoFeedbackWorld f a demoFeedbackWorld_reachable Hf Ha)
    as (st & a' & st' & Hst & Ha' & Hst' & Hta' & Hts' & _ & Hd).
  exists f, a, st, a', st'. split_and!.
  - apply demoFeedbackWorld_reachable.
  - exact Hf.
  - exact Ha.
  - exact Hst.
  - exact Ha'.
  - exact Hst'.
  - exact Hta.
  - rewrite Hta', Hta. reflexivity.
  - exact Hts'.
  - rewrite Hd. revert Hst. vm_compute. by intros [= <-].
Defined.

(** C10.  Revocation is not idempotent.  [handleFeedbackRevoked] does not
    look at the revocation flag: for a stored Feedback that is already
    revoked, every further FeedbackRevoked event under the same composite
    key lowers Agent.totalFeedback and AgentStats.totalFeedback by 1 again,
    so n such events lower both counters by n, below the number of
    feedbacks that are not revoked and below zero. *)
Theorem C10_revocation_is_not_idempotent `{HostEnv}
    (m : EventMeta) (agentId : BigInt) (client : Bytes) (index : BigInt)
    (w : World) (f : Feedback.t) (a : Agent.t) (n : nat) :
  reachable w →
  feedbacks w !! feedbackIdOf (agentEntityIdOf (ev_chainId m) agentId)
                   client index = Some f →
  Feedback.isRevoked f = true →
  agents w !! agentEntityIdOf (ev_chainId m) agentId = Some a →
  ∃ st w' a' st',
    agentStats w !! agentEntityIdOf (ev_chainId m) agentId = Some st ∧
    run (repeat (FeedbackRevoked m agentId client index) n) w = Some w' ∧
    agents w' !! agentEntityIdOf (ev_chainId m) agentId = Some a' ∧
    agentStats w' !! agentEntityIdOf (ev_chainId m) agentId = Some st' ∧
    Agent.totalFeedback a' = Agent.totalFeedback a - Z.of_nat n ∧
    AgentStats.totalFeedback st' = AgentStats.totalFeedback st - Z.of_nat n ∧
    (Agent.totalFeedback a < Z.of_nat n → Agent.totalFeedback a' < 0) ∧
    (AgentStats.totalFeedback st < Z.of_nat n → AgentStats.totalFeedback st' < 0).
Proof.
  intros Hr Hf _ Ha.
  destruct (reachable_feedback_has_stats _ _ _ _ _ _ Hr Hf) as [st Hst].
  destruct (repeated_revocation m agentId client index n w f a st Hr Hf Ha Hst)
    as (w' & a' & st' & Hrun & Ha' & Hst' & Hta & Hts & _).
  exists st, w', a', st'. split_and!; try done; lia.
Qed.

Lemma C10_revocation_is_not_idempotent_witness :
  ∃ f a w' a' st',
    @reachable demoHost demoRevokedWorld ∧
    feedbacks demoRevokedWorld
      !! feedbackIdOf (agentEntityIdOf (ev_chainId demoMeta) 7) demoClient 1
      = Some f ∧
    Feedback.isRevoked f = true ∧
    agents demoRevokedWorld !! agentEntityIdOf (ev_chainId demoMeta) 7 = Some a ∧
    Agent.totalFeedback a = 0 ∧
    @run demoHost (repeat (FeedbackRevoked demoMeta 7 demoClient 1) 1)
      demoRevokedWorld = Some w' ∧
    agents w' !! agentEntityIdOf (ev_chainId demoMeta) 7 = Some a' ∧
    agentStats w' !! agentEntityIdOf (ev_chainId demoMeta) 7 = Some st' ∧
    Agent.totalFeedback a' = -1 ∧
    AgentStats.totalFeedback st' < 0.
Proof.
  assert (∃ f, feedbacks demoRevokedWorld
                 !! feedbackIdOf (agentEntityIdOf (ev_chainId demoMeta) 7)
                      demoClient 1 = Some f
               ∧ Feedback.isRevoked f = true) as (f & Hf & Hrev)
    by (vm_compute; eauto).
  assert (∃ a, agents demoRevokedWorld
                 !! agentEntityIdOf (ev_chainId demoMeta) 7 = Some a
               ∧ Agent.totalFeedback a = 0) as (a & Ha & Hta)
    by (vm_compute; eauto).
  destruct (@C10_revocation_is_not_idempotent demoHost demoMeta 7 demoClient 1
              demoRevokedWorld f a 1 demoRevokedWorld_reachable Hf Hrev Ha)
    as (st & w' & a' & st' & Hst & Hrun & Ha' & Hst' & Hta' & Hts' & _ & Hneg).
  exists f, a, w', a', st'. split_and!.
  - apply demoRevokedWorld_reachable.
  - exact Hf.
  - exact Hrev.
  - exact Ha.
  - exact Hta.
  - exact Hrun.
  - exact Ha'.
  - exact Hst'.
  - rewrite Hta', Hta. reflexivity.
  - apply Hneg. revert Hst. vm_compute. by intros [= <-].
Defined.

(* ===================================================================== *)
(** * The effect trace: fetch requests and link saves                     *)
(* ===================================================================== *)

Section Trace.
Context `{HostEnv}.

Lemma fetchThenLinkTx_app tx l1 l2 :
  fetchThenLinkTx tx l1 = true → fetchThenLinkTx tx l2 = true →
  fetchThenLinkTx tx (l1 ++ l2) = true.
Proof.
  intros H1 H2. induction l1 as [|e l1 IH]; simpl; [done|].
  destruct e; simpl in H1 |- *; auto.
  apply andb_true_iff in H1 as [Hd Hrest].
  destruct l1 as [|e' l1']; [done|]. simpl.
  rewrite Hd. simpl. by apply IH.
Qed.

Lemma fetchThenLinkTx_no_fetch tx l :
  forallb (λ e, negb (isFetch e)) l = true → fetchThenLinkTx tx l = true.
Proof.
  induction l as [|e l IH]; simpl; [done|].
  intros [He Hl]%andb_true_iff. destruct e; simpl in He; auto. done.
Qed.

(** What follows a fetch request in a list with [fetchThenLinkTx]. *)
Lemma fetchThenLinkTx_split tx l pre d post :
  fetchThenLinkTx tx l = true → l = pre ++ CreateDataSource d :: post →
  ∃ e post', post = e :: post' ∧ savesLinkTx tx d e = true.
Proof.
  revert l. induction pre as [|x pre IH]; intros l Hl ->; simpl in Hl.
  - apply andb_true_iff in Hl as [Hd _]. destruct post; [done|]. eauto.
  - apply (IH (pre ++ CreateDataSource d :: post)); [|done].
    destruct x; try done. by apply andb_true_iff in Hl as [_ ?].
Qed.

(** The data source a scheduling block creates carries what the file
    handler needs to rebuild the link key. *)
Lemma registration_recordKey tpl m agentEntityId cid :
  Parser.recordKey
    (mkDataSource tpl cid
       (setBigInt "timestamp" (ev_timestamp m)
          (setString "txHash" (toHexString (ev_txHash m))
             (setString "cid" cid (setString "agentId" agentEntityId ∅)))))
  = Some (toHexString (ev_txHash m) +:+ ":" +:+ cid).
Proof.
  unfold Parser.recordKey, getString, setBigInt, setString. simpl.
  rewrite lookup_insert_ne by done. by rewrite lookup_insert_eq.
Qed.

Lemma feedback_recordKey tpl m feedbackId cid t1 t2 :
  Parser.recordKey
    (mkDataSource tpl cid
       (setString "tag2OnChain" t2
          (setString "tag1OnChain" t1
             (setBigInt "timestamp" (ev_timestamp m)
                (setString "txHash" (toHexString (ev_txHash m))
                   (setString "cid" cid (setString "feedbackId" feedbackId ∅)))))))
  = Some (toHexString (ev_txHash m) +:+ ":" +:+ cid).
Proof.
  unfold Parser.recordKey, getString, setBigInt, setString. simpl.
  rewrite !lookup_insert_ne by done. by rewrite lookup_insert_eq.
Qed.

(** A scheduling block appends the fetch request and then the link save. *)
Lemma scheduleRegistrationFile_trace tpl m agentEntityId cid agent w :
  ∃ d,
    trace (Identity.scheduleRegistrationFile tpl m agentEntityId cid agent w).2
    = trace w ++
        [CreateDataSource d;
         SaveAgent (Identity.scheduleRegistrationFile tpl m agentEntityId cid
                      agent w).1] ∧
    ds_template d = tpl ∧ ds_param d = cid ∧
    Parser.recordKey d = Some (toHexString (ev_txHash m) +:+ ":" +:+ cid) ∧
    Agent.registrationFile
      (Identity.scheduleRegistrationFile tpl m agentEntityId cid agent w).1
    = Some (toHexString (ev_txHash m) +:+ ":" +:+ cid).
Proof.
  eexists. unfold Identity.scheduleRegistrationFile. simpl.
  rewrite <- app_assoc. split; [reflexivity|].
  split_and!; first [done | apply registration_recordKey].
Qed.

Lemma scheduleFeedbackFile_trace tpl m feedbackId cid feedback w :
  ∃ d,
    trace (Reputation.scheduleFeedbackFile tpl m feedbackId cid feedback w).2
    = trace w ++
        [CreateDataSource d;
         SaveFeedback (Reputation.scheduleFeedbackFile tpl m feedbackId cid
                         feedback w).1] ∧
    ds_template d = tpl ∧ ds_param d = cid ∧
    Parser.recordKey d = Some (toHexString (ev_txHash m) +:+ ":" +:+ cid) ∧
    Feedback.feedbackFile
      (Reputation.scheduleFeedbackFile tpl m feedbackId cid feedback w).1
    = Some (toHexString (ev_txHash m) +:+ ":" +:+ cid).
Proof.
  eexists. unfold Reputation.scheduleFeedbackFile. simpl.
  rewrite <- app_assoc. split; [reflexivity|].
  split_and!; first [done | apply feedback_recordKey].
Qed.

Lemma effectsSince_app w w' new :
  trace w' = trace w ++ new → effectsSince w w' = new.
Proof. intros E. unfold effectsSince. by rewrite E, drop_app_length. Qed.

Lemma identity_ups_trace c a t w :
  ∃ new, trace (Identity.updateProtocolStats c a t w) = trace w ++ new ∧
         noFetch new.
Proof.
  unfold Identity.updateProtocolStats.
  destruct (isSupportedChain c); simpl; [|by exists []; rewrite app_nil_r].
  destruct (protocols w !! toString c); simpl.
  - by eexists [_].
  - rewrite <- app_assoc. by eexists [_; _].
Qed.

Lemma reputation_ups_trace c a t tag1 tag2 w :
  ∃ new, trace (Reputation.updateProtocolStats c a t tag1 tag2 w)
         = trace w ++ new ∧ noFetch new.
Proof.
  unfold Reputation.updateProtocolStats.
  destruct (isSupportedChain c); simpl; [|by exists []; rewrite app_nil_r].
  by eexists [_].
Qed.

Lemma updateAgentStats_trace a score t w w' :
  Reputation.updateAgentStats a score t w = Some w' →
  ∃ new, trace w' = trace w ++ new ∧ noFetch new.
Proof.
  unfold Reputation.updateAgentStats.
  intros (d & _ & (q & _ & [= <-])%bind_Some)%bind_Some. simpl.
  rewrite <- app_assoc. by eexists [_; _].
Qed.

Lemma noFetch_app l1 l2 : noFetch l1 → noFetch l2 → noFetch (l1 ++ l2).
Proof. intros H1 H2. by rewrite forallb_app, H1, H2. Qed.

(** The Register handler: saves and counter updates without a fetch, then
    up to two scheduling blocks. *)
Lemma register_trace m agentId tokenURI owner w :
  ∃ new,
    trace (Identity.handleAgentRegistered m agentId tokenURI owner w)
    = trace w ++ new ∧
    fetchThenLinkTx (toHexString (ev_txHash m)) new = true ∧
    (nonEmpty tokenURI && (ipfsFile tokenURI || arweaveFile tokenURI) = true →
     existsb isFetch new = true).
Proof.
  unfold Identity.handleAgentRegistered, Identity.scheduleRegistrationFile,
    ipfsFile, arweaveFile.
  fold (registeredAgent m agentId tokenURI owner w).
  set (A := registeredAgent m agentId tokenURI owner w).
  destruct (identity_ups_trace (ev_chainId m) A (ev_timestamp m) (Agent_save A w))
    as (l1 & E1 & N1).
  destruct (identity_ups_trace (ev_chainId m) A (ev_timestamp m)
              (Identity.updateProtocolStats (ev_chainId m) A (ev_timestamp m)
                 (Agent_save A w))) as (l2 & E2 & N2).
  destruct (nonEmpty tokenURI); simpl;
    (destruct (isIpfsUri tokenURI); simpl;
      [destruct (nonEmpty (extractIpfsHash tokenURI)); simpl|]);
    (destruct (isArweaveUri tokenURI); simpl;
      [destruct (nonEmpty (extractArweaveTxId tokenURI)); simpl|]);
    rewrite E2, E1; simpl; rewrite <- !app_assoc;
    (eexists; split; [reflexivity|]);
    (split;
      [apply (fetchThenLinkTx_app _ [_]); [done|];
       apply fetchThenLinkTx_app; [by apply fetchThenLinkTx_no_fetch|];
       apply fetchThenLinkTx_app; [by apply fetchThenLinkTx_no_fetch|];
       simpl; unfold savesLinkTx; simpl; rewrite ?registration_recordKey; simpl;
       (rewrite ?bool_decide_eq_true_2 by done; done)
      |try done; intros _; simpl; rewrite !existsb_app; simpl;
       by rewrite ?orb_true_r]).
Qed.

Lemma uriUpdated_trace m agentId newUri w :
  ∃ new,
    trace (Identity.handleUriUpdated m agentId newUri w) = trace w ++ new ∧
    fetchThenLinkTx (toHexString (ev_txHash m)) new = true ∧
    (bool_decide (is_Some (agents w !! agentEntityIdOf (ev_chainId m) agentId))
     && (ipfsFile newUri || arweaveFile newUri) = true →
     existsb isFetch new = true).
Proof.
  unfold Identity.handleUriUpdated, Identity.scheduleRegistrationFile,
    ipfsFile, arweaveFile.
  destruct (agents w !! _) as [a|] eqn:Ha; last first.
  { exists []. rewrite app_nil_r. split_and!; [done..|].
    rewrite bool_decide_eq_false_2; [done|]. by intros [? ?]. }
  rewrite bool_decide_eq_true_2 by eauto.
  destruct (isIpfsUri newUri); simpl;
    [destruct (nonEmpty (extractIpfsHash newUri)); simpl|];
    (destruct (isArweaveUri newUri); simpl;
      [destruct (nonEmpty (extractArweaveTxId newUri)); simpl|]);
    rewrite <- ?app_assoc;
    (eexists; split; [reflexivity|]);
    (split;
      [simpl; unfold savesLinkTx; simpl; rewrite ?registration_recordKey; simpl;
       (rewrite ?bool_decide_eq_true_2 by done; done)
      |try done; intros _; simpl; by rewrite ?orb_true_r]).
Qed.

Lemma feedbackStored_trace m agentId client score tag1 tag2 uri hash a w :
  ∃ new,
    trace (feedbackStored m agentId client score tag1 tag2 uri hash a w)
    = trace w ++ new ∧
    fetchThenLinkTx (toHexString (ev_txHash m)) new = true ∧
    (nonEmpty uri && (ipfsFile uri || negb (isIpfsUri uri) && arweaveFile uri)
       = true →
     existsb isFetch new = true).
Proof.
  unfold feedbackStored, Reputation.scheduleFeedbackFile, ipfsFile, arweaveFile.
  destruct (nonEmpty uri); simpl;
    (destruct (isIpfsUri uri); simpl;
      [destruct (nonEmpty (extractIpfsHash uri)); simpl
      |destruct (isArweaveUri uri); simpl;
        [destruct (nonEmpty (extractArweaveTxId uri)); simpl|]]);
    rewrite <- ?app_assoc;
    (eexists; split; [reflexivity|]);
    (split;
      [simpl; unfold savesLinkTx; simpl; rewrite ?feedback_recordKey; simpl;
       (rewrite ?bool_decide_eq_true_2 by done; done)
      |try done; intros _; simpl; by rewrite ?orb_true_r]).
Qed.

Lemma newFeedback_trace m agentId client score tag1 tag2 uri hash w w' :
  Reputation.handleNewFeedback m agentId client score tag1 tag2 uri hash w
    = Some w' →
  ∃ new,
    trace w' = trace w ++ new ∧
    fetchThenLinkTx (toHexString (ev_txHash m)) new = true ∧
    (bool_decide (is_Some (agents w !! agentEntityIdOf (ev_chainId m) agentId))
     && nonEmpty uri
     && (ipfsFile uri || negb (isIpfsUri uri) && arweaveFile uri) = true →
     existsb isFetch new = true).
Proof.
  destruct (agents w !! agentEntityIdOf (ev_chainId m) agentId) as [a|] eqn:Ha;
    last first.
  { rewrite handleNewFeedback_unknown by done. intros [= <-].
    exists []. rewrite app_nil_r. split_and!; [done..|].
    rewrite bool_decide_eq_false_2; [done|]. by intros [? ?]. }
  rewrite (handleNewFeedback_stages _ _ _ _ _ _ _ _ _ _ Ha).
  intros (w1 & Hu & [= <-])%bind_Some.
  destruct (feedbackStored_trace m agentId client score tag1 tag2 uri hash a w)
    as (l0 & E0 & F0 & X0).
  destruct (updateAgentStats_trace _ _ _ _ _ Hu) as (l1 & E1 & N1).
  destruct (reputation_ups_trace (ev_chainId m) a (ev_timestamp m) tag1 tag2 w1)
    as (l2 & E2 & N2).
  simpl. rewrite E2, E1, E0, <- !app_assoc.
  eexists. split; [reflexivity|]. split.
  - apply fetchThenLinkTx_app; [done|].
    apply fetchThenLinkTx_no_fetch.
    apply noFetch_app; [done|]. by apply noFetch_app.
  - intros Hx. rewrite existsb_app, (X0 Hx). done.
Qed.

(** Every handler appends to the trace, puts a link save right behind each
    fetch request, and does request a fetch when the event names a file. *)
Lemma handle_trace e w w' :
  handle e w = Some w' →
  ∃ new,
    trace w' = trace w ++ new ∧
    fetchThenLinkTx (toHexString (ev_txHash (eventMeta e))) new = true ∧
    (requestsFile e w = true → existsb isFetch new = true).
Proof.
  intros He. destruct e; simpl in He; try (injection He as <-).
  - apply register_trace.
  - unfold Identity.handleMetadataSet.
    destruct (agents w !! _); simpl;
      [rewrite <- app_assoc; by eexists [_; _]|].
    exists []. by rewrite app_nil_r.
  - apply uriUpdated_trace.
  - unfold Identity.handleTransfer.
    case_bool_decide; [exists []; by rewrite app_nil_r|].
    destruct (agents w !! _); simpl; [by eexists [_]|].
    exists []. by rewrite app_nil_r.
  - unfold Identity.handleApproval.
    destruct (agents w !! _); simpl; [by eexists [_]|].
    exists []. by rewrite app_nil_r.
  - exists []. by rewrite app_nil_r.
  - exact (newFeedback_trace _ _ _ _ _ _ _ _ _ _ He).
  - unfold Reputation.handleFeedbackRevoked,
      Reputation.updateAgentStatsAfterRevocation.
    destruct (feedbacks w !! _); simpl; [|exists []; by rewrite app_nil_r].
    destruct (agents w !! _); simpl; [|by eexists [_]].
    destruct (agentStats w !! _); simpl; rewrite <- ?app_assoc.
    + by eexists [_; _; _].
    + by eexists [_; _].
  - unfold Reputation.handleResponseAppended.
    destruct (feedbacks w !! _); simpl; [by eexists [_]|].
    exists []. by rewrite app_nil_r.
Qed.

End Trace.

(* ===================================================================== *)
(** * The registration file handler stores under the rebuilt key          *)
(* ===================================================================== *)

Section ParserKey.
Context `{JsonHost}.

Lemma setIfString_id v set m :
  (∀ x m, AgentRegistrationFile.id (set x m) = AgentRegistrationFile.id m) →
  AgentRegistrationFile.id (Parser.setIfString v set m)
  = AgentRegistrationFile.id m.
Proof. intros Hset. unfold Parser.setIfString. by destruct (Parser.stringField v). Qed.

Lemma setIfArray_id v set m :
  (∀ x m, AgentRegistrationFile.id (set x m) = AgentRegistrationFile.id m) →
  AgentRegistrationFile.id (Parser.setIfArray v set m)
  = AgentRegistrationFile.id m.
Proof. intros Hset. unfold Parser.setIfArray. by destruct (Parser.arrayField v). Qed.

Lemma parseAgentWallet_id walletStr m m' :
  Parser.parseAgentWallet walletStr m = Some m' →
  AgentRegistrationFile.id m' = AgentRegistrationFile.id m.
Proof.
  unfold Parser.parseAgentWallet. intros Hp.
  repeat (case_match || simplify_option_eq); done.
Qed.

Lemma parseEndpoint_id v m m' :
  Parser.parseEndpoint v m = Some m' →
  AgentRegistrationFile.id m' = AgentRegistrationFile.id m.
Proof.
  unfold Parser.parseEndpoint. intros Hp.
  destruct v; try by simplify_eq.
  destruct (Parser.stringField _); [|by simplify_eq].
  repeat case_bool_decide; try by simplify_eq.
  - simplify_eq. by rewrite !setIfArray_id, !setIfString_id.
  - simplify_eq. by rewrite !setIfArray_id, !setIfString_id.
  - destruct (Parser.stringField _); [|by simplify_eq].
    by eapply parseAgentWallet_id.
  - simplify_eq. by rewrite setIfString_id.
  - simplify_eq. by rewrite setIfString_id.
Qed.

Lemma parseEndpoints_id l m m' :
  Parser.parseEndpoints l m = Some m' →
  AgentRegistrationFile.id m' = AgentRegistrationFile.id m.
Proof.
  revert m. induction l as [|v l IH]; intros m; simpl.
  - by intros [= <-].
  - intros (m1 & H1 & H2)%bind_Some.
    rewrite (IH _ H2). by eapply parseEndpoint_id.
Qed.

(** The record [parseRegistrationJSON] returns carries the [fileId] it was
    given. *)
Lemma parseRegistrationJSON_id content fileId agentId cid t md :
  Parser.parseRegistrationJSON content fileId agentId cid t = Some (Some md) →
  AgentRegistrationFile.id md = fileId.
Proof.
  unfold Parser.parseRegistrationJSON.
  destruct (json_try_fromBytes content) as [[| | | | |obj]|]; try done.
  intros (m1 & H1 & (m2 & H2 & (m3 & H3 & [= <-])%bind_Some)%bind_Some)%bind_Some.
  assert (AgentRegistrationFile.id m3 = AgentRegistrationFile.id m2) as Hid3.
  { destruct (Parser.arrayField (Parser.get obj "endpoints")).
    - apply parseEndpoints_id in H3. by rewrite H3, setIfArray_id.
    - injection H3 as <-. by rewrite setIfArray_id. }
  assert (AgentRegistrationFile.id m2 = AgentRegistrationFile.id m1) as Hid2.
  { destruct (Parser.present (Parser.get obj "x402support")).
    - apply bind_Some in H2 as (b & _ & [= <-]). done.
    - by injection H2 as <-. }
  assert (AgentRegistrationFile.id m1 = fileId) as Hid1.
  { destruct (Parser.present (Parser.get obj "active")).
    - apply bind_Some in H1 as (b & _ & [= <-]). simpl.
      by rewrite !setIfString_id.
    - injection H1 as <-. by rewrite !setIfString_id. }
  congruence.
Qed.

(** Whenever [parseRegistrationFile] persists a record, it persists it
    under the key it rebuilt from the data source. *)
Lemma parseRegistrationFile_key content d files files' k :
  Parser.recordKey d = Some k →
  Parser.parseRegistrationFile content d files = Some files' →
  files' = files ∨
  ∃ md, AgentRegistrationFile.id md = k ∧ files' = <[k := md]> files.
Proof.
  unfold Parser.recordKey, Parser.parseRegistrationFile.
  intros (tx & Htx & [= <-])%bind_Some. rewrite Htx. simpl.
  intros (agentId & _ & (t & _ & (r & Hr & Hsave)%bind_Some)%bind_Some)%bind_Some.
  destruct r as [md|]; [|left; by simplify_eq].
  right. exists md. injection Hsave as <-.
  by rewrite (parseRegistrationJSON_id _ _ _ _ _ _ Hr).
Qed.

End ParserKey.

(* ===================================================================== *)
(** * C5: the order of the link save and the fetch request                *)
(* ===================================================================== *)

(** C5 (counterexample).  A Register event with an IPFS URI on the empty
    store: the handler's effects hold a fetch request that no save of a
    linked Agent precedes; the first save of the Agent has no link, the
    linked save comes right after the request. *)
Lemma C5_fetch_is_requested_before_link_is_saved :
  @requestsFile demoHost demoRegister emptyWorld = true ∧
  linkThenFetch [] (effectsSince emptyWorld demoRegisterFileWorld) = false ∧
  fetchThenLink (effectsSince emptyWorld demoRegisterFileWorld) = true ∧
  (∃ a0 a1 rest,
     effectsSince emptyWorld demoRegisterFileWorld
     = SaveAgent a0 :: rest ++ [CreateDataSource demoDataSource; SaveAgent a1] ∧
     forallb (λ e, negb (isFetch e) && negb (savesLink "0xabcd:Qm" e)) rest = true ∧
     Agent.registrationFile a0 = None ∧
     Agent.registrationFile a1 = Some "0xabcd:Qm").
Proof.
  split_and!; [vm_compute; reflexivity..|].
  eexists _, _, [_; _; _; _]. split_and!; vm_compute; reflexivity.
Qed.

(** C5 (amended).  For every Register, UriUpdated or NewFeedback event whose
    URI names an off-chain file with a non-empty content id, the handler
    requests the fetch, and the very next thing it does after each fetch
    request is to save the primary entity with its link field
    (registrationFile / feedbackFile) set to the key of the record to come:
    the link is populated and saved after the request is issued, within the
    same handler run. *)
Theorem C5_link_saved_right_after_fetch `{HostEnv} (e : Event) (w w' : World) :
  handle e w = Some w' →
  ∃ new,
    trace w' = trace w ++ new ∧
    (requestsFile e w = true → ∃ d, CreateDataSource d ∈ new) ∧
    (∀ pre d post, new = pre ++ CreateDataSource d :: post →
       ∃ k x post',
         Parser.recordKey d = Some k ∧ post = x :: post' ∧
         savesLink k x = true).
Proof.
  intros He. destruct (handle_trace e w w' He) as (new & Htr & Hftl & Hreq).
  exists new. split_and!; [done| |].
  - intros Hr. apply Hreq, existsb_exists in Hr as (x & Hin & Hx).
    destruct x; try done. exists d. by apply list_elem_of_In.
  - intros pre d post Hnew.
    destruct (fetchThenLinkTx_split _ _ _ _ _ Hftl Hnew) as (x & post' & -> & Hs).
    apply andb_true_iff in Hs as [Hk%bool_decide_eq_true Hs]. eauto 10.
Qed.

Lemma C5_link_saved_right_after_fetch_witness :
  @handle demoHost demoRegister emptyWorld = Some demoRegisterFileWorld ∧
  @requestsFile demoHost demoRegister emptyWorld = true ∧
  ∃ new,
    trace demoRegisterFileWorld = trace emptyWorld ++ new ∧
    (∃ d, CreateDataSource d ∈ new) ∧
    (∀ pre d post, new = pre ++ CreateDataSource d :: post →
       ∃ k x post',
         Parser.recordKey d = Some k ∧ post = x :: post' ∧
         savesLink k x = true).
Proof.
  assert (@handle demoHost demoRegister emptyWorld = Some demoRegisterFileWorld)
    as He by reflexivity.
  assert (@requestsFile demoHost demoRegister emptyWorld = true) as Hr
    by reflexivity.
  split; [exact He|]. split; [exact Hr|].
  destruct (@C5_link_saved_right_after_fetch demoHost demoRegister emptyWorld
              demoRegisterFileWorld He) as (new & Htr & Hreq & Hlink).
  exists new. split; [exact Htr|]. split; [exact (Hreq Hr)|exact Hlink].
Defined.

(* ===================================================================== *)
(** * C6: the link key and the record key                                 *)
(* ===================================================================== *)

(** C6.  Whenever a handler creates a file data source, the key the file
    handler rebuilds from that data source ([recordKey]: the context's
    [txHash], a colon, the data source parameter) is the template string
    over the event's transaction hash and the content id, the same string
    the handler stores in the link field of the primary entity it saves
    next; and whenever [parseRegistrationFile] persists a record for the
    data source, it persists it under exactly that key. *)
Theorem C6_link_key_is_record_key `{HostEnv} `{JsonHost}
    (e : Event) (w w' : World) (pre : list Effect) (d : DataSource)
    (post : list Effect) :
  handle e w = Some w' →
  effectsSince w w' = pre ++ CreateDataSource d :: post →
  let k := toHexString (ev_txHash (eventMeta e)) +:+ ":" +:+ ds_param d in
  Parser.recordKey d = Some k ∧
  (∃ x post', post = x :: post' ∧ savesLink k x = true) ∧
  (∀ content files files',
     Parser.parseRegistrationFile content d files = Some files' →
     files' = files ∨
     ∃ md, AgentRegistrationFile.id md = k ∧ files' = <[k := md]> files).
Proof.
  intros He Heff k.
  destruct (handle_trace e w w' He) as (new & Htr & Hftl & _).
  rewrite (effectsSince_app _ _ _ Htr) in Heff.
  destruct (fetchThenLinkTx_split _ _ _ _ _ Hftl Heff) as (x & post' & -> & Hs).
  apply andb_true_iff in Hs as [Hk%bool_decide_eq_true Hs].
  split_and!; [done|by eauto|].
  intros content files files'. by apply parseRegistrationFile_key.
Qed.

Lemma C6_link_key_is_record_key_witness :
  ∃ pre post a files',
    @handle demoHost demoRegister emptyWorld = Some demoRegisterFileWorld ∧
    effectsSince emptyWorld demoRegisterFileWorld
      = pre ++ CreateDataSource demoDataSource :: post ∧
    Parser.recordKey demoDataSource = Some "0xabcd:Qm" ∧
    agents demoRegisterFileWorld !! "1:7" = Some a ∧
    Agent.registrationFile a = Some "0xabcd:Qm" ∧
    @Parser.parseRegistrationFile demoJsonHost [Byte.x7b] demoDataSource ∅
      = Some files' ∧
    is_Some (files' !! "0xabcd:Qm").
Proof.
  assert (@handle demoHost demoRegister emptyWorld = Some demoRegisterFileWorld)
    as He by reflexivity.
  assert (∃ pre post,
            effectsSince emptyWorld demoRegisterFileWorld
            = pre ++ CreateDataSource demoDataSource :: post)
    as (pre & post & Heff).
  { eexists [_; _; _; _; _], [_]. vm_compute. reflexivity. }
  assert (∃ a, agents demoRegisterFileWorld !! "1:7" = Some a ∧
               Agent.registrationFile a = Some "0xabcd:Qm") as (a & Ha & Hl)
    by (vm_compute; eauto).
  assert (∃ files', @Parser.parseRegistrationFile demoJsonHost [Byte.x7b]
                      demoDataSource ∅ = Some files') as [files' Hp]
    by (vm_compute; eauto).
  destruct (@C6_link_key_is_record_key demoHost demoJsonHost demoRegister
              emptyWorld demoRegisterFileWorld pre demoDataSource post He Heff)
    as (Hk & _ & Hstore).
  exists pre, post, a, files'. split_and!.
  - exact He.
  - exact Heff.
  - exact Hk.
  - exact Ha.
  - exact Hl.
  - exact Hp.
  - destruct (Hstore _ _ _ Hp) as [->|(md & _ & ->)].
    + exfalso. revert Hp. vm_compute. discriminate.
    + rewrite lookup_insert_eq. eauto.
Defined.

(* ===================================================================== *)
(** * C9: the agentWallet endpoint                                        *)
(* ===================================================================== *)

Section Wallet.
Context `{JsonHost}.

(** An endpoint object named [agentWallet] with a string endpoint goes to
    [parseAgentWallet]. *)
Lemma parseEndpoint_agentWallet endpoint walletStr m :
  Parser.get endpoint "name" = Some (JString "agentWallet") →
  Parser.get endpoint "endpoint" = Some (JString walletStr) →
  Parser.parseEndpoint (JObject endpoint) m = Parser.parseAgentWallet walletStr m.
Proof.
  intros Hn He. unfold Parser.parseEndpoint. rewrite Hn. simpl.
  by rewrite He.
Qed.

End Wallet.

(** C9 (counterexample).  A colon-delimited string of four parts is
    accepted: the handler only asks for more than two parts. *)
Lemma C9_four_part_wallet_is_accepted :
  let walletStr := "eip155:1:" +:+ demoAddressHex +:+ ":extra" in
  length (split walletStr ":") = 4%nat ∧
  ∃ m',
    @Parser.parseEndpoint demoJsonHost (demoWalletEndpoint walletStr)
      demoEmptyFile = Some m' ∧
    AgentRegistrationFile.agentWallet m'
      = Some (@Bytes_fromHexString demoJsonHost demoAddressHex) ∧
    AgentRegistrationFile.agentWalletChainId m' = Some 1.
Proof. split; [reflexivity|]. eexists. split_and!; vm_compute; reflexivity. Qed.

(** C9 (amended).  For every agentWallet endpoint string.  A string that
    does not start with [eip155:], starts with [0x] and has 42 characters
    sets agentWallet only.  A string that starts with [eip155:] is accepted
    when its colon split has more than two parts and the third part starts
    with [0x] and has 42 characters (its digits are not inspected):
    agentWallet is decoded from the third part, and agentWalletChainId is
    the big integer the host parses from the second part when that part is
    not empty, and is left unset when it is empty.  Every other string,
    among them each [eip155:] string of only two parts, sets neither
    field. *)
Theorem C9_agent_wallet_endpoint `{JsonHost}
    (endpoint : list (string * JSONValue)) (walletStr : string)
    (m : AgentRegistrationFile.t) :
  Parser.get endpoint "name" = Some (JString "agentWallet") →
  Parser.get endpoint "endpoint" = Some (JString walletStr) →
  let wellFormed (s : string) :=
    startsWith s "0x" && bool_decide (String.length s = 42%nat) in
  let parts := split walletStr ":" in
  let result := Parser.parseEndpoint (JObject endpoint) m in
  (startsWith walletStr "eip155:" = false →
     result
     = if wellFormed walletStr
       then Some (AgentRegistrationFile.set_agentWallet
                    (Some (Bytes_fromHexString walletStr)) m)
       else Some m) ∧
  (startsWith walletStr "eip155:" = true →
   ∀ chainIdPart addressPart,
     parts !! 1%nat = Some chainIdPart →
     parts !! 2%nat = Some addressPart →
     wellFormed addressPart = true →
     result
     = if nonEmpty chainIdPart
       then
         chainId ← BigInt_fromString chainIdPart;
         Some (AgentRegistrationFile.set_agentWalletChainId (Some chainId)
                 (AgentRegistrationFile.set_agentWallet
                    (Some (Bytes_fromHexString addressPart)) m))
       else
         Some (AgentRegistrationFile.set_agentWallet
                 (Some (Bytes_fromHexString addressPart)) m)) ∧
  (startsWith walletStr "eip155:" = true →
     (length parts ≤ 2)%nat ∨
     (∃ addressPart, parts !! 2%nat = Some addressPart ∧
                     wellFormed addressPart = false) →
     result = Some m).
Proof.
  intros Hn He wellFormed parts result. subst result.
  rewrite (parseEndpoint_agentWallet _ _ _ Hn He).
  unfold Parser.parseAgentWallet. fold parts. split_and!.
  - intros ->. subst wellFormed. simpl. by destruct (_ && _).
  - intros -> chainIdPart addressPart H1 H2 Hwf.
    assert (2 < length parts)%nat as Hlen by (by eapply lookup_lt_Some).
    rewrite bool_decide_eq_true_2 by done.
    rewrite H2. simpl. subst wellFormed. simpl in Hwf. rewrite Hwf.
    rewrite H1. simpl. by destruct (nonEmpty chainIdPart).
  - intros -> [Hlen|(addressPart & H2 & Hwf)].
    + rewrite bool_decide_eq_false_2 by lia. done.
    + assert (2 < length parts)%nat as Hlen by (by eapply lookup_lt_Some).
      rewrite bool_decide_eq_true_2 by done.
      rewrite H2. simpl. subst wellFormed. simpl in Hwf. by rewrite Hwf.
Qed.

Lemma C9_agent_wallet_endpoint_witness :
  let eip := "eip155:1:" +:+ demoAddressHex in
  (* the spec's example: chain id 1 and a 42-character address *)
  (∃ m', @Parser.parseEndpoint demoJsonHost (demoWalletEndpoint eip)
           demoEmptyFile = Some m' ∧
         AgentRegistrationFile.agentWallet m'
           = Some (@Bytes_fromHexString demoJsonHost demoAddressHex) ∧
         AgentRegistrationFile.agentWalletChainId m' = Some 1) ∧
  (* two colon parts: neither field is set *)
  @Parser.parseEndpoint demoJsonHost (demoWalletEndpoint "eip155:1")
    demoEmptyFile = Some demoEmptyFile ∧
  (* a bare address: agentWallet only *)
  @Parser.parseEndpoint demoJsonHost (demoWalletEndpoint demoAddressHex)
    demoEmptyFile
  = Some (AgentRegistrationFile.set_agentWallet
            (Some (@Bytes_fromHexString demoJsonHost demoAddressHex))
            demoEmptyFile).
Proof.
  cbv zeta. split_and!.
  - destruct (@C9_agent_wallet_endpoint demoJsonHost
                [("name", JString "agentWallet");
                 ("endpoint", JString ("eip155:1:" +:+ demoAddressHex))]
                ("eip155:1:" +:+ demoAddressHex) demoEmptyFile
                eq_refl eq_refl) as (_ & Hacc & _).
    specialize (Hacc eq_refl "1" demoAddressHex eq_refl eq_refl eq_refl).
    eexists. split; [exact Hacc|]. split; reflexivity.
  - destruct (@C9_agent_wallet_endpoint demoJsonHost
                [("name", JString "agentWallet"); ("endpoint", JString "eip155:1")]
                "eip155:1" demoEmptyFile eq_refl eq_refl) as (_ & _ & Hrej).
    apply (Hrej eq_refl). left. vm_compute. lia.
  - destruct (@C9_agent_wallet_endpoint demoJsonHost
                [("name", JString "agentWallet");
                 ("endpoint", JString demoAddressHex)]
                demoAddressHex demoEmptyFile eq_refl eq_refl) as (Hbare & _).
    exact (Hbare eq_refl).
Defined.

(* ===================================================================== *)
(** * Further properties of the handlers                                  *)
(* ===================================================================== *)

(** X1.  An event whose parent entity is not stored is skipped: the store
    and the effect trace are exactly what they were (nothing is saved, no
    entity is fabricated, no fetch is requested). *)
Theorem X1_missing_parent_is_skipped `{HostEnv} (e : Event) (w : World) :
  parentMissing e w = true → handle e w = Some w.
Proof.
  intros Hm. destruct e; simpl in Hm; try done;
    apply bool_decide_eq_true in Hm; simpl in Hm; simpl.
  - unfold Identity.handleMetadataSet. by rewrite Hm.
  - unfold Identity.handleUriUpdated. by rewrite Hm.
  - unfold Identity.handleTransfer. case_bool_decide; [done|]. by rewrite Hm.
  - unfold Identity.handleApproval. by rewrite Hm.
  - by apply handleNewFeedback_unknown.
  - unfold Reputation.handleFeedbackRevoked. by rewrite Hm.
  - unfold Reputation.handleResponseAppended. by rewrite Hm.
Qed.

Lemma X1_missing_parent_is_skipped_witness :
  parentMissing (demoFeedback 50) emptyWorld = true ∧
  parentMissing demoRevoke demoRegisteredWorld = true ∧
  @handle demoHost (demoFeedback 50) emptyWorld = Some emptyWorld ∧
  @handle demoHost demoRevoke demoRegisteredWorld = Some demoRegisteredWorld.
Proof.
  split_and!.
  - reflexivity.
  - vm_compute. reflexivity.
  - exact (@X1_missing_parent_is_skipped demoHost (demoFeedback 50) emptyWorld
             eq_refl).
  - apply (@X1_missing_parent_is_skipped demoHost demoRevoke demoRegisteredWorld).
    vm_compute. reflexivity.
Defined.

(* ===================================================================== *)
(** * What one event does to the Agent and AgentStats stores              *)
(* ===================================================================== *)

Section AgentShape.
Context `{HostEnv}.

(** The Agent [handleAgentRegistered] leaves in the store is the one it saved
    first, up to the registration-file link set afterwards. *)
Lemma register_agents m agentId tokenURI owner w :
  wellKeyed w →
  ∃ A', agents (Identity.handleAgentRegistered m agentId tokenURI owner w)
        = <[agentEntityIdOf (ev_chainId m) agentId := A']> (agents w) ∧
        ∃ l : option (option string),
          A' = match l with
               | Some r => Agent.set_registrationFile r
                             (registeredAgent m agentId tokenURI owner w)
               | None => registeredAgent m agentId tokenURI owner w
               end.
Proof.
  intros Hwk.
  pose proof (registeredAgent_id m agentId tokenURI owner w Hwk) as Hid.
  unfold Identity.handleAgentRegistered, Identity.scheduleRegistrationFile.
  fold (registeredAgent m agentId tokenURI owner w).
  destruct (identity_ups_frame (ev_chainId m)
              (registeredAgent m agentId tokenURI owner w) (ev_timestamp m)
              (Identity.updateProtocolStats (ev_chainId m)
                 (registeredAgent m agentId tokenURI owner w) (ev_timestamp m)
                 (Agent_save (registeredAgent m agentId tokenURI owner w) w)))
    as (E2 & _).
  destruct (identity_ups_frame (ev_chainId m)
              (registeredAgent m agentId tokenURI owner w) (ev_timestamp m)
              (Agent_save (registeredAgent m agentId tokenURI owner w) w))
    as (E1 & _).
  revert E1 E2 Hid. generalize (registeredAgent m agentId tokenURI owner w).
  intros A E1 E2 Hid.
  destruct (nonEmpty tokenURI && isIpfsUri tokenURI);
    [destruct (nonEmpty (extractIpfsHash tokenURI))|];
    (destruct (nonEmpty tokenURI && isArweaveUri tokenURI);
      [destruct (nonEmpty (extractArweaveTxId tokenURI))|]);
    simpl; rewrite ?E2, ?E1; simpl; rewrite ?Hid, ?insert_insert_eq;
    (eexists; split; [reflexivity|]);
    first [by exists None | by eexists (Some _)].
Qed.

(** Every handler either leaves the Agent store alone or upserts exactly the
    Agent its event addresses; the fields of the upserted record follow
    from the record found (or, for a first Register, from the event). *)
Lemma handle_agents_shape e w w' :
  wellKeyed w → handle e w = Some w' →
  (agents w' = agents w ∧ feedbackDelta e w = 0) ∨
  ∃ k a',
    agentKeyOf e = Some k ∧
    agents w' = <[k := a']> (agents w) ∧
    Agent.id a' = k ∧
    Agent.totalFeedback a' = agentTotalOf w k + feedbackDelta e w ∧
    Agent.operators a'
      = operatorsAfter e (default [] (Agent.operators <$> agents w !! k)) ∧
    Agent.owner a'
      = ownerAfter e (default [] (Agent.owner <$> agents w !! k)) ∧
    Agent.createdAt a'
      = default (ev_timestamp (eventMeta e)) (Agent.createdAt <$> agents w !! k) ∧
    (is_Some (agents w !! k) ∨ ∃ m agentId tokenURI owner,
                                 e = Registered m agentId tokenURI owner).
Proof.
  intros Hwk He. pose proof Hwk as (HA & HF & _).
  destruct e; simpl in He; try (injection He as <-).
  - (* Register *)
    right.
    destruct (register_agents m agentId tokenURI owner w Hwk)
      as (A' & -> & [l ->]).
    pose proof (registeredAgent_id m agentId tokenURI owner w Hwk) as Hid.
    eexists _, _. split; [reflexivity|]. split; [reflexivity|].
    split; [by destruct l|].
    unfold registeredAgent, agentTotalOf.
    destruct l; simpl; destruct (agents w !! _); simpl;
      split_and!; eauto 10; lia.
  - (* MetadataSet *)
    unfold Identity.handleMetadataSet.
    destruct (agents w !! _) as [a|] eqn:E; [|by left]. right.
    eexists _, _. split; [reflexivity|]. simpl.
    rewrite (HA _ _ E). split; [reflexivity|].
    unfold agentTotalOf. rewrite E. simpl. split_and!; eauto; lia.
  - (* UriUpdated *)
    unfold Identity.handleUriUpdated, Identity.scheduleRegistrationFile.
    destruct (agents w !! _) as [a|] eqn:E; [|by left]. right.
    exists (agentEntityIdOf (ev_chainId m) agentId).
    destruct (isIpfsUri newUri);
      [destruct (nonEmpty (extractIpfsHash newUri))|];
      (destruct (isArweaveUri newUri);
        [destruct (nonEmpty (extractArweaveTxId newUri))|]);
      simpl; rewrite (HA _ _ E), ?insert_insert_eq;
      (eexists; split; [reflexivity|]; split; [reflexivity|]);
      unfold agentTotalOf; rewrite E; simpl; split_and!; eauto; lia.
  - (* Transfer *)
    unfold Identity.handleTransfer. case_bool_decide; [by left|].
    destruct (agents w !! _) as [a|] eqn:E; [|by left]. right.
    eexists _, _. split; [reflexivity|]. simpl.
    rewrite (HA _ _ E). split; [reflexivity|].
    unfold agentTotalOf. rewrite E. simpl. split_and!; eauto; lia.
  - (* Approval *)
    unfold Identity.handleApproval.
    destruct (agents w !! _) as [a|] eqn:E; [|by left]. right.
    eexists _, _. split; [reflexivity|]. simpl.
    rewrite (HA _ _ E). split; [reflexivity|].
    unfold agentTotalOf. rewrite E. simpl. split_and!; eauto; lia.
  - by left.
  - (* NewFeedback *)
    destruct (agents w !! agentEntityIdOf (ev_chainId m) agentId)
      as [a|] eqn:E.
    + right. destruct (newFeedback_entities _ _ _ _ _ _ _ _ _ _ _ Hwk E He)
        as (_ & _ & Hag).
      eexists _, _. split; [reflexivity|]. split; [exact Hag|]. simpl.
      unfold agentTotalOf. rewrite E. simpl.
      split_and!; eauto.
    + rewrite handleNewFeedback_unknown in He by done. injection He as <-.
      left. split; [done|]. simpl. by rewrite E.
  - (* FeedbackRevoked *)
    destruct (feedbacks w !! feedbackIdOf
                (agentEntityIdOf (ev_chainId m) agentId) clientAddress
                feedbackIndex) as [f|] eqn:Ef; last first.
    { left. unfold Reputation.handleFeedbackRevoked. rewrite Ef.
      split; [done|]. simpl. by rewrite Ef. }
    destruct (agents w !! agentEntityIdOf (ev_chainId m) agentId)
      as [a|] eqn:E; last first.
    { left. unfold Reputation.handleFeedbackRevoked. rewrite Ef.
      unfold Feedback_save. simpl.
      rewrite E. split; [done|]. simpl. rewrite Ef.
      by rewrite andb_false_r. }
    right. destruct (revoked_entities m agentId clientAddress feedbackIndex w f
                       a Hwk Ef E) as (_ & Hag & _).
    eexists _, _. split; [reflexivity|]. split; [exact Hag|]. simpl.
    unfold agentTotalOf. rewrite Ef, E. simpl.
    split_and!; eauto.
  - (* ResponseAppended *)
    left. unfold Reputation.handleResponseAppended.
    by destruct (feedbacks w !! _).
Qed.

End AgentShape.

Section StatsShape.
Context `{HostEnv}.

(** [updateAgentStats] aborts in two cases only: the stored counter is -1
    (the mean divides by the counter plus one) or the histogram has no cell
    for the score's bucket.  Otherwise it upserts the statistics with the
    counter raised by one and the histogram as long as before. *)
Lemma updateAgentStats_spec a score t w :
  wellKeyed w →
  match Reputation.updateAgentStats a score t w with
  | Some w' =>
      ∃ st', agentStats w' = <[Agent.id a := st']> (agentStats w) ∧
             AgentStats.totalFeedback st'
             = AgentStats.totalFeedback (statsView w (Agent.id a) t) + 1 ∧
             length (AgentStats.scoreDistribution st')
             = length (AgentStats.scoreDistribution (statsView w (Agent.id a) t)) ∧
             AgentStats.totalFeedback (statsView w (Agent.id a) t) ≠ -1 ∧
             (Reputation.bucketIndex score
              < length (AgentStats.scoreDistribution
                          (statsView w (Agent.id a) t)))%nat ∧
             AgentStats.agent st'
             = AgentStats.agent (statsView w (Agent.id a) t)
  | None =>
      AgentStats.totalFeedback (statsView w (Agent.id a) t) = -1 ∨
      (length (AgentStats.scoreDistribution (statsView w (Agent.id a) t))
       ≤ Reputation.bucketIndex score)%nat
  end.
Proof.
  intros Hwk.
  pose proof (statsView_id w (Agent.id a) t Hwk) as Hid.
  unfold Reputation.updateAgentStats. simpl.
  change (match agentStats w !! Agent.id a with
          | Some s => s
          | None => AgentStats.mk (Agent.id a) (Agent.id a) 0 (BigDecimal_ofInt 0)
                      [0; 0; 0; 0; 0] 0 0 (BigDecimal_ofInt 0) t 0
          end) with (statsView w (Agent.id a) t).
  revert Hid. generalize (statsView w (Agent.id a) t). intros sv Hid.
  unfold Reputation.bumpBucket.
  destruct (AgentStats.scoreDistribution sv !! Reputation.bucketIndex score)
    as [x|] eqn:Ex; simpl.
  - destruct (decide (AgentStats.totalFeedback sv = -1)) as [E|E].
    + unfold BigDecimal_div, BigDecimal_ofInt. rewrite E. simpl. by left.
    + rewrite BigDecimal_div_Some by lia. simpl.
      eexists. rewrite Hid. split; [reflexivity|]. simpl.
      rewrite length_insert. split_and!; try done.
      by apply lookup_lt_Some in Ex.
  - right. by apply lookup_ge_None in Ex.
Qed.

(** Every handler either leaves the AgentStats store alone or upserts the
    record of the Agent its event addresses, moving its counter by the
    event's delta and keeping the length of the histogram. *)
Lemma handle_stats_shape e w w' :
  wellKeyed w → handle e w = Some w' →
  (agentStats w' = agentStats w ∧
   (feedbackDelta e w = 0 ∨
    ∃ m agentId client index,
      e = FeedbackRevoked m agentId client index ∧
      agentStats w !! agentEntityIdOf (ev_chainId m) agentId = None ∧
      is_Some (feedbacks w !! feedbackIdOf
                 (agentEntityIdOf (ev_chainId m) agentId) client index))) ∨
  ∃ k st',
    agentKeyOf e = Some k ∧
    agentStats w' = <[k := st']> (agentStats w) ∧
    is_Some (agents w !! k) ∧
    AgentStats.totalFeedback st' = statsTotalOf w k + feedbackDelta e w ∧
    length (AgentStats.scoreDistribution st')
    = length (AgentStats.scoreDistribution
                (statsView w k (ev_timestamp (eventMeta e)))) ∧
    AgentStats.agent st'
    = AgentStats.agent (statsView w k (ev_timestamp (eventMeta e))).
Proof.
  intros Hwk He. pose proof Hwk as (HA & HF & HS & _).
  destruct e;
    try (left; split;
         [exact (proj2 (handle_identity_frame _ _ _ He))|by left]).
  - (* NewFeedback *)
    simpl in He.
    destruct (agents w !! agentEntityIdOf (ev_chainId m) agentId)
      as [a|] eqn:E; last first.
    { rewrite handleNewFeedback_unknown in He by done. injection He as <-.
      left. split; [done|]. left. simpl. by rewrite E. }
    right. pose proof (HA _ _ E) as Hida.
    rewrite (handleNewFeedback_stages _ _ _ _ _ _ _ _ _ _ E) in He.
    apply bind_Some in He as (w1 & Hu & [= <-]).
    destruct (feedbackStored_frame m agentId clientAddress score tag1 tag2
                feedbackUri feedbackHash a w) as (_ & Hst0 & _).
    pose proof (wellKeyed_feedbackStored m agentId clientAddress score tag1 tag2
                  feedbackUri feedbackHash a w Hwk) as Hwk0.
    pose proof (updateAgentStats_spec a score (ev_timestamp m) _ Hwk0) as Hspec.
    rewrite Hu in Hspec.
    destruct Hspec as (st' & Hst1 & Ht & Hl & _ & _ & Hag).
    destruct (reputation_ups_frame (ev_chainId m) a (ev_timestamp m) tag1 tag2 w1)
      as (_ & _ & Hst2 & _).
    unfold statsView in Ht, Hl, Hag. rewrite Hst0, Hida in *.
    exists (agentEntityIdOf (ev_chainId m) agentId), st'.
    split; [done|]. simpl. rewrite Hst2, Hst1.
    split; [done|]. split; [by eauto|].
    rewrite Ht, Hl, Hag, E. unfold statsTotalOf, statsView, newAgentStats. simpl.
    by destruct (agentStats w !! _).
  - (* FeedbackRevoked *)
    simpl in He. injection He as <-.
    destruct (feedbacks w !! feedbackIdOf
                (agentEntityIdOf (ev_chainId m) agentId) clientAddress
                feedbackIndex) as [f|] eqn:Ef; last first.
    { left. unfold Reputation.handleFeedbackRevoked. rewrite Ef.
      split; [done|]. left. simpl. by rewrite Ef. }
    destruct (agents w !! agentEntityIdOf (ev_chainId m) agentId)
      as [a|] eqn:E; last first.
    { left. unfold Reputation.handleFeedbackRevoked. rewrite Ef.
      unfold Feedback_save. simpl.
      rewrite E. split; [done|]. left. simpl. rewrite Ef.
      by rewrite andb_false_r. }
    destruct (revoked_entities m agentId clientAddress feedbackIndex w f
                a Hwk Ef E) as (_ & _ & Hst).
    destruct (agentStats w !! agentEntityIdOf (ev_chainId m) agentId)
      as [st|] eqn:Es.
    + right. eexists _, _. split; [reflexivity|]. split; [exact Hst|].
      split; [by eauto|]. simpl.
      unfold statsTotalOf, statsView. rewrite Ef, E, Es. simpl.
      split; [lia|done].
    + left. split; [exact Hst|]. right. eexists _, _, _, _.
      split; [reflexivity|]. split; [exact Es|]. rewrite Ef. by eauto.
Qed.

End StatsShape.

Section Counters.
Context `{HostEnv}.

Lemma agentTotalOf_insert w w' k0 a' k :
  agents w' = <[k0 := a']> (agents w) →
  agentTotalOf w' k
  = if decide (k0 = k) then Agent.totalFeedback a' else agentTotalOf w k.
Proof.
  intros E. unfold agentTotalOf. rewrite E.
  destruct (decide (k0 = k)) as [->|Hne].
  - by rewrite lookup_insert_eq.
  - by rewrite lookup_insert_ne.
Qed.

Lemma statsTotalOf_insert w w' k0 st' k :
  agentStats w' = <[k0 := st']> (agentStats w) →
  statsTotalOf w' k
  = if decide (k0 = k) then AgentStats.totalFeedback st' else statsTotalOf w k.
Proof.
  intros E. unfold statsTotalOf. rewrite E.
  destruct (decide (k0 = k)) as [->|Hne].
  - by rewrite lookup_insert_eq.
  - by rewrite lookup_insert_ne.
Qed.

Lemma countersInv_handle e w w' :
  reachable w → countersInv w → handle e w = Some w' → countersInv w'.
Proof.
  intros Hr HJ He k.
  pose proof (reachable_wellKeyed w Hr) as Hwk.
  destruct (handle_agents_shape e w w' Hwk He)
    as [[Ha Hd]|(k0 & a' & Hk0 & Ha & _ & Hta & _)];
    destruct (handle_stats_shape e w w' Hwk He)
      as [[Hs Hd']|(k1 & st' & Hk1 & Hs & _ & Hts & _)].
  - unfold agentTotalOf, statsTotalOf. rewrite Ha, Hs. apply HJ.
  - rewrite (statsTotalOf_insert _ _ _ _ k Hs).
    unfold agentTotalOf. rewrite Ha. fold (agentTotalOf w k).
    case_decide; [subst; rewrite Hts, Hd, (HJ k); lia|apply HJ].
  - rewrite (agentTotalOf_insert _ _ _ _ k Ha).
    unfold statsTotalOf. rewrite Hs. fold (statsTotalOf w k).
    destruct Hd' as [Hd'|(m & agentId & client & index & -> & Hnone & Hsome)].
    + case_decide; [subst; rewrite Hta, Hd', (HJ k); lia|apply HJ].
    + destruct Hsome as [f Hf].
      destruct (reachable_feedback_has_stats w _ _ _ _ f Hr Hf) as [st Hst].
      congruence.
  - rewrite (agentTotalOf_insert _ _ _ _ k Ha), (statsTotalOf_insert _ _ _ _ k Hs).
    assert (k1 = k0) as -> by congruence.
    case_decide; [subst; rewrite Hta, Hts, (HJ k); lia|apply HJ].
Qed.

Lemma reachable_countersInv w : reachable w → countersInv w.
Proof.
  intros Hr. cut (reachable w ∧ countersInv w); [by intros [_ ?]|].
  revert w Hr. apply reachable_preserves.
  - split; [by exists []|]. intros k. done.
  - intros e w w' [Hr HJ] He. split.
    + by eapply reachable_step.
    + by eapply countersInv_handle.
Qed.

Lemma histogramInv_handle e w w' :
  wellKeyed w → histogramInv w → handle e w = Some w' → histogramInv w'.
Proof.
  intros Hwk HI He k st Hk.
  destruct (handle_stats_shape e w w' Hwk He)
    as [[Hs _]|(k1 & st' & _ & Hs & _ & _ & Hl & _)].
  - rewrite Hs in Hk. by eapply HI.
  - rewrite Hs in Hk. apply lookup_insert_Some in Hk as [[<- <-]|[_ Hk]].
    + rewrite Hl. unfold statsView.
      destruct (agentStats w !! k1) as [st0|] eqn:E; simpl; [by eapply HI|done].
    + by eapply HI.
Qed.

Lemma reachable_histogramInv w : reachable w → histogramInv w.
Proof.
  intros Hr. cut (wellKeyed w ∧ histogramInv w); [by intros [_ ?]|].
  revert w Hr. apply reachable_preserves.
  - split; [apply wellKeyed_empty|].
    intros k st Hk. simpl in Hk. by rewrite lookup_empty in Hk.
  - intros e w w' [Hwk HI] He. split.
    + by eapply wellKeyed_handle.
    + by eapply histogramInv_handle.
Qed.

(** X2.  In every store the handlers can build, an Agent's own feedback
    counter equals the counter of its AgentStats record, and is 0 while the
    Agent has no AgentStats record: the two counters, kept by separate
    assignments in [updateAgentStats] and
    [updateAgentStatsAfterRevocation], never drift apart. *)
Theorem X2_agent_counter_matches_stats w k a :
  reachable w →
  agents w !! k = Some a →
  Agent.totalFeedback a
  = default 0 (AgentStats.totalFeedback <$> agentStats w !! k).
Proof.
  intros Hr Ha. pose proof (reachable_countersInv w Hr k) as HJ.
  unfold agentTotalOf, statsTotalOf in HJ. by rewrite Ha in HJ.
Qed.

(** X3.  A NewFeedback event for a stored Agent aborts the handler exactly
    when that Agent's feedback counter is -1: the running mean is divided
    by the counter plus one.  In every other case the handler completes. *)
Theorem X3_new_feedback_aborts_iff_counter_is_minus_one
    m agentId client score tag1 tag2 uri hash w a :
  reachable w →
  agents w !! agentEntityIdOf (ev_chainId m) agentId = Some a →
  Reputation.handleNewFeedback m agentId client score tag1 tag2 uri hash w = None
  ↔ Agent.totalFeedback a = -1.
Proof.
  intros Hr Ha. pose proof (reachable_wellKeyed w Hr) as Hwk.
  pose proof Hwk as (HA & _). pose proof (HA _ _ Ha) as Hid.
  pose proof (reachable_countersInv w Hr
                (agentEntityIdOf (ev_chainId m) agentId)) as HJ.
  unfold agentTotalOf, statsTotalOf in HJ. rewrite Ha in HJ. simpl in HJ.
  pose proof (reachable_histogramInv w Hr
                (agentEntityIdOf (ev_chainId m) agentId)) as HI.
  rewrite (handleNewFeedback_stages _ _ _ _ _ _ _ _ _ _ Ha).
  destruct (feedbackStored_frame m agentId client score tag1 tag2 uri hash a w)
    as (_ & Hst0 & _).
  pose proof (wellKeyed_feedbackStored m agentId client score tag1 tag2 uri
                hash a w Hwk) as Hwk0.
  pose proof (updateAgentStats_spec a score (ev_timestamp m) _ Hwk0) as Hspec.
  unfold statsView in Hspec. rewrite Hst0, Hid in Hspec.
  assert (AgentStats.totalFeedback
            (default (newAgentStats (agentEntityIdOf (ev_chainId m) agentId)
                        (ev_timestamp m))
               (agentStats w !! agentEntityIdOf (ev_chainId m) agentId))
          = Agent.totalFeedback a) as Ht.
  { rewrite HJ. by destruct (agentStats w !! _). }
  assert (length (AgentStats.scoreDistribution
            (default (newAgentStats (agentEntityIdOf (ev_chainId m) agentId)
                        (ev_timestamp m))
               (agentStats w !! agentEntityIdOf (ev_chainId m) agentId)))
          = 5%nat) as Hl.
  { destruct (agentStats w !! _) as [st|]; simpl; [by eapply HI|done]. }
  rewrite Ht, Hl in Hspec.
  pose proof (bucketIndex_lt score) as Hb.
  destruct (Reputation.updateAgentStats a score (ev_timestamp m) _) as [w1|];
    simpl.
  - destruct Hspec as (_ & _ & _ & _ & Hne & _). split; [done|]. intros ?. done.
  - split; [|done]. intros _. destruct Hspec as [?|?]; [done|lia].
Qed.

End Counters.

(* ===================================================================== *)
(** * The life of an Agent record                                         *)
(* ===================================================================== *)

Section AgentLife.
Context `{HostEnv}.

(** One event on one stored Agent: the record stays, and it is either
    untouched or the Agent the event addresses, updated field by field. *)
Lemma agent_step e w w' k a :
  wellKeyed w → handle e w = Some w' → agents w !! k = Some a →
  ∃ a', agents w' !! k = Some a' ∧
        (a' = a ∨
         (agentKeyOf e = Some k ∧
          Agent.id a' = Agent.id a ∧
          Agent.createdAt a' = Agent.createdAt a ∧
          Agent.totalFeedback a' = Agent.totalFeedback a + feedbackDelta e w ∧
          Agent.operators a' = operatorsAfter e (Agent.operators a) ∧
          Agent.owner a' = ownerAfter e (Agent.owner a))).
Proof.
  intros Hwk He Ha. pose proof Hwk as (HA & _).
  destruct (handle_agents_shape e w w' Hwk He)
    as [[E _]|(k0 & a' & Hk0 & E & Hid & Ht & Ho & Hw & Hc & _)].
  - exists a. rewrite E. eauto.
  - rewrite E. destruct (decide (k0 = k)) as [->|Hne].
    + exists a'. rewrite lookup_insert_eq. split; [done|]. right.
      unfold agentTotalOf in Ht. rewrite Ha in Ht, Ho, Hw, Hc. simpl in *.
      rewrite (HA _ _ Ha). by split_and!.
    + exists a. rewrite lookup_insert_ne by done. eauto.
Qed.

Lemma operatorsWithout_absent operators approved :
  (∀ o, o ∈ operators → toHexString o ≠ toHexString approved) →
  Identity.operatorsWithout operators approved = operators.
Proof.
  induction operators as [|o rest IH]; intros Hall; simpl; [done|].
  rewrite bool_decide_eq_true_2 by (apply Hall; left).
  rewrite IH; [done|]. intros o' Ho'. apply Hall. by right.
Qed.

Lemma operatorsWithout_subseteq operators approved o :
  o ∈ Identity.operatorsWithout operators approved → o ∈ operators.
Proof.
  induction operators as [|o' rest IH]; simpl; [done|].
  case_bool_decide.
  - intros [->|Ho]%elem_of_cons; [left|right; auto].
  - intros Ho. right. auto.
Qed.

Lemma operatorsAfter_nonzero e operators o :
  (∀ o, o ∈ operators → toHexString o ≠ ZERO_ADDRESS_HEX) →
  o ∈ operatorsAfter e operators → toHexString o ≠ ZERO_ADDRESS_HEX.
Proof.
  intros Hall. destruct e; simpl; auto.
  case_bool_decide as Hz.
  - destruct (Identity.operatorFound operators approved); simpl; auto.
    intros [Ho| ->%list_elem_of_singleton]%elem_of_app; auto.
  - intros Ho%operatorsWithout_subseteq. auto.
Qed.

Lemma operatorsAfter_prefix e operators :
  (∀ o, o ∈ operators → toHexString o ≠ ZERO_ADDRESS_HEX) →
  operators `prefix_of` operatorsAfter e operators.
Proof.
  intros Hall. destruct e; simpl; try done.
  case_bool_decide as Hz.
  - destruct (Identity.operatorFound operators approved); simpl; [done|].
    by apply prefix_app_r.
  - rewrite operatorsWithout_absent; [done|].
    intros o Ho. rewrite Hz. by apply Hall.
Qed.

Lemma operatorsInv_handle e w w' :
  wellKeyed w → operatorsInv w → handle e w = Some w' → operatorsInv w'.
Proof.
  intros Hwk HI He k a' o Hk Ho.
  destruct (handle_agents_shape e w w' Hwk He)
    as [[E _]|(k0 & a0 & Hk0 & E & _ & _ & Hops & _)].
  - rewrite E in Hk. by eapply HI.
  - rewrite E in Hk. apply lookup_insert_Some in Hk as [[<- <-]|[_ Hk]].
    + rewrite Hops in Ho. revert Ho. apply operatorsAfter_nonzero.
      destruct (agents w !! k0) as [a|] eqn:Ea; simpl.
      * intros o'. by eapply HI.
      * intros o' Ho'. by apply elem_of_nil in Ho'.
    + by eapply HI.
Qed.

Lemma reachable_operatorsInv w : reachable w → operatorsInv w.
Proof.
  intros Hr. cut (wellKeyed w ∧ operatorsInv w); [by intros [_ ?]|].
  revert w Hr. apply reachable_preserves.
  - split; [apply wellKeyed_empty|].
    intros k a o Hk. simpl in Hk. by rewrite lookup_empty in Hk.
  - intros e w w' [Hwk HI] He. split.
    + by eapply wellKeyed_handle.
    + by eapply operatorsInv_handle.
Qed.

(** X4.  Once stored, an Agent is never deleted and keeps its key and its
    creation time through every later event, a second Register event for
    the same agent included. *)
Theorem X4_agent_persists_with_creation_time es w w' k a :
  wellKeyed w →
  run es w = Some w' →
  agents w !! k = Some a →
  ∃ a', agents w' !! k = Some a' ∧
        Agent.id a' = Agent.id a ∧
        Agent.createdAt a' = Agent.createdAt a.
Proof.
  revert w a. induction es as [|e es IH]; intros w a Hwk Hrun Ha;
    simpl in Hrun.
  - injection Hrun as <-. eauto.
  - apply bind_Some in Hrun as (w1 & He & Hrun).
    destruct (agent_step e w w1 k a Hwk He Ha) as (a1 & Ha1 & Hcase).
    destruct (IH w1 a1 (wellKeyed_handle _ _ _ Hwk He) Hrun Ha1)
      as (a' & Ha' & Hid & Hc).
    exists a'. split; [done|].
    destruct Hcase as [->|(_ & Hid1 & Hc1 & _)]; [done|].
    by rewrite Hid, Hc, Hid1, Hc1.
Qed.

(** X5.  Along every event stream the operator array of an Agent only
    grows at its end: no event removes an operator.  The removal loop of
    [handleApproval] runs only for the zero address, which is never
    stored. *)
Theorem X5_operators_are_never_removed es w w' k a :
  reachable w →
  run es w = Some w' →
  agents w !! k = Some a →
  ∃ a', agents w' !! k = Some a' ∧
        Agent.operators a `prefix_of` Agent.operators a'.
Proof.
  revert w a. induction es as [|e es IH]; intros w a Hr Hrun Ha;
    simpl in Hrun.
  - injection Hrun as <-. eauto.
  - apply bind_Some in Hrun as (w1 & He & Hrun).
    pose proof (reachable_wellKeyed w Hr) as Hwk.
    destruct (agent_step e w w1 k a Hwk He Ha) as (a1 & Ha1 & Hcase).
    destruct (IH w1 a1 (reachable_step _ _ _ Hr He) Hrun Ha1)
      as (a' & Ha' & Hpre).
    exists a'. split; [done|].
    destruct Hcase as [->|(_ & _ & _ & _ & Hops & _)]; [done|].
    etrans; [|exact Hpre]. rewrite Hops.
    apply operatorsAfter_prefix. intros o Ho.
    by eapply (reachable_operatorsInv w Hr).
Qed.

(** X6.  Only a Register event and a Transfer event that is not a mint
    change the owner of a stored Agent, and they set it to the owner (the
    receiver) the event names. *)
Theorem X6_owner_changes_only_by_register_or_transfer e w w' k a a' :
  wellKeyed w →
  handle e w = Some w' →
  agents w !! k = Some a →
  agents w' !! k = Some a' →
  Agent.owner a' ≠ Agent.owner a →
  (∃ m agentId tokenURI,
     e = Registered m agentId tokenURI (Agent.owner a') ∧
     k = agentEntityIdOf (ev_chainId m) agentId) ∨
  (∃ m from tokenId,
     e = Transfer m from (Agent.owner a') tokenId ∧
     k = agentEntityIdOf (ev_chainId m) tokenId ∧
     from ≠ zeroAddress).
Proof.
  intros Hwk He Ha Ha' Hne.
  destruct (agent_step e w w' k a Hwk He Ha) as (a1 & Ha1 & Hcase).
  assert (a1 = a') as -> by congruence.
  destruct Hcase as [->|(Hk & _ & _ & _ & _ & Ho)]; [done|].
  destruct e; simpl in Ho, Hk; try congruence.
  - left. injection Hk as <-. rewrite Ho. eauto.
  - right. injection Hk as <-. rewrite Ho. eexists _, _, _.
    split; [reflexivity|]. split; [done|].
    intros ->. simpl in He. unfold Identity.handleTransfer in He.
    rewrite bool_decide_eq_true_2 in He by done. congruence.
Qed.

End AgentLife.

(* ===================================================================== *)
(** * The aggregation records                                             *)
(* ===================================================================== *)

Section Aggregates.
Context `{HostEnv}.

Lemma identity_ups_membership c a t w :
  wellKeyed w →
  (∀ k p, protocols w !! k = Some p →
     Protocol.totalAgents p = Z.of_nat (length (Protocol.agents p))) →
  ∀ k p, protocols (Identity.updateProtocolStats c a t w) !! k = Some p →
    Protocol.totalAgents p = Z.of_nat (length (Protocol.agents p)).
Proof.
  intros Hwk HI k p.
  destruct (isSupportedChain c) eqn:Hc.
  - rewrite identity_ups_protocols by done.
    intros [[<- <-]|[_ Hk]]%lookup_insert_Some; [|by eapply HI]. simpl.
    rewrite length_app, Nat2Z.inj_add. simpl.
    unfold protocolView.
    destruct (protocols w !! toString c) as [p0|] eqn:E; simpl; [|done].
    by rewrite (HI _ _ E).
  - rewrite identity_ups_unsupported by done. apply HI.
Qed.

Lemma membershipInv_handle e w w' :
  wellKeyed w → membershipInv w → handle e w = Some w' → membershipInv w'.
Proof.
  intros Hwk [HP HG] He.
  destruct (qualifying e w) eqn:Hq; last first.
  { destruct (handle_not_qualifying e w w' He Hq) as [Ep Eg].
    unfold membershipInv, globalView. rewrite Ep, Eg. by split. }
  destruct e; simpl in Hq; try done.
  - (* Register *)
    simpl in He. injection He as <-. split.
    + rewrite register_protocols.
      apply identity_ups_membership;
        [by apply wellKeyed_identity_updateProtocolStats, wellKeyed_Agent_save|].
      apply identity_ups_membership; [by apply wellKeyed_Agent_save|].
      exact HP.
    + destruct (register_globalView m agentId tokenURI owner w Hwk)
        as (Ea & Et & _).
      rewrite Ea, Et, length_app, Nat2Z.inj_add. simpl. lia.
  - (* NewFeedback *)
    apply bool_decide_eq_true in Hq as [a Ha]. simpl in He.
    destruct (newFeedback_aggregates _ _ _ _ _ _ _ _ _ _ _ Hwk Ha He)
      as [Ep Eg].
    split.
    + rewrite Ep. destruct (isSupportedChain (ev_chainId m)); [|exact HP].
      intros k p [[<- <-]|[_ Hk]]%lookup_insert_Some; [|by eapply HP]. simpl.
      unfold protocolView.
      destruct (protocols w !! toString (ev_chainId m)) as [p0|] eqn:E; simpl;
        [by eapply HP|done].
    + rewrite Eg. simpl. exact HG.
Qed.

Lemma reachable_membershipInv w : reachable w → membershipInv w.
Proof.
  intros Hr. cut (wellKeyed w ∧ membershipInv w); [by intros [_ ?]|].
  revert w Hr. apply reachable_preserves.
  - split; [apply wellKeyed_empty|]. split; [|done].
    intros k p Hk. simpl in Hk. by rewrite lookup_empty in Hk.
  - intros e w w' [Hwk HI] He. split.
    + by eapply wellKeyed_handle.
    + by eapply membershipInv_handle.
Qed.

(** X7.  In every store the handlers can build, the agent counter of each
    Protocol and of GlobalStats equals the length of the membership array
    stored beside it: counter and array are always moved together, so a
    Register event counted twice is also listed twice. *)
Theorem X7_agent_counter_is_membership_length w :
  reachable w →
  (∀ k p, protocols w !! k = Some p →
     Protocol.totalAgents p = Z.of_nat (length (Protocol.agents p))) ∧
  GlobalStats.totalAgents (globalView w)
  = Z.of_nat (length (GlobalStats.agents (globalView w))).
Proof. apply reachable_membershipInv. Qed.

(** X8.  A NewFeedback event for a stored Agent that the handler completes
    raises the feedback counter by exactly one at every scope: Agent,
    AgentStats, GlobalStats and, on a supported chain, Protocol.  On an
    unsupported chain no Protocol record is touched. *)
Theorem X8_new_feedback_counts_once_at_every_scope
    m agentId client score tag1 tag2 uri hash w w' a :
  wellKeyed w →
  agents w !! agentEntityIdOf (ev_chainId m) agentId = Some a →
  Reputation.handleNewFeedback m agentId client score tag1 tag2 uri hash w
    = Some w' →
  let key := agentEntityIdOf (ev_chainId m) agentId in
  let c := ev_chainId m in
  agentTotalOf w' key = Agent.totalFeedback a + 1 ∧
  statsTotalOf w' key = statsTotalOf w key + 1 ∧
  GlobalStats.totalFeedback (globalView w')
    = GlobalStats.totalFeedback (globalView w) + 1 ∧
  (if isSupportedChain c
   then Protocol.totalFeedback (protocolView w' c)
        = Protocol.totalFeedback (protocolView w c) + 1
   else protocols w' = protocols w).
Proof.
  intros Hwk Ha He key c.
  pose (e := NewFeedback m agentId client score tag1 tag2 uri hash).
  assert (handle e w = Some w') as He' by exact He.
  assert (feedbackDelta e w = 1) as Hd.
  { simpl. rewrite Ha. done. }
  destruct (newFeedback_aggregates _ _ _ _ _ _ _ _ _ _ _ Hwk Ha He) as [Ep Eg].
  destruct (newFeedback_entities _ _ _ _ _ _ _ _ _ _ _ Hwk Ha He)
    as (_ & _ & Eag).
  split_and!.
  - unfold agentTotalOf. fold key in Eag. by rewrite Eag, lookup_insert_eq.
  - destruct (handle_stats_shape e w w' Hwk He')
      as [[_ [Hz|(? & ? & ? & ? & ? & _)]]|(k1 & st' & Hk1 & Es & _ & Ht & _)];
      [lia|done|].
    injection Hk1 as <-. fold key in Es, Ht.
    unfold statsTotalOf at 1. rewrite Es, lookup_insert_eq. simpl. lia.
  - by rewrite Eg.
  - fold c in Ep. destruct (isSupportedChain c); [|done].
    unfold protocolView at 1. by rewrite Ep, lookup_insert_eq.
Qed.

(** X9.  Only a Register event and a NewFeedback event for a stored Agent
    touch the Protocol and GlobalStats records.  A FeedbackRevoked event in
    particular leaves every Protocol and GlobalStats counter as it is: the
    aggregate feedback counters keep counting revoked feedback. *)
Theorem X9_aggregates_change_only_by_register_and_feedback e w w' :
  handle e w = Some w' →
  protocols w' ≠ protocols w ∨ globalStats w' ≠ globalStats w →
  (∃ m agentId tokenURI owner, e = Registered m agentId tokenURI owner) ∨
  (∃ m agentId client score tag1 tag2 uri hash,
     e = NewFeedback m agentId client score tag1 tag2 uri hash ∧
     is_Some (agents w !! agentEntityIdOf (ev_chainId m) agentId)).
Proof.
  intros He Hne.
  destruct (qualifying e w) eqn:Hq.
  - destruct e; simpl in Hq; try done; [left; eauto 10|right].
    apply bool_decide_eq_true in Hq. eauto 12.
  - destruct (handle_not_qualifying e w w' He Hq) as [Ep Eg].
    destruct Hne as [Hne|Hne]; by destruct Hne.
Qed.

(** X10.  A Register event on a chain that is not supported still stores
    the Agent and counts it in GlobalStats, but touches no Protocol record
    and does not count a protocol. *)
Theorem X10_register_on_unsupported_chain m agentId tokenURI owner w :
  wellKeyed w →
  isSupportedChain (ev_chainId m) = false →
  let w' := Identity.handleAgentRegistered m agentId tokenURI owner w in
  is_Some (agents w' !! agentEntityIdOf (ev_chainId m) agentId) ∧
  protocols w' = protocols w ∧
  GlobalStats.totalAgents (globalView w')
    = GlobalStats.totalAgents (globalView w) + 1 ∧
  GlobalStats.totalProtocols (globalView w')
    = GlobalStats.totalProtocols (globalView w).
Proof.
  intros Hwk Hc w'. subst w'.
  destruct (register_agents m agentId tokenURI owner w Hwk) as (A' & EA & _).
  destruct (register_globalView m agentId tokenURI owner w Hwk)
    as (_ & Et & Ep & _).
  split_and!.
  - rewrite EA, lookup_insert_eq. by eauto.
  - rewrite register_protocols, !identity_ups_unsupported by done. done.
  - exact Et.
  - rewrite Ep. unfold createsProtocol. rewrite Hc. simpl. lia.
Qed.

End Aggregates.

(* ===================================================================== *)
(** * Composite keys                                                      *)
(* ===================================================================== *)






Section FeedbackKeys.
Context `{HostEnv}.

(** The Feedback record a completed NewFeedback event leaves in the store. *)
Lemma newFeedback_record m agentId client score tag1 tag2 uri hash w w' a :
  wellKeyed w →
  agents w !! agentEntityIdOf (ev_chainId m) agentId = Some a →
  Reputation.handleNewFeedback m agentId client score tag1 tag2 uri hash w
    = Some w' →
  ∃ f,
    feedbacks w'
    = <[feedbackIdOf (agentEntityIdOf (ev_chainId m) agentId) client
          (Agent.totalFeedback a + 1) := f]> (feedbacks w) ∧
    Feedback.clientAddress f = client ∧
    Feedback.score f = score ∧
    Feedback.isRevoked f = false ∧
    Feedback.revokedAt f = None ∧
    Feedback.createdAt f = ev_timestamp m.
Proof.
  intros Hwk Ha.
  rewrite (handleNewFeedback_stages _ _ _ _ _ _ _ _ _ _ Ha).
  intros (w1 & Hu & [= <-])%bind_Some.
  destruct (updateAgentStats_frame _ _ _ _ _ Hu) as (_ & _ & Hf1 & _).
  destruct (reputation_ups_frame (ev_chainId m) a (ev_timestamp m) tag1 tag2 w1)
    as (_ & Hf2 & _).
  simpl. rewrite Hf2, Hf1.
  unfold feedbackStored, Reputation.scheduleFeedbackFile.
  destruct (nonEmpty uri && isIpfsUri uri);
    [destruct (nonEmpty (extractIpfsHash uri))
    |destruct (nonEmpty uri && isArweaveUri uri);
      [destruct (nonEmpty (extractArweaveTxId uri))|]];
    destruct (nonEmpty uri); simpl; rewrite ?insert_insert_eq;
    (eexists; split; [reflexivity|]); done.
Qed.

(** X12.  The key of a new Feedback is built from the Agent's current
    counter.  So when the latest Feedback of a client is revoked (which
    lowers the counter) and the same client submits again, the new record
    takes the key of the revoked one: the revoked record is overwritten and
    the store holds no more Feedback records than before. *)
Theorem X12_feedback_after_revocation_overwrites
    m1 m2 agentId client score tag1 tag2 uri hash w w2 a f :
  wellKeyed w →
  ev_chainId m2 = ev_chainId m1 →
  let key := agentEntityIdOf (ev_chainId m1) agentId in
  let n := Agent.totalFeedback a in
  agents w !! key = Some a →
  feedbacks w !! feedbackIdOf key client n = Some f →
  Reputation.handleNewFeedback m2 agentId client score tag1 tag2 uri hash
    (Reputation.handleFeedbackRevoked m1 agentId client n w) = Some w2 →
  ∃ f2,
    feedbacks w2 = <[feedbackIdOf key client n := f2]> (feedbacks w) ∧
    dom (feedbacks w2) = dom (feedbacks w) ∧
    Feedback.score f2 = score ∧
    Feedback.isRevoked f2 = false ∧
    Feedback.revokedAt f2 = None.
Proof.
  intros Hwk Hc key n Ha Hf He.
  destruct (revoked_entities m1 agentId client n w f a Hwk Hf Ha)
    as (Ef1 & Ea1 & _). fold key in Ef1, Ea1.
  set (w1 := Reputation.handleFeedbackRevoked m1 agentId client n w) in *.
  assert (wellKeyed w1) as Hwk1.
  { apply (wellKeyed_handle (FeedbackRevoked m1 agentId client n) w); done. }
  assert (agents w1 !! agentEntityIdOf (ev_chainId m2) agentId
          = Some (Agent.set_updatedAt (ev_timestamp m1)
                    (Agent.set_totalFeedback (Agent.totalFeedback a - 1) a)))
    as Ha1.
  { rewrite Hc. fold key. by rewrite Ea1, lookup_insert_eq. }
  destruct (newFeedback_record _ _ _ _ _ _ _ _ _ _ _ Hwk1 Ha1 He)
    as (f2 & Ef2 & _ & Hs & Hr & Hra & _).
  simpl in Ef2. rewrite Hc in Ef2. fold key in Ef2.
  replace (Agent.totalFeedback a - 1 + 1) with n in Ef2 by (subst n; lia).
  exists f2. rewrite Ef2, Ef1, insert_insert_eq.
  split_and!; try done.
  apply dom_insert_lookup_L. eauto.
Qed.

(** X13.  A response is keyed by its Feedback and the block timestamp
    only.  Two ResponseAppended events for one stored Feedback in blocks
    with the same timestamp leave a single record, the second one's; with
    different timestamps both records are stored. *)
Theorem X13_responses_are_keyed_by_feedback_and_timestamp
    m1 m2 agentId client index responder1 uri1 hash1 responder2 uri2 hash2 w f :
  ev_chainId m2 = ev_chainId m1 →
  let fid := feedbackIdOf (agentEntityIdOf (ev_chainId m1) agentId) client index in
  let rid t := fid +:+ ":" +:+ toString t in
  feedbacks w !! fid = Some f →
  let w2 :=
    Reputation.handleResponseAppended m2 agentId client index responder2 uri2
      hash2
      (Reputation.handleResponseAppended m1 agentId client index responder1
         uri1 hash1 w) in
  (∃ r2, responses w2 !! rid (ev_timestamp m2) = Some r2 ∧
         FeedbackResponse.responder r2 = responder2 ∧
         FeedbackResponse.responseUri r2 = uri2 ∧
         (ev_timestamp m1 = ev_timestamp m2 →
          responses w2 = <[rid (ev_timestamp m2) := r2]> (responses w))) ∧
  (ev_timestamp m1 ≠ ev_timestamp m2 →
   ∃ r1, responses w2 !! rid (ev_timestamp m1) = Some r1 ∧
         FeedbackResponse.responder r1 = responder1 ∧
         FeedbackResponse.responseUri r1 = uri1).
Proof.
  intros Hc fid rid Hf w2. subst w2.
  unfold Reputation.handleResponseAppended. rewrite Hc. fold fid.
  rewrite Hf. simpl. rewrite Hf. simpl. fold (rid (ev_timestamp m1)).
  fold (rid (ev_timestamp m2)). split.
  - eexists. rewrite lookup_insert_eq. split; [reflexivity|]. simpl.
    split_and!; try done.
    intros ->. by rewrite insert_insert_eq.
  - intros Hne. eexists. rewrite lookup_insert_ne.
    + rewrite lookup_insert_eq. done.
    + subst rid. simpl. intros Heq.
      apply (inj (String.app fid)) in Heq. injection Heq as Heq.
      change (toString (ev_timestamp m2) = toString (ev_timestamp m1)) in Heq.
      apply (inj pretty) in Heq. congruence.
Qed.

End FeedbackKeys.

Section IdentityRecords.
Context `{HostEnv}.

(** X14.  A metadata record is keyed by the agent id and the metadata key,
    without the chain id.  Two MetadataSet events with the same agent id
    and key, for stored Agents of whichever chains, leave one record: the
    second event's value, pointing at the second event's Agent. *)
Theorem X14_metadata_is_keyed_by_agent_id_and_key
    m1 m2 agentId key value1 value2 w a1 a2 :
  wellKeyed w →
  agents w !! agentEntityIdOf (ev_chainId m1) agentId = Some a1 →
  agents w !! agentEntityIdOf (ev_chainId m2) agentId = Some a2 →
  let w2 :=
    Identity.handleMetadataSet m2 agentId key value2
      (Identity.handleMetadataSet m1 agentId key value1 w) in
  ∃ md,
    agentMetadata w2
    = <[toString agentId +:+ ":" +:+ key := md]> (agentMetadata w) ∧
    AgentMetadata.value md = value2 ∧
    AgentMetadata.agent md = agentEntityIdOf (ev_chainId m2) agentId.
Proof.
  intros (HA & _) Ha1 Ha2 w2. subst w2.
  unfold Identity.handleMetadataSet at 2. rewrite Ha1.
  unfold Identity.handleMetadataSet. simpl. rewrite (HA _ _ Ha1).
  destruct (decide (agentEntityIdOf (ev_chainId m1) agentId
                    = agentEntityIdOf (ev_chainId m2) agentId)) as [E|E].
  - rewrite <- E, lookup_insert_eq. simpl. rewrite insert_insert_eq.
    eexists. split; [reflexivity|]. done.
  - rewrite lookup_insert_ne, Ha2 by done. simpl. rewrite insert_insert_eq.
    eexists. split; [reflexivity|]. done.
Qed.

(** X15.  What a UriUpdated event for a stored Agent leaves in the Agent:
    the new URI; the type "arweave" or "ipfs" when the URI is of that
    scheme (Arweave wins when it is both) and otherwise the type the Agent
    had before, which is then stale; the link to the record of the new
    file when the URI names one, and otherwise the old link.  Owner,
    operators and feedback counter are kept. *)
Theorem X15_uri_update_type_and_link m agentId newUri w a :
  wellKeyed w →
  agents w !! agentEntityIdOf (ev_chainId m) agentId = Some a →
  ∃ a',
    agents (Identity.handleUriUpdated m agentId newUri w)
    = <[agentEntityIdOf (ev_chainId m) agentId := a']> (agents w) ∧
    Agent.agentURI a' = newUri ∧
    Agent.agentURIType a'
    = (if isArweaveUri newUri then "arweave"
       else if isIpfsUri newUri then "ipfs"
       else Agent.agentURIType a) ∧
    Agent.registrationFile a'
    = (if arweaveFile newUri
       then Some (toHexString (ev_txHash m) +:+ ":" +:+ extractArweaveTxId newUri)
       else if ipfsFile newUri
       then Some (toHexString (ev_txHash m) +:+ ":" +:+ extractIpfsHash newUri)
       else Agent.registrationFile a) ∧
    Agent.owner a' = Agent.owner a ∧
    Agent.operators a' = Agent.operators a ∧
    Agent.totalFeedback a' = Agent.totalFeedback a.
Proof.
  intros (HA & _) Ha.
  unfold Identity.handleUriUpdated, Identity.scheduleRegistrationFile,
    arweaveFile, ipfsFile.
  rewrite Ha.
  destruct (isIpfsUri newUri);
    [destruct (nonEmpty (extractIpfsHash newUri))|];
    (destruct (isArweaveUri newUri);
      [destruct (nonEmpty (extractArweaveTxId newUri))|]);
    simpl; rewrite (HA _ _ Ha), ?insert_insert_eq;
    (eexists; split; [reflexivity|]); done.
Qed.

End IdentityRecords.

(* ===================================================================== *)
(** * The file data sources the handlers create                           *)
(* ===================================================================== *)

Section Requests.
Context `{HostEnv}.

Lemma noFetch_not_in l d : noFetch l → CreateDataSource d ∉ l.
Proof.
  intros Hl Hin. rewrite forallb_forall in Hl.
  apply list_elem_of_In in Hin. by apply Hl in Hin.
Qed.

Ltac fetch_cases Hin :=
  rewrite ?elem_of_app, ?elem_of_cons, ?elem_of_nil in Hin;
  repeat match type of Hin with
         | _ ∨ _ => destruct Hin as [Hin|Hin]
         end;
  try discriminate Hin; try done;
  try (exfalso; eapply noFetch_not_in; [|exact Hin]; assumption).

Ltac no_fetch :=
  first
    [ unfold effectsSince; rewrite drop_all; by intros ?%elem_of_nil
    | erewrite effectsSince_app by (simpl; rewrite <- ?app_assoc; reflexivity);
      let Hin := fresh "Hin" in intros Hin; fetch_cases Hin ].

Ltac context_lookup :=
  unfold getString, getBigInt, setString, setBigInt; simpl;
  repeat first [rewrite lookup_insert_eq | rewrite lookup_insert_ne by done];
  try done.

Lemma register_requests m agentId tokenURI owner w d :
  CreateDataSource d
    ∈ effectsSince w (Identity.handleAgentRegistered m agentId tokenURI owner w) →
  requestedBy (Registered m agentId tokenURI owner) w d.
Proof.
  unfold Identity.handleAgentRegistered, Identity.scheduleRegistrationFile.
  fold (registeredAgent m agentId tokenURI owner w).
  set (A := registeredAgent m agentId tokenURI owner w).
  destruct (identity_ups_trace (ev_chainId m) A (ev_timestamp m) (Agent_save A w))
    as (l1 & E1 & N1).
  destruct (identity_ups_trace (ev_chainId m) A (ev_timestamp m)
              (Identity.updateProtocolStats (ev_chainId m) A (ev_timestamp m)
                 (Agent_save A w))) as (l2 & E2 & N2).
  destruct (nonEmpty tokenURI); simpl;
    (destruct (isIpfsUri tokenURI) eqn:Ei; simpl;
      [destruct (nonEmpty (extractIpfsHash tokenURI)) eqn:Eh; simpl|]);
    (destruct (isArweaveUri tokenURI) eqn:Ea; simpl;
      [destruct (nonEmpty (extractArweaveTxId tokenURI)) eqn:Et; simpl|]);
    (erewrite effectsSince_app;
      [|simpl; rewrite E2, E1; simpl; rewrite <- ?app_assoc; reflexivity]);
    intros Hin; fetch_cases Hin;
    injection Hin as ->; unfold requestedBy; simpl;
    split_and!; try context_lookup; eauto.
Qed.

Lemma uriUpdated_requests m agentId newUri w d :
  CreateDataSource d
    ∈ effectsSince w (Identity.handleUriUpdated m agentId newUri w) →
  requestedBy (UriUpdated m agentId newUri) w d.
Proof.
  unfold Identity.handleUriUpdated, Identity.scheduleRegistrationFile.
  destruct (agents w !! _) as [a|] eqn:Ha; last first.
  { unfold effectsSince. rewrite drop_all. by intros ?%elem_of_nil. }
  destruct (isIpfsUri newUri) eqn:Ei; simpl;
    [destruct (nonEmpty (extractIpfsHash newUri)) eqn:Eh; simpl|];
    (destruct (isArweaveUri newUri) eqn:Ea; simpl;
      [destruct (nonEmpty (extractArweaveTxId newUri)) eqn:Et; simpl|]);
    (erewrite effectsSince_app;
      [|simpl; rewrite <- ?app_assoc; reflexivity]);
    intros Hin; fetch_cases Hin;
    injection Hin as ->; unfold requestedBy; simpl;
    split_and!; try context_lookup; eauto.
Qed.

Lemma newFeedback_requests m agentId client score tag1 tag2 uri hash w w' d :
  Reputation.handleNewFeedback m agentId client score tag1 tag2 uri hash w
    = Some w' →
  CreateDataSource d ∈ effectsSince w w' →
  requestedBy (NewFeedback m agentId client score tag1 tag2 uri hash) w d.
Proof.
  destruct (agents w !! agentEntityIdOf (ev_chainId m) agentId) as [a|] eqn:Ha;
    last first.
  { rewrite handleNewFeedback_unknown by done. intros [= <-].
    unfold effectsSince. rewrite drop_all. by intros ?%elem_of_nil. }
  rewrite (handleNewFeedback_stages _ _ _ _ _ _ _ _ _ _ Ha).
  intros (w1 & Hu & [= <-])%bind_Some.
  destruct (updateAgentStats_trace _ _ _ _ _ Hu) as (l1 & E1 & N1).
  destruct (reputation_ups_trace (ev_chainId m) a (ev_timestamp m) tag1 tag2 w1)
    as (l2 & E2 & N2).
  revert E1. unfold feedbackStored, Reputation.scheduleFeedbackFile.
  unfold requestedBy, agentTotalOf. rewrite Ha. simpl.
  destruct (nonEmpty uri); simpl;
    (destruct (isIpfsUri uri) eqn:Ei; simpl;
      [destruct (nonEmpty (extractIpfsHash uri)) eqn:Eh; simpl
      |destruct (isArweaveUri uri) eqn:Ea; simpl;
        [destruct (nonEmpty (extractArweaveTxId uri)) eqn:Et; simpl|]]);
    intros E1;
    (erewrite effectsSince_app;
      [|simpl; rewrite E2, E1; simpl; rewrite <- ?app_assoc; reflexivity]);
    intros Hin; fetch_cases Hin;
    injection Hin as ->; simpl;
    split_and!; try context_lookup; eauto 10.
Qed.

Lemma handle_requests e w w' d :
  handle e w = Some w' →
  CreateDataSource d ∈ effectsSince w w' →
  requestedBy e w d.
Proof.
  intros He Hin.
  destruct e; simpl in He; try (injection He as <-).
  - by apply register_requests.
  - exfalso. revert Hin. unfold Identity.handleMetadataSet.
    destruct (agents w !! _); no_fetch.
  - by apply uriUpdated_requests.
  - exfalso. revert Hin. unfold Identity.handleTransfer.
    case_bool_decide; [|destruct (agents w !! _)]; no_fetch.
  - exfalso. revert Hin. unfold Identity.handleApproval.
    destruct (agents w !! _); no_fetch.
  - exfalso. revert Hin. unfold Identity.handleApprovalForAll. no_fetch.
  - by eapply newFeedback_requests.
  - exfalso. revert Hin.
    unfold Reputation.handleFeedbackRevoked,
      Reputation.updateAgentStatsAfterRevocation.
    destruct (feedbacks w !! _); simpl;
      [destruct (agents w !! _); simpl;
       [destruct (agentStats w !! _); simpl|]|]; no_fetch.
  - exfalso. revert Hin. unfold Reputation.handleResponseAppended.
    destruct (feedbacks w !! _); no_fetch.
Qed.

(** X16.  Every file data source a handler creates is well formed: it is
    created by a Register, UriUpdated or NewFeedback event only; its
    parameter is the non-empty content id extracted from the event's URI
    and its template is the one of that URI's scheme; its context carries
    the content id, the transaction hash, the block timestamp and the key
    of the Agent (or of the new Feedback) the file belongs to. *)
Theorem X16_data_source_names_its_entity e w w' d :
  handle e w = Some w' →
  CreateDataSource d ∈ effectsSince w w' →
  requestedBy e w d.
Proof. apply handle_requests. Qed.

End Requests.

(* ===================================================================== *)
(** * The registration file parser                                        *)
(* ===================================================================== *)

Section ParserFrame.
Context `{JsonHost}.

Lemma parseAgentWallet_topLevel walletStr m m' :
  Parser.parseAgentWallet walletStr m = Some m' → topLevel m' = topLevel m.
Proof.
  unfold Parser.parseAgentWallet. intros Hp.
  repeat (case_match || simplify_option_eq); done.
Qed.

Lemma parseEndpoint_topLevel v m m' :
  Parser.parseEndpoint v m = Some m' → topLevel m' = topLevel m.
Proof.
  unfold Parser.parseEndpoint. intros Hp.
  destruct v; try by simplify_eq.
  destruct (Parser.stringField _); [|by simplify_eq].
  repeat case_bool_decide; try by simplify_eq.
  - simplify_eq. unfold Parser.setIfString, Parser.setIfArray.
    by repeat case_match.
  - simplify_eq. unfold Parser.setIfString, Parser.setIfArray.
    by repeat case_match.
  - destruct (Parser.stringField _); [|by simplify_eq].
    by eapply parseAgentWallet_topLevel.
  - simplify_eq. unfold Parser.setIfString. by repeat case_match.
  - simplify_eq. unfold Parser.setIfString. by repeat case_match.
Qed.

Lemma parseEndpoints_topLevel l m m' :
  Parser.parseEndpoints l m = Some m' → topLevel m' = topLevel m.
Proof.
  revert m. induction l as [|v l IH]; intros m; simpl.
  - by intros [= <-].
  - intros (m1 & H1 & H2)%bind_Some.
    rewrite (IH _ H2). by eapply parseEndpoint_topLevel.
Qed.

(** Whether an endpoint aborts the parse does not depend on the record
    built so far. *)
Lemma parseAgentWallet_None walletStr m :
  Parser.parseAgentWallet walletStr m = None ↔
  startsWith walletStr "eip155:" = true ∧
  ∃ addressPart chainIdPart,
    split walletStr ":" !! 2%nat = Some addressPart ∧
    startsWith addressPart "0x" = true ∧
    String.length addressPart = 42%nat ∧
    split walletStr ":" !! 1%nat = Some chainIdPart ∧
    nonEmpty chainIdPart = true ∧
    BigInt_fromString chainIdPart = None.
Proof.
  unfold Parser.parseAgentWallet. split.
  - destruct (startsWith walletStr "eip155:"); [|by case_match].
    case_bool_decide as Hlen; [|done].
    destruct (split walletStr ":" !! 2%nat) as [addressPart|] eqn:E2;
      [|by apply lookup_ge_None in E2; lia].
    simpl.
    destruct (startsWith addressPart "0x") eqn:E0x; [|done]. simpl.
    case_bool_decide as H42; [|done].
    destruct (split walletStr ":" !! 1%nat) as [chainIdPart|] eqn:E1;
      [|by apply lookup_ge_None in E1; lia].
    simpl. destruct (nonEmpty chainIdPart) eqn:Ene; [|done].
    destruct (BigInt_fromString chainIdPart) eqn:Ebi; [done|].
    intros _. split; [done|]. eauto 10.
  - intros (-> & addressPart & chainIdPart & E2 & E0x & H42 & E1 & Ene & Ebi).
    rewrite bool_decide_eq_true_2 by (apply lookup_lt_Some in E2; lia).
    rewrite E2. simpl. rewrite E0x, bool_decide_eq_true_2 by done. simpl.
    rewrite E1. simpl. by rewrite Ene, Ebi.
Qed.

Lemma parseEndpoint_None v m :
  Parser.parseEndpoint v m = None ↔ badWalletChain v.
Proof.
  unfold Parser.parseEndpoint, badWalletChain. split.
  - destruct v as [| | | | |endpoint]; try done.
    destruct (Parser.get endpoint "name") as [[| | |nameStr| |]|] eqn:En;
      try done.
    simpl. case_bool_decide; [done|]. case_bool_decide; [done|].
    case_bool_decide; [|by repeat case_bool_decide].
    subst nameStr.
    destruct (Parser.get endpoint "endpoint") as [[| | |walletStr| |]|] eqn:Ee;
      try done.
    simpl. intros Hn. apply parseAgentWallet_None in Hn
      as (Hpre & a & c & ? & ? & ? & ? & ? & ?).
    exists endpoint, walletStr, a, c. by split_and!.
  - intros (endpoint & walletStr & a & c & -> & En & Ee & Hpre & Hrest).
    rewrite En. simpl.
    rewrite Ee. simpl. apply parseAgentWallet_None. eauto 10.
Qed.

Lemma parseEndpoints_None l m :
  Parser.parseEndpoints l m = None ↔ ∃ v, v ∈ l ∧ badWalletChain v.
Proof.
  revert m. induction l as [|v l IH]; intros m; simpl.
  - split; [done|]. by intros (? & ?%elem_of_nil & _).
  - destruct (Parser.parseEndpoint v m) as [m1|] eqn:E; simpl.
    + rewrite IH. split.
      * intros (v' & Hin & Hbad). exists v'. split; [by right|done].
      * intros (v' & [->|Hin]%elem_of_cons & Hbad); [|by eauto].
        apply (parseEndpoint_None _ m) in Hbad. congruence.
    + split; [|done]. intros _. exists v. split; [by left|].
      by apply (parseEndpoint_None v m).
Qed.

Lemma parseRegistrationJSON_topLevel
    content fileId agentId cid timestamp md :
  Parser.parseRegistrationJSON content fileId agentId cid timestamp
    = Some (Some md) →
  ∃ obj,
    json_try_fromBytes content = Some (JObject obj) ∧
    AgentRegistrationFile.id md = fileId ∧
    AgentRegistrationFile.cid md = cid ∧
    AgentRegistrationFile.agentId md = agentId ∧
    AgentRegistrationFile.createdAt md = timestamp ∧
    AgentRegistrationFile.name md = Parser.stringField (Parser.get obj "name") ∧
    AgentRegistrationFile.description md
      = Parser.stringField (Parser.get obj "description") ∧
    AgentRegistrationFile.image md
      = Parser.stringField (Parser.get obj "image") ∧
    AgentRegistrationFile.active md = Parser.get obj "active" ≫= Parser.toBool ∧
    AgentRegistrationFile.x402support md
      = Parser.get obj "x402support" ≫= Parser.toBool ∧
    AgentRegistrationFile.supportedTrusts md
      = default []
          (Parser.stringElements <$>
             Parser.arrayField
               (if Parser.present (Parser.get obj "supportedTrusts")
                then Parser.get obj "supportedTrusts"
                else Parser.get obj "supportedTrust")).
Proof.
  unfold Parser.parseRegistrationJSON.
  destruct (json_try_fromBytes content) as [[| | | | |obj]|]; try done.
  intros (m1 & H1 & (m2 & H2 & (m3 & H3 & [= <-])%bind_Some)%bind_Some)%bind_Some.
  exists obj. split; [done|].
  assert (topLevel m3
          = topLevel
              (Parser.setIfArray
                 (if Parser.present (Parser.get obj "supportedTrusts")
                  then Parser.get obj "supportedTrusts"
                  else Parser.get obj "supportedTrust")
                 AgentRegistrationFile.set_supportedTrusts m2)) as Htop.
  { destruct (Parser.arrayField (Parser.get obj "endpoints")).
    - by apply parseEndpoints_topLevel in H3.
    - by injection H3 as <-. }
  clear H3. unfold topLevel in Htop.
  injection Htop as -> -> -> -> -> -> -> -> -> ->.
  destruct (Parser.get obj "active") as [[]|] eqn:Ea;
    simpl in H1; simplify_eq;
    destruct (Parser.get obj "x402support") as [[]|] eqn:Ex;
    simpl in H2; simplify_eq;
    unfold Parser.setIfArray, Parser.setIfString;
    destruct (Parser.arrayField
                (if Parser.present (Parser.get obj "supportedTrusts")
                 then Parser.get obj "supportedTrusts"
                 else Parser.get obj "supportedTrust")); simpl;
    destruct (Parser.stringField (Parser.get obj "name"));
    destruct (Parser.stringField (Parser.get obj "description"));
    destruct (Parser.stringField (Parser.get obj "image")); simpl;
    by split_and!.
Qed.


(** X18.  The parse aborts in three cases only: the value under [active]
    or under [x402support] is neither missing, null nor a boolean, or the
    endpoints array holds an [agentWallet] endpoint of the [eip155] form
    with a well-formed address whose chain part is non-empty and not a
    number.  Every other document gives a record or the null result. *)
Theorem X18_parse_aborts_only_on_bad_flag_or_wallet_chain
    content fileId agentId cid timestamp :
  Parser.parseRegistrationJSON content fileId agentId cid timestamp = None ↔
  ∃ obj,
    json_try_fromBytes content = Some (JObject obj) ∧
    (badFlag (Parser.get obj "active") ∨
     badFlag (Parser.get obj "x402support") ∨
     ∃ items v,
       Parser.get obj "endpoints" = Some (JArray items) ∧
       v ∈ items ∧ badWalletChain v).
Proof.
  unfold Parser.parseRegistrationJSON, badFlag.
  destruct (json_try_fromBytes content) as [[| | | | |obj]|];
    try (split; [done|by intros (? & ? & _)]).
  split.
  - intros Hnone. exists obj. split; [done|].
    destruct (Parser.get obj "active") as [[]|] eqn:Ea; simpl in *;
      try (left; by split);
      (destruct (Parser.get obj "x402support") as [[]|] eqn:Ex; simpl in *;
        try (right; left; by split));
      right; right;
      (destruct (Parser.get obj "endpoints") as [[| | | |items|]|] eqn:Ee;
        simpl in *; try done;
        apply bind_None in Hnone as [Hnone|(? & _ & ?)]; [|done];
        apply parseEndpoints_None in Hnone as (v & Hin & Hbad);
        by exists items, v).
  - intros (obj' & [= <-] & Hcase).
    destruct Hcase as [[Hp Hb]|[[Hp Hb]|(items & v & Ee & Hin & Hbad)]].
    + rewrite Hp, Hb. done.
    + destruct (Parser.present (Parser.get obj "active")); simpl;
        [destruct (Parser.get obj "active" ≫= Parser.toBool); simpl; [|done]|];
        by rewrite Hp, Hb.
    + destruct (Parser.present (Parser.get obj "active")); simpl;
        [destruct (Parser.get obj "active" ≫= Parser.toBool); simpl; [|done]|];
        (destruct (Parser.present (Parser.get obj "x402support")); simpl;
          [destruct (Parser.get obj "x402support" ≫= Parser.toBool); simpl;
             [|done]|]);
        rewrite Ee; simpl;
        (match goal with
         | |- Parser.parseEndpoints items ?m ≫= _ = None =>
             assert (Parser.parseEndpoints items m = None) as ->
               by (apply parseEndpoints_None; eauto)
         end); done.
Qed.

Lemma parseRegistrationFile_stores content d files files' :
  Parser.parseRegistrationFile content d files = Some files' →
  match json_try_fromBytes content with
  | Some (JObject _) =>
      ∃ k md,
        Parser.recordKey d = Some k ∧
        files' = <[k := md]> files ∧
        AgentRegistrationFile.id md = k ∧
        getString "agentId" (ds_context d)
          = Some (AgentRegistrationFile.agentId md) ∧
        getBigInt "timestamp" (ds_context d)
          = Some (AgentRegistrationFile.createdAt md) ∧
        AgentRegistrationFile.cid md = ds_param d
  | _ => files' = files
  end.
Proof.
  unfold Parser.parseRegistrationFile, Parser.recordKey.
  intros (tx & Htx & (agentId & Hag & (t & Ht & (r & Hr & Hsave)%bind_Some)
          %bind_Some)%bind_Some)%bind_Some.
  destruct r as [md|].
  - destruct (parseRegistrationJSON_topLevel _ _ _ _ _ _ Hr)
      as (obj & -> & Hid & Hcid & Hagent & Hcreated & _).
    injection Hsave as <-.
    exists (tx +:+ ":" +:+ ds_param d), md. rewrite Htx. simpl.
    rewrite Hid, Hagent, Hcreated. by split_and!.
  - injection Hsave as <-. revert Hr. unfold Parser.parseRegistrationJSON.
    destruct (json_try_fromBytes content) as [[| | | | |obj]|]; try done.
    intros (m1 & _ & (m2 & _ & (m3 & _ & [=])%bind_Some)%bind_Some)%bind_Some.
Qed.

(** X19.  The file handler stores a record exactly when the payload
    decodes to a JSON object, and then under the key rebuilt from the data
    source, naming the agent, content id and time the data source carries;
    a payload that fails to decode or decodes to anything but an object
    leaves the store as it is. *)
Theorem X19_file_handler_stores_iff_object content d files files' :
  Parser.parseRegistrationFile content d files = Some files' →
  match json_try_fromBytes content with
  | Some (JObject _) =>
      ∃ k md,
        Parser.recordKey d = Some k ∧
        files' = <[k := md]> files ∧
        AgentRegistrationFile.id md = k ∧
        getString "agentId" (ds_context d)
          = Some (AgentRegistrationFile.agentId md) ∧
        getBigInt "timestamp" (ds_context d)
          = Some (AgentRegistrationFile.createdAt md) ∧
        AgentRegistrationFile.cid md = ds_param d
  | _ => files' = files
  end.
Proof. apply parseRegistrationFile_stores. Qed.

End ParserFrame.

(* ===================================================================== *)
(** * References between records                                          *)
(* ===================================================================== *)

Section References.
Context `{HostEnv}.

Lemma handle_agents_mono e w w' k :
  wellKeyed w → handle e w = Some w' →
  is_Some (agents w !! k) → is_Some (agents w' !! k).
Proof.
  intros Hwk He [a Ha].
  destruct (agent_step e w w' k a Hwk He Ha) as (a' & Ha' & _). eauto.
Qed.

(** One event on the Feedback store: nothing, or one upsert, of a new
    Feedback of a stored Agent or of a stored Feedback with its Agent
    kept. *)
Lemma handle_feedbacks_shape e w w' :
  wellKeyed w → handle e w = Some w' →
  feedbacks w' = feedbacks w ∨
  ∃ k f',
    feedbacks w' = <[k := f']> (feedbacks w) ∧
    (is_Some (agents w !! Feedback.agent f') ∨
     ∃ f, feedbacks w !! k = Some f ∧ Feedback.agent f' = Feedback.agent f).
Proof.
  intros Hwk He. pose proof Hwk as (_ & HF & _).
  destruct e;
    try (left; exact (proj1 (handle_identity_frame _ _ _ He))).
  - simpl in He.
    destruct (agents w !! agentEntityIdOf (ev_chainId m) agentId)
      as [a|] eqn:E.
    + right. destruct (newFeedback_entities _ _ _ _ _ _ _ _ _ _ _ Hwk E He)
        as ((f & Ef & Hfa & _) & _).
      eexists _, f. split; [exact Ef|]. left. rewrite Hfa. eauto.
    + rewrite handleNewFeedback_unknown in He by done. injection He as <-.
      by left.
  - simpl in He. injection He as <-.
    unfold Reputation.handleFeedbackRevoked,
      Reputation.updateAgentStatsAfterRevocation.
    destruct (feedbacks w !! _) as [f|] eqn:Ef; [|by left]. right.
    exists (Feedback.id f), (Feedback.set_revokedAt (Some (ev_timestamp m))
                               (Feedback.set_isRevoked true f)).
    split.
    + unfold Feedback_save; simpl.
      destruct (agents w !! _); simpl; [|done].
      by destruct (agentStats w !! _).
    + right. exists f. rewrite (HF _ _ Ef). done.
Qed.

Lemma handle_feedbacks_mono e w w' k :
  wellKeyed w → handle e w = Some w' →
  is_Some (feedbacks w !! k) → is_Some (feedbacks w' !! k).
Proof.
  intros Hwk He Hk.
  destruct (handle_feedbacks_shape e w w' Hwk He) as [->|(k0 & f' & -> & _)];
    [done|].
  apply lookup_insert_is_Some. destruct (decide (k0 = k)); eauto.
Qed.

Lemma identity_ups_frame_records c a t w :
  agentMetadata (Identity.updateProtocolStats c a t w) = agentMetadata w ∧
  responses (Identity.updateProtocolStats c a t w) = responses w.
Proof.
  unfold Identity.updateProtocolStats.
  destruct (isSupportedChain c); simpl; [|done].
  by destruct (protocols w !! toString c).
Qed.

Lemma register_frame_records m agentId tokenURI owner w :
  agentMetadata (Identity.handleAgentRegistered m agentId tokenURI owner w)
  = agentMetadata w ∧
  responses (Identity.handleAgentRegistered m agentId tokenURI owner w)
  = responses w.
Proof.
  unfold Identity.handleAgentRegistered, Identity.scheduleRegistrationFile.
  fold (registeredAgent m agentId tokenURI owner w).
  destruct (identity_ups_frame_records (ev_chainId m)
              (registeredAgent m agentId tokenURI owner w) (ev_timestamp m)
              (Identity.updateProtocolStats (ev_chainId m)
                 (registeredAgent m agentId tokenURI owner w) (ev_timestamp m)
                 (Agent_save (registeredAgent m agentId tokenURI owner w) w)))
    as (Em2 & Er2).
  destruct (identity_ups_frame_records (ev_chainId m)
              (registeredAgent m agentId tokenURI owner w) (ev_timestamp m)
              (Agent_save (registeredAgent m agentId tokenURI owner w) w))
    as (Em1 & Er1).
  destruct (nonEmpty tokenURI && isIpfsUri tokenURI);
    [destruct (nonEmpty (extractIpfsHash tokenURI))|];
    (destruct (nonEmpty tokenURI && isArweaveUri tokenURI);
      [destruct (nonEmpty (extractArweaveTxId tokenURI))|]);
    simpl; by rewrite Em2, Er2, Em1, Er1.
Qed.

Lemma uriUpdated_frame_records m agentId newUri w :
  agentMetadata (Identity.handleUriUpdated m agentId newUri w)
  = agentMetadata w ∧
  responses (Identity.handleUriUpdated m agentId newUri w) = responses w.
Proof.
  unfold Identity.handleUriUpdated, Identity.scheduleRegistrationFile.
  destruct (agents w !! _); [|done].
  destruct (isIpfsUri newUri);
    [destruct (nonEmpty (extractIpfsHash newUri))|];
    (destruct (isArweaveUri newUri);
      [destruct (nonEmpty (extractArweaveTxId newUri))|]); done.
Qed.

Lemma newFeedback_frame_records m agentId client score tag1 tag2 uri hash w w' :
  Reputation.handleNewFeedback m agentId client score tag1 tag2 uri hash w
    = Some w' →
  agentMetadata w' = agentMetadata w ∧ responses w' = responses w.
Proof.
  destruct (agents w !! agentEntityIdOf (ev_chainId m) agentId)
    as [a|] eqn:E; last first.
  { rewrite handleNewFeedback_unknown by done. by intros [= <-]. }
  rewrite (handleNewFeedback_stages _ _ _ _ _ _ _ _ _ _ E).
  intros (w1 & Hu & [= <-])%bind_Some.
  revert Hu. unfold Reputation.updateAgentStats.
  intros (d & _ & (q & _ & [= <-])%bind_Some)%bind_Some. simpl.
  unfold Reputation.updateProtocolStats, feedbackStored,
    Reputation.scheduleFeedbackFile.
  destruct (isSupportedChain (ev_chainId m));
    (destruct (nonEmpty uri && isIpfsUri uri);
      [destruct (nonEmpty (extractIpfsHash uri))
      |destruct (nonEmpty uri && isArweaveUri uri);
        [destruct (nonEmpty (extractArweaveTxId uri))|]]);
    done.
Qed.

Lemma revoked_frame_records m agentId client index w :
  agentMetadata (Reputation.handleFeedbackRevoked m agentId client index w)
  = agentMetadata w ∧
  responses (Reputation.handleFeedbackRevoked m agentId client index w)
  = responses w.
Proof.
  unfold Reputation.handleFeedbackRevoked,
    Reputation.updateAgentStatsAfterRevocation.
  destruct (feedbacks w !! _); [|done]. simpl.
  destruct (agents w !! _); [|done]. simpl.
  by destruct (agentStats w !! _).
Qed.

(** The metadata and response stores change by one upsert, of a record
    that points at a stored Agent (a stored Feedback). *)
Lemma handle_metadata_shape e w w' :
  handle e w = Some w' →
  agentMetadata w' = agentMetadata w ∨
  ∃ k md, agentMetadata w' = <[k := md]> (agentMetadata w) ∧
          is_Some (agents w !! AgentMetadata.agent md).
Proof.
  intros He. destruct e; simpl in He; try (injection He as <-).
  - left. apply register_frame_records.
  - unfold Identity.handleMetadataSet.
    destruct (agents w !! _) eqn:E; [|by left]. right.
    eexists _, _. split; [reflexivity|]. simpl. rewrite E. eauto.
  - left. apply uriUpdated_frame_records.
  - left. unfold Identity.handleTransfer.
    case_bool_decide; [done|]. by destruct (agents w !! _).
  - left. unfold Identity.handleApproval. by destruct (agents w !! _).
  - by left.
  - left. by eapply newFeedback_frame_records.
  - left. apply revoked_frame_records.
  - left. unfold Reputation.handleResponseAppended.
    by destruct (feedbacks w !! _).
Qed.

Lemma handle_responses_shape e w w' :
  handle e w = Some w' →
  responses w' = responses w ∨
  ∃ k r, responses w' = <[k := r]> (responses w) ∧
         is_Some (feedbacks w !! FeedbackResponse.feedback r).
Proof.
  intros He. destruct e; simpl in He; try (injection He as <-).
  - left. apply register_frame_records.
  - left. unfold Identity.handleMetadataSet. by destruct (agents w !! _).
  - left. apply uriUpdated_frame_records.
  - left. unfold Identity.handleTransfer.
    case_bool_decide; [done|]. by destruct (agents w !! _).
  - left. unfold Identity.handleApproval. by destruct (agents w !! _).
  - by left.
  - left. by eapply newFeedback_frame_records.
  - left. apply revoked_frame_records.
  - unfold Reputation.handleResponseAppended.
    destruct (feedbacks w !! _) eqn:E; [|by left]. right.
    eexists _, _. split; [reflexivity|]. simpl. rewrite E. eauto.
Qed.

Lemma referencesInv_handle e w w' :
  wellKeyed w → referencesInv w → handle e w = Some w' → referencesInv w'.
Proof.
  intros Hwk (IF & IS & IM & IR) He.
  split_and!.
  - intros k f Hk.
    destruct (handle_feedbacks_shape e w w' Hwk He)
      as [E|(k0 & f' & E & Hf')]; rewrite E in Hk.
    + eapply handle_agents_mono; eauto.
    + apply lookup_insert_Some in Hk as [[<- <-]|[_ Hk]].
      * eapply handle_agents_mono; [done..|].
        destruct Hf' as [?|(f0 & Hf0 & ->)]; eauto.
      * eapply handle_agents_mono; eauto.
  - intros k st Hk.
    destruct (handle_stats_shape e w w' Hwk He)
      as [[E _]|(k0 & st' & _ & E & Hag & _ & _ & Hsa)]; rewrite E in Hk.
    + destruct (IS _ _ Hk) as [? ?].
      split; [done|]. eapply handle_agents_mono; eauto.
    + apply lookup_insert_Some in Hk as [[<- <-]|[_ Hk]].
      * split; [|by eapply handle_agents_mono].
        rewrite Hsa. unfold statsView.
        destruct (agentStats w !! k0) as [st0|] eqn:E0; simpl; [|done].
        by destruct (IS _ _ E0).
      * destruct (IS _ _ Hk) as [? ?].
        split; [done|]. eapply handle_agents_mono; eauto.
  - intros k md Hk.
    destruct (handle_metadata_shape e w w' He) as [E|(k0 & md' & E & Hmd)];
      rewrite E in Hk.
    + eapply handle_agents_mono; eauto.
    + apply lookup_insert_Some in Hk as [[<- <-]|[_ Hk]];
        eapply handle_agents_mono; eauto.
  - intros k r Hk.
    destruct (handle_responses_shape e w w' He) as [E|(k0 & r' & E & Hr)];
      rewrite E in Hk.
    + eapply handle_feedbacks_mono; eauto.
    + apply lookup_insert_Some in Hk as [[<- <-]|[_ Hk]];
        eapply handle_feedbacks_mono; eauto.
Qed.

Lemma reachable_referencesInv w : reachable w → referencesInv w.
Proof.
  intros Hr. cut (wellKeyed w ∧ referencesInv w); [by intros [_ ?]|].
  revert w Hr. apply reachable_preserves.
  - split; [apply wellKeyed_empty|].
    split_and!; intros ?? Hk; simpl in Hk; by rewrite lookup_empty in Hk.
  - intros e w w' [Hwk HI] He. split.
    + by eapply wellKeyed_handle.
    + by eapply referencesInv_handle.
Qed.

(** X21.  In every store the handlers can build no reference dangles:
    every Feedback and every AgentMetadata points at a stored Agent, every
    AgentStats record sits under the key of a stored Agent and names it,
    and every FeedbackResponse points at a stored Feedback. *)
Theorem X21_no_dangling_reference w :
  reachable w →
  (∀ k f, feedbacks w !! k = Some f →
     is_Some (agents w !! Feedback.agent f)) ∧
  (∀ k st, agentStats w !! k = Some st →
     AgentStats.agent st = k ∧ is_Some (agents w !! k)) ∧
  (∀ k md, agentMetadata w !! k = Some md →
     is_Some (agents w !! AgentMetadata.agent md)) ∧
  (∀ k r, responses w !! k = Some r →
     is_Some (feedbacks w !! FeedbackResponse.feedback r)).
Proof. apply reachable_referencesInv. Qed.

End References.

(* ===================================================================== *)
(** * From the event to the stored registration record                    *)
(* ===================================================================== *)

(** X20.  Handler and file handler fit together: when the file handler
    runs on a registration data source some event's handler created and
    stores a record, the record sits under the key built from the event's
    transaction hash and the content id, is stamped with the event's block
    time, and names an Agent that is stored after the event. *)
Theorem X20_registration_record_names_a_stored_agent `{HostEnv} `{JsonHost}
    (e : Event) (w w' : World) (d : DataSource) (content : Bytes)
    (files files' : gmap string AgentRegistrationFile.t) :
  wellKeyed w →
  handle e w = Some w' →
  CreateDataSource d ∈ effectsSince w w' →
  ds_template d = RegistrationFileTemplate
  ∨ ds_template d = ArweaveRegistrationFileTemplate →
  Parser.parseRegistrationFile content d files = Some files' →
  files' = files ∨
  ∃ md a,
    files' = <[AgentRegistrationFile.id md := md]> files ∧
    AgentRegistrationFile.id md
    = toHexString (ev_txHash (eventMeta e)) +:+ ":" +:+ ds_param d ∧
    AgentRegistrationFile.cid md = ds_param d ∧
    AgentRegistrationFile.createdAt md = ev_timestamp (eventMeta e) ∧
    agents w' !! AgentRegistrationFile.agentId md = Some a.
Proof.
  intros Hwk He Hin Htpl Hparse.
  pose proof (handle_requests e w w' d He Hin) as (_ & _ & Htx & Hts & Hreq).
  pose proof (parseRegistrationFile_stores content d files files' Hparse)
    as Hst.
  destruct (json_try_fromBytes content) as [[| | | | |obj]|]; try by left.
  right. destruct Hst as (k & md & Hk & -> & Hid & Hag & Hcr & Hcid).
  unfold Parser.recordKey in Hk. rewrite Htx in Hk. simpl in Hk.
  injection Hk as <-.
  rewrite Hts in Hcr. injection Hcr as Hcr.
  assert (∃ key, getString "agentId" (ds_context d) = Some key ∧
                 is_Some (agents w' !! key)) as (key & Hkey & [a Ha]).
  { destruct e; try done.
    - destruct Hreq as [Hreq _]. eexists. split; [exact Hreq|].
      simpl in He. injection He as <-.
      destruct (register_agents m agentId tokenURI owner w Hwk) as (A' & -> & _).
      rewrite lookup_insert_eq. eauto.
    - destruct Hreq as [Hreq _]. eexists. split; [exact Hreq|].
      destruct (agents w !! agentEntityIdOf (ev_chainId m) agentId) eqn:E.
      + eapply handle_agents_mono; eauto.
      + exfalso. simpl in He. injection He as <-. revert Hin.
        unfold Identity.handleUriUpdated. rewrite E.
        unfold effectsSince. rewrite drop_all. by intros ?%elem_of_nil.
    - destruct Hreq as (_ & [(Ht & _)|(Ht & _)]);
        destruct Htpl as [Ht'|Ht']; congruence. }
  rewrite Hkey in Hag. injection Hag as Hag.
  exists md, a. rewrite Hid, <- Hag, <- Hcr. by split_and!.
Qed.

(* ===================================================================== *)
(** * The aggregate counters never decrease                               *)
(* ===================================================================== *)

Section Monotone.
Context `{HostEnv}.

Lemma identity_ups_protocols_le c a t w k p :
  wellKeyed w →
  protocols w !! k = Some p →
  ∃ p', protocols (Identity.updateProtocolStats c a t w) !! k = Some p' ∧
        Protocol.totalAgents p ≤ Protocol.totalAgents p' ∧
        Protocol.totalFeedback p ≤ Protocol.totalFeedback p'.
Proof.
  intros Hwk Hk.
  destruct (isSupportedChain c) eqn:Hc; last first.
  { rewrite identity_ups_unsupported by done. exists p. split; [done|lia]. }
  rewrite identity_ups_protocols by done.
  destruct (decide (toString c = k)) as [<-|Hne].
  - rewrite lookup_insert_eq. eexists. split; [reflexivity|]. simpl.
    unfold protocolView. rewrite Hk. simpl. lia.
  - rewrite lookup_insert_ne by done. exists p. split; [done|lia].
Qed.

Lemma handle_protocols_le e w w' k p :
  wellKeyed w → handle e w = Some w' →
  protocols w !! k = Some p →
  ∃ p', protocols w' !! k = Some p' ∧
        Protocol.totalAgents p ≤ Protocol.totalAgents p' ∧
        Protocol.totalFeedback p ≤ Protocol.totalFeedback p'.
Proof.
  intros Hwk He Hk.
  destruct (qualifying e w) eqn:Hq; last first.
  { destruct (handle_not_qualifying e w w' He Hq) as [-> _].
    exists p. split; [done|lia]. }
  destruct e; simpl in Hq; try done; simpl in He.
  - injection He as <-. rewrite register_protocols.
    pose proof (wellKeyed_Agent_save
                  (registeredAgent m agentId tokenURI owner w) w Hwk) as Hwk0.
    destruct (identity_ups_protocols_le (ev_chainId m)
                (registeredAgent m agentId tokenURI owner w) (ev_timestamp m)
                _ k p Hwk0 Hk) as (p1 & Hk1 & Ha1 & Hf1).
    destruct (identity_ups_protocols_le (ev_chainId m)
                (registeredAgent m agentId tokenURI owner w) (ev_timestamp m)
                _ k p1
                (wellKeyed_identity_updateProtocolStats _ _ _ _ Hwk0) Hk1)
      as (p2 & Hk2 & Ha2 & Hf2).
    exists p2. split; [done|lia].
  - apply bool_decide_eq_true in Hq as [a Ha].
    destruct (newFeedback_aggregates _ _ _ _ _ _ _ _ _ _ _ Hwk Ha He)
      as [-> _].
    destruct (isSupportedChain (ev_chainId m));
      [|exists p; split; [done|lia]].
    destruct (decide (toString (ev_chainId m) = k)) as [<-|Hne].
    + rewrite lookup_insert_eq. eexists. split; [reflexivity|]. simpl.
      unfold protocolView. rewrite Hk. simpl. lia.
    + rewrite lookup_insert_ne by done. exists p. split; [done|lia].
Qed.

Lemma handle_global_le e w w' :
  wellKeyed w → handle e w = Some w' →
  GlobalStats.totalAgents (globalView w)
    ≤ GlobalStats.totalAgents (globalView w') ∧
  GlobalStats.totalFeedback (globalView w)
    ≤ GlobalStats.totalFeedback (globalView w') ∧
  GlobalStats.totalProtocols (globalView w)
    ≤ GlobalStats.totalProtocols (globalView w').
Proof.
  intros Hwk He.
  destruct (qualifying e w) eqn:Hq; last first.
  { destruct (handle_not_qualifying e w w' He Hq) as [_ Eg].
    unfold globalView. rewrite Eg. lia. }
  destruct e; simpl in Hq; try done; simpl in He.
  - injection He as <-.
    destruct (register_globalView m agentId tokenURI owner w Hwk)
      as (_ & -> & -> & -> & _).
    destruct (createsProtocol w (ev_chainId m)); lia.
  - apply bool_decide_eq_true in Hq as [a Ha].
    destruct (newFeedback_aggregates _ _ _ _ _ _ _ _ _ _ _ Hwk Ha He)
      as [_ ->].
    simpl. lia.
Qed.

(** X22.  Along every event stream the aggregate counters never decrease:
    the agent, feedback and protocol counters of GlobalStats, and the
    agent and feedback counters of every stored Protocol, which is never
    deleted.  (The per-agent feedback counter is the only counter a
    handler ever lowers.) *)
Theorem X22_aggregate_counters_never_decrease es w w' :
  wellKeyed w →
  run es w = Some w' →
  GlobalStats.totalAgents (globalView w)
    ≤ GlobalStats.totalAgents (globalView w') ∧
  GlobalStats.totalFeedback (globalView w)
    ≤ GlobalStats.totalFeedback (globalView w') ∧
  GlobalStats.totalProtocols (globalView w)
    ≤ GlobalStats.totalProtocols (globalView w') ∧
  (∀ k p, protocols w !! k = Some p →
     ∃ p', protocols w' !! k = Some p' ∧
           Protocol.totalAgents p ≤ Protocol.totalAgents p' ∧
           Protocol.totalFeedback p ≤ Protocol.totalFeedback p').
Proof.
  revert w. induction es as [|e es IH]; intros w Hwk Hrun; simpl in Hrun.
  - injection Hrun as <-. split_and!; try lia.
    intros k p Hk. exists p. split; [done|lia].
  - apply bind_Some in Hrun as (w1 & He & Hrun).
    destruct (IH w1 (wellKeyed_handle _ _ _ Hwk He) Hrun)
      as (Ha & Hf & Hp & Hprot).
    destruct (handle_global_le e w w1 Hwk He) as (Ha1 & Hf1 & Hp1).
    split_and!; try lia.
    intros k p Hk.
    destruct (handle_protocols_le e w w1 k p Hwk He Hk)
      as (p1 & Hk1 & Hpa1 & Hpf1).
    destruct (Hprot k p1 Hk1) as (p' & Hk' & Hpa & Hpf).
    exists p'. split; [done|lia].
Qed.

End Monotone.

(* ===================================================================== *)
(** * The properties above on the concrete configuration                  *)
(* ===================================================================== *)

Lemma demoTwiceRevokedWorld_reachable : @reachable demoHost demoTwiceRevokedWorld.
Proof.
  exists [demoRegisterPlain; demoFeedback 80; demoRevoke; demoRevoke].
  vm_compute. reflexivity.
Qed.

Lemma demoTwoChainWorld_reachable : @reachable demoHost demoTwoChainWorld.
Proof.
  exists [demoRegisterPlain; Registered demoMetaOther 7 "" demoOwner].
  vm_compute. reflexivity.
Qed.

Lemma demoSetWorld_reachable : @reachable demoHost demoSetWorld.
Proof. exists demoSetEvents. vm_compute. reflexivity. Qed.

Lemma X2_agent_counter_matches_stats_witness :
  ∃ a,
    @reachable demoHost demoFeedbackWorld ∧
    agents demoFeedbackWorld !! "1:7" = Some a ∧
    Agent.totalFeedback a
    = default 0 (AgentStats.totalFeedback <$> agentStats demoFeedbackWorld !! "1:7").
Proof.
  assert (∃ a, agents demoFeedbackWorld !! "1:7" = Some a) as [a Ha]
    by (vm_compute; eauto).
  exists a. split; [apply demoFeedbackWorld_reachable|]. split; [exact Ha|].
  exact (@X2_agent_counter_matches_stats demoHost demoFeedbackWorld "1:7" a
           demoFeedbackWorld_reachable Ha).
Defined.

Lemma X3_new_feedback_aborts_iff_counter_is_minus_one_witness :
  ∃ a,
    @reachable demoHost demoTwiceRevokedWorld ∧
    agents demoTwiceRevokedWorld !! agentEntityIdOf (ev_chainId demoMeta) 7
      = Some a ∧
    Agent.totalFeedback a = -1 ∧
    @Reputation.handleNewFeedback demoHost demoMeta 7 demoClient 50 zeroBytes32
      zeroBytes32 "" [] demoTwiceRevokedWorld = None.
Proof.
  assert (∃ a, agents demoTwiceRevokedWorld
                 !! agentEntityIdOf (ev_chainId demoMeta) 7 = Some a ∧
               Agent.totalFeedback a = -1) as (a & Ha & Hta)
    by (vm_compute; eauto).
  exists a. split; [apply demoTwiceRevokedWorld_reachable|].
  split; [exact Ha|]. split; [exact Hta|].
  apply (@X3_new_feedback_aborts_iff_counter_is_minus_one demoHost demoMeta 7
           demoClient 50 zeroBytes32 zeroBytes32 "" [] demoTwiceRevokedWorld a
           demoTwiceRevokedWorld_reachable Ha).
  exact Hta.
Defined.

Lemma X4_agent_persists_with_creation_time_witness :
  ∃ w' a a',
    wellKeyed demoRegisteredWorld ∧
    @run demoHost [Registered demoMetaLater 7 "ipfs://Qm" demoClient;
                   demoFeedback 50] demoRegisteredWorld = Some w' ∧
    agents demoRegisteredWorld !! "1:7" = Some a ∧
    Agent.createdAt a = 1000 ∧
    agents w' !! "1:7" = Some a' ∧
    Agent.id a' = Agent.id a ∧
    Agent.createdAt a' = Agent.createdAt a.
Proof.
  assert (∃ w', @run demoHost [Registered demoMetaLater 7 "ipfs://Qm" demoClient;
                               demoFeedback 50] demoRegisteredWorld = Some w')
    as [w' Hrun] by (vm_compute; eauto).
  assert (∃ a, agents demoRegisteredWorld !! "1:7" = Some a ∧
               Agent.createdAt a = 1000) as (a & Ha & Hc)
    by (vm_compute; eauto).
  pose proof (@reachable_wellKeyed demoHost _ demoRegisteredWorld_reachable)
    as Hwk.
  destruct (@X4_agent_persists_with_creation_time demoHost _ _ _ "1:7" a Hwk
              Hrun Ha) as (a' & Ha' & Hid & Hc').
  exists w', a, a'. split_and!.
  - exact Hwk.
  - exact Hrun.
  - exact Ha.
  - exact Hc.
  - exact Ha'.
  - exact Hid.
  - exact Hc'.
Defined.

Lemma X5_operators_are_never_removed_witness :
  ∃ w' a a',
    @reachable demoHost demoSetWorld ∧
    @run demoHost [Approval demoMeta 7 zeroAddress;
                   Transfer demoMetaLater demoOwner demoClient 7]
      demoSetWorld = Some w' ∧
    agents demoSetWorld !! "1:7" = Some a ∧
    Agent.operators a = [demoOperator] ∧
    agents w' !! "1:7" = Some a' ∧
    Agent.operators a `prefix_of` Agent.operators a'.
Proof.
  assert (∃ w', @run demoHost [Approval demoMeta 7 zeroAddress;
                               Transfer demoMetaLater demoOwner demoClient 7]
                  demoSetWorld = Some w') as [w' Hrun] by (vm_compute; eauto).
  assert (∃ a, agents demoSetWorld !! "1:7" = Some a ∧
               Agent.operators a = [demoOperator]) as (a & Ha & Ho)
    by (vm_compute; eauto).
  destruct (@X5_operators_are_never_removed demoHost _ _ _ "1:7" a
              demoSetWorld_reachable Hrun Ha) as (a' & Ha' & Hpre).
  exists w', a, a'. split_and!.
  - apply demoSetWorld_reachable.
  - exact Hrun.
  - exact Ha.
  - exact Ho.
  - exact Ha'.
  - exact Hpre.
Defined.

Lemma X6_owner_changes_only_by_register_or_transfer_witness :
  ∃ w' a a',
    wellKeyed demoRegisteredWorld ∧
    @handle demoHost (Transfer demoMetaLater demoOwner demoClient 7)
      demoRegisteredWorld = Some w' ∧
    agents demoRegisteredWorld !! "1:7" = Some a ∧
    agents w' !! "1:7" = Some a' ∧
    Agent.owner a' ≠ Agent.owner a ∧
    ((∃ m agentId tokenURI,
        Transfer demoMetaLater demoOwner demoClient 7
        = Registered m agentId tokenURI (Agent.owner a') ∧
        "1:7" = agentEntityIdOf (ev_chainId m) agentId) ∨
     (∃ m from tokenId,
        Transfer demoMetaLater demoOwner demoClient 7
        = Transfer m from (Agent.owner a') tokenId ∧
        "1:7" = agentEntityIdOf (ev_chainId m) tokenId ∧
        from ≠ zeroAddress)).
Proof.
  assert (∃ w', @handle demoHost (Transfer demoMetaLater demoOwner demoClient 7)
                  demoRegisteredWorld = Some w') as [w' He]
    by (vm_compute; eauto).
  assert (∃ a, agents demoRegisteredWorld !! "1:7" = Some a ∧
               Agent.owner a = demoOwner) as (a & Ha & Ho)
    by (vm_compute; eauto).
  assert (∃ a', agents w' !! "1:7" = Some a' ∧ Agent.owner a' = demoClient)
    as (a' & Ha' & Ho').
  { revert He. vm_compute. intros [= <-]. eauto. }
  assert (Agent.owner a' ≠ Agent.owner a) as Hne.
  { rewrite Ho, Ho'. discriminate. }
  pose proof (@reachable_wellKeyed demoHost _ demoRegisteredWorld_reachable)
    as Hwk.
  exists w', a, a'. split_and!.
  - exact Hwk.
  - exact He.
  - exact Ha.
  - exact Ha'.
  - exact Hne.
  - exact (@X6_owner_changes_only_by_register_or_transfer demoHost _ _ _ _ _ _
             Hwk He Ha Ha' Hne).
Defined.

Lemma X7_agent_counter_is_membership_length_witness :
  @reachable demoHost demoFeedbackWorld ∧
  (∀ k p, protocols demoFeedbackWorld !! k = Some p →
     Protocol.totalAgents p = Z.of_nat (length (Protocol.agents p))) ∧
  GlobalStats.totalAgents (globalView demoFeedbackWorld)
  = Z.of_nat (length (GlobalStats.agents (globalView demoFeedbackWorld))).
Proof.
  split; [apply demoFeedbackWorld_reachable|].
  exact (@X7_agent_counter_is_membership_length demoHost demoFeedbackWorld
           demoFeedbackWorld_reachable).
Defined.

Lemma X8_new_feedback_counts_once_at_every_scope_witness :
  ∃ w' a,
    wellKeyed demoFeedbackWorld ∧
    agents demoFeedbackWorld !! agentEntityIdOf (ev_chainId demoMeta) 7 = Some a ∧
    Agent.totalFeedback a = 1 ∧
    @Reputation.handleNewFeedback demoHost demoMeta 7 demoClient 50 zeroBytes32
      zeroBytes32 "" [] demoFeedbackWorld = Some w' ∧
    agentTotalOf w' (agentEntityIdOf (ev_chainId demoMeta) 7) = 2 ∧
    statsTotalOf w' (agentEntityIdOf (ev_chainId demoMeta) 7)
      = statsTotalOf demoFeedbackWorld (agentEntityIdOf (ev_chainId demoMeta) 7) + 1 ∧
    GlobalStats.totalFeedback (globalView w')
      = GlobalStats.totalFeedback (globalView demoFeedbackWorld) + 1 ∧
    Protocol.totalFeedback (@protocolView demoHost w' (ev_chainId demoMeta))
      = Protocol.totalFeedback
          (@protocolView demoHost demoFeedbackWorld (ev_chainId demoMeta)) + 1.
Proof.
  assert (∃ w', @Reputation.handleNewFeedback demoHost demoMeta 7 demoClient 50
                  zeroBytes32 zeroBytes32 "" [] demoFeedbackWorld = Some w')
    as [w' He] by (vm_compute; eauto).
  assert (∃ a, agents demoFeedbackWorld
                 !! agentEntityIdOf (ev_chainId demoMeta) 7 = Some a ∧
               Agent.totalFeedback a = 1) as (a & Ha & Hta)
    by (vm_compute; eauto).
  pose proof (@reachable_wellKeyed demoHost _ demoFeedbackWorld_reachable)
    as Hwk.
  destruct (@X8_new_feedback_counts_once_at_every_scope demoHost demoMeta 7
              demoClient 50 zeroBytes32 zeroBytes32 "" [] demoFeedbackWorld w' a
              Hwk Ha He) as (H1 & H2 & H3 & H4).
  exists w', a. split_and!.
  - exact Hwk.
  - exact Ha.
  - exact Hta.
  - exact He.
  - rewrite H1, Hta. reflexivity.
  - exact H2.
  - exact H3.
  - exact H4.
Defined.

Lemma X9_aggregates_change_only_by_register_and_feedback_witness :
  ∃ w',
    @handle demoHost demoRegisterOther demoRegisteredWorld = Some w' ∧
    globalStats w' ≠ globalStats demoRegisteredWorld ∧
    ((∃ m agentId tokenURI owner,
        demoRegisterOther = Registered m agentId tokenURI owner) ∨
     (∃ m agentId client score tag1 tag2 uri hash,
        demoRegisterOther
        = NewFeedback m agentId client score tag1 tag2 uri hash ∧
        is_Some (agents demoRegisteredWorld
                   !! agentEntityIdOf (ev_chainId m) agentId))).
Proof.
  assert (∃ w', @handle demoHost demoRegisterOther demoRegisteredWorld = Some w')
    as [w' He] by (vm_compute; eauto).
  assert (globalStats w' ≠ globalStats demoRegisteredWorld) as Hne.
  { intros Heq.
    apply (f_equal (λ g, GlobalStats.totalAgents <$> g !! "global")) in Heq.
    revert He Heq. vm_compute. intros [= <-]. discriminate. }
  exists w'. split; [exact He|]. split; [exact Hne|].
  exact (@X9_aggregates_change_only_by_register_and_feedback demoHost _ _ _ He
           (or_intror Hne)).
Defined.

Lemma X10_register_on_unsupported_chain_witness :
  wellKeyed demoRegisteredWorld ∧
  @isSupportedChain demoHost (ev_chainId demoMetaOther) = false ∧
  is_Some (agents (@Identity.handleAgentRegistered demoHost demoMetaOther 7 ""
                     demoOwner demoRegisteredWorld)
             !! agentEntityIdOf (ev_chainId demoMetaOther) 7) ∧
  protocols (@Identity.handleAgentRegistered demoHost demoMetaOther 7 ""
               demoOwner demoRegisteredWorld)
  = protocols demoRegisteredWorld ∧
  GlobalStats.totalAgents
    (globalView (@Identity.handleAgentRegistered demoHost demoMetaOther 7 ""
                   demoOwner demoRegisteredWorld))
  = GlobalStats.totalAgents (globalView demoRegisteredWorld) + 1 ∧
  GlobalStats.totalProtocols
    (globalView (@Identity.handleAgentRegistered demoHost demoMetaOther 7 ""
                   demoOwner demoRegisteredWorld))
  = GlobalStats.totalProtocols (globalView demoRegisteredWorld).
Proof.
  pose proof (@reachable_wellKeyed demoHost _ demoRegisteredWorld_reachable)
    as Hwk.
  assert (@isSupportedChain demoHost (ev_chainId demoMetaOther) = false) as Hc
    by reflexivity.
  split; [exact Hwk|]. split; [exact Hc|].
  exact (@X10_register_on_unsupported_chain demoHost demoMetaOther 7 ""
           demoOwner demoRegisteredWorld Hwk Hc).
Defined.


Lemma X12_feedback_after_revocation_overwrites_witness :
  ∃ a f w2 f2,
    wellKeyed demoFeedbackWorld ∧
    agents demoFeedbackWorld !! agentEntityIdOf (ev_chainId demoMeta) 7 = Some a ∧
    feedbacks demoFeedbackWorld
      !! feedbackIdOf (agentEntityIdOf (ev_chainId demoMeta) 7) demoClient
           (Agent.totalFeedback a) = Some f ∧
    Feedback.score f = 80 ∧
    @Reputation.handleNewFeedback demoHost demoMetaLater 7 demoClient 50
      zeroBytes32 zeroBytes32 "" []
      (Reputation.handleFeedbackRevoked demoMeta 7 demoClient
         (Agent.totalFeedback a) demoFeedbackWorld) = Some w2 ∧
    feedbacks w2
    = <[feedbackIdOf (agentEntityIdOf (ev_chainId demoMeta) 7) demoClient
          (Agent.totalFeedback a) := f2]> (feedbacks demoFeedbackWorld) ∧
    dom (feedbacks w2) = dom (feedbacks demoFeedbackWorld) ∧
    Feedback.score f2 = 50 ∧
    Feedback.isRevoked f2 = false.
Proof.
  assert (∃ a, agents demoFeedbackWorld
                 !! agentEntityIdOf (ev_chainId demoMeta) 7 = Some a ∧
               Agent.totalFeedback a = 1) as (a & Ha & Hta)
    by (vm_compute; eauto).
  assert (∃ f, feedbacks demoFeedbackWorld
                 !! feedbackIdOf (agentEntityIdOf (ev_chainId demoMeta) 7)
                      demoClient (Agent.totalFeedback a) = Some f ∧
               Feedback.score f = 80) as (f & Hf & Hs).
  { rewrite Hta. vm_compute. eauto. }
  assert (∃ w2, @Reputation.handleNewFeedback demoHost demoMetaLater 7
                  demoClient 50 zeroBytes32 zeroBytes32 "" []
                  (Reputation.handleFeedbackRevoked demoMeta 7 demoClient
                     (Agent.totalFeedback a) demoFeedbackWorld) = Some w2)
    as [w2 He].
  { rewrite Hta. vm_compute. eauto. }
  pose proof (@reachable_wellKeyed demoHost _ demoFeedbackWorld_reachable)
    as Hwk.
  destruct (@X12_feedback_after_revocation_overwrites demoHost demoMeta
              demoMetaLater 7 demoClient 50 zeroBytes32 zeroBytes32 "" []
              demoFeedbackWorld w2 a f Hwk eq_refl Ha Hf He)
    as (f2 & Ef & Hdom & Hs2 & Hr2 & _).
  exists a, f, w2, f2. split_and!.
  - exact Hwk.
  - exact Ha.
  - exact Hf.
  - exact Hs.
  - exact He.
  - exact Ef.
  - exact Hdom.
  - exact Hs2.
  - exact Hr2.
Defined.

Lemma X13_responses_are_keyed_by_feedback_and_timestamp_witness :
  ∃ f r2,
    feedbacks demoFeedbackWorld
      !! feedbackIdOf (agentEntityIdOf (ev_chainId demoMeta) 7) demoClient 1
      = Some f ∧
    responses
      (Reputation.handleResponseAppended demoMeta 7 demoClient 1 demoClient
         "second" []
         (Reputation.handleResponseAppended demoMeta 7 demoClient 1 demoOwner
            "first" [] demoFeedbackWorld))
    = <[feedbackIdOf (agentEntityIdOf (ev_chainId demoMeta) 7) demoClient 1
        +:+ ":" +:+ toString (ev_timestamp demoMeta) := r2]>
        (responses demoFeedbackWorld) ∧
    FeedbackResponse.responder r2 = demoClient ∧
    FeedbackResponse.responseUri r2 = "second".
Proof.
  assert (∃ f, feedbacks demoFeedbackWorld
                 !! feedbackIdOf (agentEntityIdOf (ev_chainId demoMeta) 7)
                      demoClient 1 = Some f) as [f Hf]
    by (vm_compute; eauto).
  destruct (@X13_responses_are_keyed_by_feedback_and_timestamp demoMeta
              demoMeta 7 demoClient 1 demoOwner "first" [] demoClient "second"
              [] demoFeedbackWorld f eq_refl Hf)
    as [(r2 & _ & Hr & Hu & Hsame) _].
  exists f, r2. split_and!.
  - exact Hf.
  - exact (Hsame eq_refl).
  - exact Hr.
  - exact Hu.
Defined.

Lemma X14_metadata_is_keyed_by_agent_id_and_key_witness :
  ∃ a1 a2 md,
    wellKeyed demoTwoChainWorld ∧
    agents demoTwoChainWorld !! agentEntityIdOf (ev_chainId demoMeta) 7
      = Some a1 ∧
    agents demoTwoChainWorld !! agentEntityIdOf (ev_chainId demoMetaOther) 7
      = Some a2 ∧
    agentMetadata
      (@Identity.handleMetadataSet demoMetaOther 7 "role" [Byte.x02]
         (@Identity.handleMetadataSet demoMeta 7 "role" [Byte.x01]
            demoTwoChainWorld))
    = <[toString 7 +:+ ":" +:+ "role" := md]> (agentMetadata demoTwoChainWorld) ∧
    AgentMetadata.value md = [Byte.x02] ∧
    AgentMetadata.agent md = agentEntityIdOf (ev_chainId demoMetaOther) 7.
Proof.
  assert (∃ a1, agents demoTwoChainWorld
                  !! agentEntityIdOf (ev_chainId demoMeta) 7 = Some a1)
    as [a1 Ha1] by (vm_compute; eauto).
  assert (∃ a2, agents demoTwoChainWorld
                  !! agentEntityIdOf (ev_chainId demoMetaOther) 7 = Some a2)
    as [a2 Ha2] by (vm_compute; eauto).
  pose proof (@reachable_wellKeyed demoHost _ demoTwoChainWorld_reachable)
    as Hwk.
  destruct (X14_metadata_is_keyed_by_agent_id_and_key demoMeta demoMetaOther 7
              "role" [Byte.x01] [Byte.x02] demoTwoChainWorld a1 a2 Hwk Ha1 Ha2)
    as (md & Em & Hv & Hag).
  exists a1, a2, md. split_and!.
  - exact Hwk.
  - exact Ha1.
  - exact Ha2.
  - exact Em.
  - exact Hv.
  - exact Hag.
Defined.

Lemma X15_uri_update_type_and_link_witness :
  ∃ a a',
    wellKeyed demoRegisterFileWorld ∧
    agents demoRegisterFileWorld !! agentEntityIdOf (ev_chainId demoMetaLater) 7
      = Some a ∧
    Agent.agentURIType a = "ipfs" ∧
    Agent.registrationFile a = Some "0xabcd:Qm" ∧
    agents (@Identity.handleUriUpdated demoHost demoMetaLater 7 "https://a.b"
              demoRegisterFileWorld)
    = <[agentEntityIdOf (ev_chainId demoMetaLater) 7 := a']>
        (agents demoRegisterFileWorld) ∧
    Agent.agentURI a' = "https://a.b" ∧
    Agent.agentURIType a' = "ipfs" ∧
    Agent.registrationFile a' = Some "0xabcd:Qm".
Proof.
  assert (∃ a, agents demoRegisterFileWorld
                 !! agentEntityIdOf (ev_chainId demoMetaLater) 7 = Some a ∧
               Agent.agentURIType a = "ipfs" ∧
               Agent.registrationFile a = Some "0xabcd:Qm")
    as (a & Ha & Hty & Hrf) by (vm_compute; eauto).
  assert (@reachable demoHost demoRegisterFileWorld) as Hr
    by (exists [demoRegister]; reflexivity).
  pose proof (@reachable_wellKeyed demoHost _ Hr) as Hwk.
  destruct (@X15_uri_update_type_and_link demoHost demoMetaLater 7
              "https://a.b" demoRegisterFileWorld a Hwk Ha)
    as (a' & Ea & Huri & Hty' & Hrf' & _).
  exists a, a'. split_and!.
  - exact Hwk.
  - exact Ha.
  - exact Hty.
  - exact Hrf.
  - exact Ea.
  - exact Huri.
  - rewrite Hty'. exact Hty.
  - rewrite Hrf'. exact Hrf.
Defined.

Lemma X16_data_source_names_its_entity_witness :
  @handle demoHost demoRegister emptyWorld = Some demoRegisterFileWorld ∧
  CreateDataSource demoDataSource
    ∈ effectsSince emptyWorld demoRegisterFileWorld ∧
  @requestedBy demoHost demoRegister emptyWorld demoDataSource.
Proof.
  assert (@handle demoHost demoRegister emptyWorld = Some demoRegisterFileWorld)
    as He by reflexivity.
  assert (CreateDataSource demoDataSource
            ∈ effectsSince emptyWorld demoRegisterFileWorld) as Hin.
  { assert (∃ pre post,
              effectsSince emptyWorld demoRegisterFileWorld
              = pre ++ CreateDataSource demoDataSource :: post)
      as (pre & post & ->).
    { eexists [_; _; _; _; _], [_]. vm_compute. reflexivity. }
    apply elem_of_app. right. left. }
  split; [exact He|]. split; [exact Hin|].
  exact (@X16_data_source_names_its_entity demoHost _ _ _ _ He Hin).
Defined.


Lemma X18_parse_aborts_only_on_bad_flag_or_wallet_chain_witness :
  @Parser.parseRegistrationJSON (demoDocHost (Some demoBadFlagDocument)) []
    "0xabcd:Qm" "1:7" "Qm" 1000 = None.
Proof.
  apply (@X18_parse_aborts_only_on_bad_flag_or_wallet_chain
           (demoDocHost (Some demoBadFlagDocument))).
  eexists. split; [reflexivity|]. left. split; reflexivity.
Defined.

Lemma X19_file_handler_stores_iff_object_witness :
  ∃ files' k md,
    @Parser.parseRegistrationFile demoJsonHost [Byte.x7b] demoDataSource ∅
      = Some files' ∧
    Parser.recordKey demoDataSource = Some k ∧
    files' = <[k := md]> ∅ ∧
    AgentRegistrationFile.id md = k ∧
    getString "agentId" (ds_context demoDataSource)
      = Some (AgentRegistrationFile.agentId md) ∧
    AgentRegistrationFile.cid md = ds_param demoDataSource.
Proof.
  assert (∃ files', @Parser.parseRegistrationFile demoJsonHost [Byte.x7b]
                      demoDataSource ∅ = Some files') as [files' Hp]
    by (vm_compute; eauto).
  destruct (@X19_file_handler_stores_iff_object demoJsonHost [Byte.x7b]
              demoDataSource ∅ files' Hp)
    as (k & md & Hk & Hf & Hid & Hag & _ & Hcid).
  exists files', k, md. split_and!.
  - exact Hp.
  - exact Hk.
  - exact Hf.
  - exact Hid.
  - exact Hag.
  - exact Hcid.
Defined.

Lemma X20_registration_record_names_a_stored_agent_witness :
  ∃ files',
    wellKeyed emptyWorld ∧
    @handle demoHost demoRegister emptyWorld = Some demoRegisterFileWorld ∧
    CreateDataSource demoDataSource
      ∈ effectsSince emptyWorld demoRegisterFileWorld ∧
    ds_template demoDataSource = RegistrationFileTemplate ∧
    @Parser.parseRegistrationFile demoJsonHost [Byte.x7b] demoDataSource ∅
      = Some files' ∧
    ∃ md a,
      files' = <[AgentRegistrationFile.id md := md]> ∅ ∧
      AgentRegistrationFile.id md = "0xabcd:Qm" ∧
      AgentRegistrationFile.createdAt md = 1000 ∧
      agents demoRegisterFileWorld !! AgentRegistrationFile.agentId md = Some a.
Proof.
  assert (@handle demoHost demoRegister emptyWorld = Some demoRegisterFileWorld)
    as He by reflexivity.
  assert (CreateDataSource demoDataSource
            ∈ effectsSince emptyWorld demoRegisterFileWorld) as Hin.
  { assert (∃ pre post,
              effectsSince emptyWorld demoRegisterFileWorld
              = pre ++ CreateDataSource demoDataSource :: post)
      as (pre & post & ->).
    { eexists [_; _; _; _; _], [_]. vm_compute. reflexivity. }
    apply elem_of_app. right. left. }
  assert (∃ files', @Parser.parseRegistrationFile demoJsonHost [Byte.x7b]
                      demoDataSource ∅ = Some files') as [files' Hp]
    by (vm_compute; eauto).
  exists files'. split; [exact wellKeyed_empty|]. split; [exact He|].
  split; [exact Hin|]. split; [reflexivity|]. split; [exact Hp|].
  destruct (@X20_registration_record_names_a_stored_agent demoHost demoJsonHost
              demoRegister emptyWorld demoRegisterFileWorld demoDataSource
              [Byte.x7b] ∅ files' wellKeyed_empty He Hin (or_introl eq_refl) Hp)
    as [->|(md & a & Hf & Hid & _ & Hcr & Ha)].
  - exfalso. revert Hp. vm_compute. discriminate.
  - exists md, a. split_and!.
    + exact Hf.
    + exact Hid.
    + exact Hcr.
    + exact Ha.
Defined.

Lemma X21_no_dangling_reference_witness :
  @reachable demoHost demoFeedbackWorld ∧
  (∀ k f, feedbacks demoFeedbackWorld !! k = Some f →
     is_Some (agents demoFeedbackWorld !! Feedback.agent f)) ∧
  (∀ k st, agentStats demoFeedbackWorld !! k = Some st →
     AgentStats.agent st = k ∧ is_Some (agents demoFeedbackWorld !! k)) ∧
  (∀ k md, agentMetadata demoFeedbackWorld !! k = Some md →
     is_Some (agents demoFeedbackWorld !! AgentMetadata.agent md)) ∧
  (∀ k r, responses demoFeedbackWorld !! k = Some r →
     is_Some (feedbacks demoFeedbackWorld !! FeedbackResponse.feedback r)).
Proof.
  split; [apply demoFeedbackWorld_reachable|].
  exact (@X21_no_dangling_reference demoHost demoFeedbackWorld
           demoFeedbackWorld_reachable).
Defined.

Lemma X22_aggregate_counters_never_decrease_witness :
  ∃ w',
    wellKeyed demoFeedbackWorld ∧
    @run demoHost [demoRevoke; demoRevoke; demoRegisterOther] demoFeedbackWorld
      = Some w' ∧
    agentTotalOf w' "1:7" = -1 ∧
    GlobalStats.totalFeedback (globalView demoFeedbackWorld) = 1 ∧
    GlobalStats.totalFeedback (globalView demoFeedbackWorld)
      ≤ GlobalStats.totalFeedback (globalView w') ∧
    GlobalStats.totalAgents (globalView demoFeedbackWorld)
      ≤ GlobalStats.totalAgents (globalView w') ∧
    (∀ k p, protocols demoFeedbackWorld !! k = Some p →
       ∃ p', protocols w' !! k = Some p' ∧
             Protocol.totalAgents p ≤ Protocol.totalAgents p' ∧
             Protocol.totalFeedback p ≤ Protocol.totalFeedback p').
Proof.
  assert (∃ w', @run demoHost [demoRevoke; demoRevoke; demoRegisterOther]
                  demoFeedbackWorld = Some w' ∧
                agentTotalOf w' "1:7" = -1) as (w' & Hrun & Hta)
    by (vm_compute; eauto).
  pose proof (@reachable_wellKeyed demoHost _ demoFeedbackWorld_reachable)
    as Hwk.
  destruct (@X22_aggregate_counters_never_decrease demoHost _ _ _ Hwk Hrun)
    as (Ha & Hf & _ & Hp).
  exists w'. split_and!.
  - exact Hwk.
  - exact Hrun.
  - exact Hta.
  - vm_compute. reflexivity.
  - exact Hf.
  - exact Ha.
  - exact Hp.
Defined.
